(** * Ingestion-to-retrieval core of OpenContext: embedding and properties

    The development follows the Python sources under
    [opencontext/context_processing]: the auto-tagging service, the enhanced
    search service and the code, Excel and structured-data processors.
    Part I embeds the code; Part II states and proves its properties. *)

From Stdlib Require Import ZArith QArith Lia List Ascii String DecimalString.
From Stdlib Require Import Sorted.
From stdpp Require Import base list gmap strings.

Set Warnings "-register-all".
Local Open Scope Z_scope.

(** * Part I: the embedding *)

(** ** Python run-time conventions shared by every module *)

Module Py.

(** Exceptions derived from [Exception]; these are the ones the modelled
    operations can raise, and the ones an [except Exception] clause (or a
    bare [except]) catches. *)
Inductive pyexc : Type :=
| TypeError
| ValueError
| KeyError
| AttributeError
| OSError
| JSONDecodeError
| YAMLError
| InvalidFileException
| StorageError.

(** Outcome of running a block of Python code. *)
Inductive exc (A : Type) : Type :=
| Normal (a : A)
| Raise (e : pyexc).
Arguments Normal {A} a.
Arguments Raise {A} e.

#[export] Instance exc_ret : MRet exc := fun A a => Normal a.

#[export] Instance exc_bind : MBind exc := fun A B k m =>
  match m with
  | Normal a => k a
  | Raise e => Raise e
  end.

(** [try: body / except Exception: handler] *)
Definition try_except {A} (body : exc A) (handler : pyexc → exc A) : exc A :=
  match body with
  | Normal a => Normal a
  | Raise e => handler e
  end.

(** [for x in xs: st = step st x], stopping at the first exception. *)
Fixpoint for_each {S X} (step : S → X → exc S) (xs : list X) (st : S)
  : exc S :=
  match xs with
  | [] => Normal st
  | x :: rest => st' ← step st x; for_each step rest st'
  end.

(** [l[:k]] for a Python integer [k]: a negative bound counts from the
    end of the list. *)
Definition slice_to {A} (k : Z) (l : list A) : list A :=
  if 0 <=? k then take (Z.to_nat k) l
  else take (length l - Z.to_nat (- k)) l.

(** [l[i:j]] for non-negative [i <= j]. *)
Definition slice {A} (i j : nat) (l : list A) : list A :=
  take (j - i) (drop i l).

(** The elements of [range(start, stop, step)] for a positive step. *)
Fixpoint range_up (fuel : nat) (i stop step : nat) : list nat :=
  match fuel with
  | O => []
  | S fuel' =>
      if (i <? stop)%nat then i :: range_up fuel' (i + step) stop step
      else []
  end.

(** [range(0, n, step)]: a zero step raises [ValueError], a negative one
    gives the empty range. *)
Definition range0 (n : nat) (step : Z) : exc (list nat) :=
  if step =? 0 then Raise ValueError
  else if step <? 0 then Normal []
  else Normal (range_up n 0 n (Z.to_nat step)).

(** [str(n)] for integers. *)
Definition str_of_nat (n : nat) : string :=
  NilZero.string_of_uint (Nat.to_uint n).
Definition str_of_Z (z : Z) : string :=
  NilZero.string_of_int (Z.to_int z).

(** [sep.join(parts)] *)
Fixpoint join (sep : string) (parts : list string) : string :=
  match parts with
  | [] => ""
  | [p] => p
  | p :: rest => p +:+ sep +:+ join sep rest
  end.

(** [sorted(l, key=key, reverse=True)], with [ltb] the order of the keys.
    Python's sort is stable also when reversed: among equal keys the
    earlier element stays first. *)
Section sort.
Context {A K : Type} (key : A → K) (ltb : K → K → bool).

Fixpoint insert_desc (x : A) (l : list A) : list A :=
  match l with
  | [] => [x]
  | y :: r =>
      if ltb (key x) (key y) then y :: insert_desc x r else x :: y :: r
  end.

Definition sort_desc (l : list A) : list A :=
  foldr insert_desc [] l.
End sort.

(** Python objects as the processors meet them.  A scalar is what can be a
    dictionary key or a leaf of a parsed document; a float is carried by
    the text [repr] gives it, and any other object (a date read from YAML,
    say) by its type name and the text [str] gives it. *)
Inductive scalar : Type :=
| SNone
| SBool (b : bool)
| SInt (z : Z)
| SFloat (repr : string)
| SStr (s : string)
| SOther (type_name : string) (text : string).

Inductive value : Type :=
| VScalar (s : scalar)
| VList (items : list value)
| VDict (items : list (scalar * value)).

(** [str(x)] for a scalar. *)
Definition str_of_scalar (x : scalar) : string :=
  match x with
  | SNone => "None"
  | SBool true => "True"
  | SBool false => "False"
  | SInt z => str_of_Z z
  | SFloat repr => repr
  | SStr s => s
  | SOther _ text => text
  end.

(** [type(x).__name__] *)
Definition type_name_of (v : value) : string :=
  match v with
  | VScalar SNone => "NoneType"
  | VScalar (SBool _) => "bool"
  | VScalar (SInt _) => "int"
  | VScalar (SFloat _) => "float"
  | VScalar (SStr _) => "str"
  | VScalar (SOther n _) => n
  | VList _ => "list"
  | VDict _ => "dict"
  end.

(** [sep.join(xs)] for a list of objects: an element that is not a string
    raises [TypeError]. *)
Definition join_objects (sep : string) (xs : list scalar) : exc string :=
  parts ← for_each
             (fun acc x =>
                match x with
                | SStr s => Normal (acc ++ [s])
                | _ => Raise TypeError
                end) xs [];
  Normal (join sep parts).

(** ASCII case mappings; code points outside ASCII are left alone. *)
Definition lower_ascii (c : ascii) : ascii :=
  let n := nat_of_ascii c in
  if (65 <=? n)%nat && (n <=? 90)%nat then ascii_of_nat (n + 32) else c.
Definition upper_ascii (c : ascii) : ascii :=
  let n := nat_of_ascii c in
  if (97 <=? n)%nat && (n <=? 122)%nat then ascii_of_nat (n - 32) else c.

Fixpoint str_map (f : ascii → ascii) (s : string) : string :=
  match s with
  | EmptyString => EmptyString
  | String c r => String (f c) (str_map f r)
  end.

(** [s.lower()] *)
Definition str_lower (s : string) : string := str_map lower_ascii s.

(** [s.capitalize()] *)
Definition capitalize (s : string) : string :=
  match s with
  | EmptyString => EmptyString
  | String c r => String (upper_ascii c) (str_lower r)
  end.

(** [c.isspace()] on the ASCII range. *)
Definition isspace_ascii (c : ascii) : bool :=
  let n := nat_of_ascii c in
  ((9 <=? n)%nat && (n <=? 13)%nat) || ((28 <=? n)%nat && (n <=? 32)%nat).

(** Truth value of [s.strip()]: some character is not whitespace. *)
Fixpoint has_non_space (s : string) : bool :=
  match s with
  | EmptyString => false
  | String c r => negb (isspace_ascii c) || has_non_space r
  end.

(** [s.split(sep)] for a one-character separator. *)
Fixpoint split_on (sep : ascii) (s : string) : list string :=
  match s with
  | EmptyString => [EmptyString]
  | String c r =>
      if Ascii.eqb c sep then EmptyString :: split_on sep r
      else match split_on sep r with
           | [] => [String c EmptyString]
           | w :: ws => String c w :: ws
           end
  end.

Definition newline : ascii := ascii_of_nat 10.
Definition nl : string := String newline EmptyString.

(** [enumerate(l)] *)
Definition enumerate {A} (l : list A) : list (nat * A) :=
  imap (fun i x => (i, x)) l.

(** The final component of a path, as [Path(p).name] gives it: empty
    components and [.] components do not count. *)
Definition path_name (p : string) : string :=
  List.last (List.filter (fun c => negb (String.eqb c "" || String.eqb c "."))
          (split_on "/" p)) "".

(** Position of the last [.] of a string, if any. *)
Fixpoint rfind_dot (s : string) : option nat :=
  match s with
  | EmptyString => None
  | String c r =>
      match rfind_dot r with
      | Some i => Some (S i)
      | None => if Ascii.eqb c "." then Some O else None
      end
  end.

(** [Path(p).suffix]: the name from its last dot on, unless that dot is
    the first or the last character. *)
Definition path_suffix (p : string) : string :=
  let name := path_name p in
  match rfind_dot name with
  | Some i =>
      if (0 <? i)%nat && (i <? String.length name - 1)%nat
      then String.substring i (String.length name - i) name
      else ""
  | None => ""
  end.

(** [d.get(key, default)], with [None] for an absent key. *)
Definition get {A} (o : option A) (default : A) : A :=
  match o with
  | Some a => a
  | None => default
  end.

(** [s.lstrip('.')] *)
Fixpoint lstrip_dots (s : string) : string :=
  match s with
  | String "." r => lstrip_dots r
  | _ => s
  end.

(** *** [json.dumps(obj, indent=2, ensure_ascii=False)] *)

Definition hex_digit (n : nat) : ascii :=
  if (n <? 10)%nat then ascii_of_nat (48 + n) else ascii_of_nat (87 + n).

(** The escape of one character inside a JSON string. *)
Definition json_escape_char (c : ascii) : string :=
  let n := nat_of_ascii c in
  if (n =? 34)%nat then "\" +:+ String c ""
  else if (n =? 92)%nat then "\\"
  else if (n =? 8)%nat then "\b"
  else if (n =? 12)%nat then "\f"
  else if (n =? 10)%nat then "\n"
  else if (n =? 13)%nat then "\r"
  else if (n =? 9)%nat then "\t"
  else if (n <? 32)%nat
  then "\u00" +:+ String (hex_digit (n / 16)) (String (hex_digit (n mod 16)) "")
  else String c "".

Fixpoint json_escape (s : string) : string :=
  match s with
  | EmptyString => EmptyString
  | String c r => json_escape_char c +:+ json_escape r
  end.

Definition json_quote (s : string) : string :=
  String (ascii_of_nat 34) (json_escape s) +:+ String (ascii_of_nat 34) "".

(** The text of a float: [repr], except for the three non-finite values. *)
Definition json_float (repr : string) : string :=
  if String.eqb repr "nan" then "NaN"
  else if String.eqb repr "inf" then "Infinity"
  else if String.eqb repr "-inf" then "-Infinity"
  else repr.

Definition dumps_scalar (x : scalar) : exc string :=
  match x with
  | SNone => Normal "null"
  | SBool true => Normal "true"
  | SBool false => Normal "false"
  | SInt z => Normal (str_of_Z z)
  | SFloat repr => Normal (json_float repr)
  | SStr s => Normal (json_quote s)
  | SOther _ _ => Raise TypeError
  end.

(** A dictionary key: strings are quoted, the other basic scalars are
    turned into strings first, anything else raises [TypeError]. *)
Definition dumps_key (x : scalar) : exc string :=
  match x with
  | SStr s => Normal (json_quote s)
  | SOther _ _ => Raise TypeError
  | _ => text ← dumps_scalar x; Normal (json_quote text)
  end.

Fixpoint spaces (n : nat) : string :=
  match n with
  | O => EmptyString
  | S n' => String " " (spaces n')
  end.

Definition newline_indent (level : nat) : string :=
  nl +:+ spaces (2 * level).

Fixpoint dumps_at (level : nat) (v : value) {struct v} : exc string :=
  match v with
  | VScalar x => dumps_scalar x
  | VList [] => Normal "[]"
  | VList items =>
      parts ←
        (fix each (l : list value) : exc (list string) :=
           match l with
           | [] => Normal []
           | x :: r =>
               sx ← dumps_at (S level) x;
               sr ← each r;
               Normal (sx :: sr)
           end) items;
      Normal ("[" +:+ newline_indent (S level)
              +:+ join ("," +:+ newline_indent (S level)) parts
              +:+ newline_indent level +:+ "]")
  | VDict [] => Normal "{}"
  | VDict items =>
      parts ←
        (fix each (l : list (scalar * value)) : exc (list string) :=
           match l with
           | [] => Normal []
           | (k, x) :: r =>
               sk ← dumps_key k;
               sx ← dumps_at (S level) x;
               sr ← each r;
               Normal ((sk +:+ ": " +:+ sx) :: sr)
           end) items;
      Normal ("{" +:+ newline_indent (S level)
              +:+ join ("," +:+ newline_indent (S level)) parts
              +:+ newline_indent level +:+ "}")
  end.

Definition json_dumps (v : value) : exc string := dumps_at 0 v.

End Py.

Export Py.

(** ** auto_tagging_service.py *)

Module AutoTaggingService.

Section clean_tags.
(** A Python [str] is a sequence of code points.  The class of
    whitespace code points ([str.isspace]) and the case mapping
    ([str.lower]) are those of the Unicode database the interpreter
    ships; the cleaning code is embedded over any such pair. *)
Context {char : Type} `{Countable char}.
Variable isspace : char → bool.
Variable lower : list char → list char.

Abbreviation str := (list char).

(** An element of the list handed to [_clean_tags]: a string or some
    other object. *)
Inductive pyobj : Type :=
| PyStr (s : str)
| PyOther.

(** The argument of [_clean_tags]: a list, or some other object. *)
Inductive pyarg : Type :=
| PyList (l : list pyobj)
| PyNotList.

Fixpoint lstrip (s : str) : str :=
  match s with
  | [] => []
  | c :: r => if isspace c then lstrip r else s
  end.

Definition rstrip (s : str) : str := reverse (lstrip (reverse s)).

(** [tag.strip()] *)
Definition strip (s : str) : str := rstrip (lstrip s).

(** Body of the first loop: keep stripped, non-empty strings shorter
    than 100 characters. *)
Definition clean_step (cleaned : list str) (tag : pyobj) : list str :=
  match tag with
  | PyStr t =>
      let tag := strip t in
      if bool_decide (tag ≠ []) && (0 <? length tag)%nat
         && (length tag <? 100)%nat
      then cleaned ++ [tag]
      else cleaned
  | PyOther => cleaned
  end.

(** Body of the second loop: [seen] holds the lower-cased tags met so
    far, [unique] the tags kept. *)
Definition unique_step (st : gset str * list str) (tag : str)
  : gset str * list str :=
  let tag_lower := lower tag in
  if decide (tag_lower ∈ st.1) then st
  else ({[tag_lower]} ∪ st.1, st.2 ++ [tag]).

Definition _clean_tags (tags : pyarg) : list str :=
  match tags with
  | PyNotList => []
  | PyList tags =>
      let cleaned := fold_left clean_step tags [] in
      let unique := (fold_left unique_step cleaned (∅, [])).2 in
      take 10 unique
  end.
End clean_tags.

Arguments PyStr {char} s.
Arguments PyOther {char}.
Arguments PyList {char} l.
Arguments PyNotList {char}.

Definition quoted (s : string) : string :=
  String (ascii_of_nat 34) s +:+ String (ascii_of_nat 34) EmptyString.

(** [TAG_EXTRACTION_PROMPT.format(content=content)] *)
Definition TAG_EXTRACTION_PROMPT (content : string) : string :=
  join nl
    [ "You are an expert at analyzing content and extracting relevant tags and keywords.";
      "";
      "Given the following content, extract:";
      "1. Main topics (high-level themes)";
      "2. Keywords (important terms and concepts)";
      "3. Entities (people, organizations, locations, products)";
      "4. Categories (content classification)";
      "";
      "Content:";
      content;
      "";
      "Respond with a JSON object in the following format:";
      "{";
      "    " +:+ quoted "topics" +:+ ": [" +:+ quoted "topic1" +:+ ", "
        +:+ quoted "topic2" +:+ ", ...],";
      "    " +:+ quoted "keywords" +:+ ": [" +:+ quoted "keyword1" +:+ ", "
        +:+ quoted "keyword2" +:+ ", ...],";
      "    " +:+ quoted "entities" +:+ ": [" +:+ quoted "entity1" +:+ ", "
        +:+ quoted "entity2" +:+ ", ...],";
      "    " +:+ quoted "categories" +:+ ": [" +:+ quoted "category1"
        +:+ ", " +:+ quoted "category2" +:+ ", ...]";
      "}";
      "";
      "Keep the response concise and relevant. Limit each array to 10 items maximum." ].

(** [s[:k]] on a string. *)
Definition str_slice_to (k : Z) (s : string) : string :=
  string_of_list_ascii (slice_to k (list_ascii_of_string s)).

(** The content as it goes into the prompt: cut to [max_content_length]
    characters, and prefixed with the title when there is one. *)
Definition prepare_content (max_content_length : Z) (content : string)
    (title : option string) : string :=
  let content :=
    if max_content_length <? Z.of_nat (String.length content)
    then str_slice_to max_content_length content +:+ "..."
    else content in
  match title with
  | Some (String _ _ as t) => "Title: " +:+ t +:+ nl +:+ nl +:+ content
  | _ => content
  end.

Section generate_tags.
Context {char : Type} `{Countable char}.
Variable isspace : char → bool.
Variable lower : list char → list char.
Variable max_content_length : Z.

(** The four arrays of a parsed answer; [None] is an absent key. *)
Record TagsData : Type := {
  topics_field : option (@pyarg char);
  keywords_field : option (@pyarg char);
  entities_field : option (@pyarg char);
  categories_field : option (@pyarg char);
}.

(** What [parse_json_from_response] returns: nothing usable ([None] or an
    empty container), a dictionary, or some other object. *)
Inductive parsed : Type :=
| ParsedFalsy
| ParsedDict (d : TagsData)
| ParsedOther.

(** The structure [generate_tags] returns. *)
Record Tags : Type := {
  topics : list (list char);
  keywords : list (list char);
  entities : list (list char);
  categories : list (list char);
}.

(** The text-generation capability and the parser of its answers. *)
Variable generate_with_messages_async :
  list (string * string) → exc (option string).
Variable parse_json_from_response : string → exc parsed.

Definition _get_default_tags : Tags :=
  {| topics := []; keywords := []; entities := []; categories := [] |}.

Definition generate_tags (content : string) (title : option string)
  : exc Tags :=
  try_except
    (let prompt :=
       TAG_EXTRACTION_PROMPT (prepare_content max_content_length content title)
     in
     let messages :=
       [ ("system",
          "You are a helpful assistant that extracts tags and keywords from content.");
         ("user", prompt) ] in
     response ← generate_with_messages_async messages;
     match response with
     | Some (String _ _ as response) =>
         tags_data ← parse_json_from_response response;
         match tags_data with
         | ParsedFalsy => Normal _get_default_tags
         | ParsedOther => Raise AttributeError
         | ParsedDict d =>
             Normal
               {| topics :=
                    _clean_tags isspace lower
                      (get (topics_field d) (PyList []));
                  keywords :=
                    _clean_tags isspace lower
                      (get (keywords_field d) (PyList []));
                  entities :=
                    _clean_tags isspace lower
                      (get (entities_field d) (PyList []));
                  categories :=
                    _clean_tags isspace lower
                      (get (categories_field d) (PyList [])) |}
         end
     | _ => Normal _get_default_tags
     end)
    (fun _ => Normal _get_default_tags).

End generate_tags.

(** [Path(p).stem]: the name without its suffix. *)
Definition path_stem (p : string) : string :=
  let name := path_name p in
  match rfind_dot name with
  | Some i =>
      if (0 <? i)%nat && (i <? String.length name - 1)%nat
      then String.substring 0 i name
      else name
  | None => name
  end.

(** The components of a path: empty and [.] components do not count. *)
Definition path_parts (p : string) : list string :=
  List.filter (fun c => negb (String.eqb c "" || String.eqb c "."))
    (split_on "/" p).

(** The names of [Path(p).parents], nearest first; the last parent, the
    root or the current directory, has the empty name. *)
Definition parent_names (p : string) : list string :=
  match path_parts p with
  | [] => []
  | parts => reverse (removelast parts) ++ [""]
  end.

(** The loop over the parents: a named parent other than [.], [..] and [/]
    becomes a tag, and the loop stops once there are five tags. *)
Fixpoint add_parent_tags (tags names : list string) : list string :=
  match names with
  | [] => tags
  | name :: rest =>
      if negb (String.eqb name "")
         && negb (bool_decide (name ∈ ["."; ".."; "/"]))
      then
        let tags := tags ++ [name] in
        if (5 <=? length tags)%nat then tags else add_parent_tags tags rest
      else add_parent_tags tags rest
  end.

Definition extract_tags_from_file_path (file_path : string) : list string :=
  let tags := [path_stem file_path] in
  let tags :=
    match path_suffix file_path with
    | EmptyString => tags
    | suffix => tags ++ [lstrip_dots suffix]
    end in
  add_parent_tags tags (parent_names file_path).

End AutoTaggingService.

(** ** enhanced_search_service.py *)

Module EnhancedSearchService.

(** The [metadata] map of a stored record, with the keys the service reads.
    [None] stands for an absent key. *)
Record Metadata : Type := {
  file_extension : option string;
  tags : option (list string);
  created_time : option string;
  importance : option Z;
  context_type : option string;
}.

(** [{}] *)
Definition no_metadata : Metadata :=
  {| file_extension := None; tags := None; created_time := None;
     importance := None; context_type := None |}.

(** A candidate as the storage capability returns it.  Distances and
    scores are Python floats; they are embedded as the rational numbers
    they denote. *)
Record SearchResult : Type := {
  rid : string;
  distance : option Q;
  metadata : option Metadata;
}.

(** [{**result, "relevance_score": ..., "importance": ...}] *)
Record EnhancedResult : Type := {
  result : SearchResult;
  relevance_score : Q;
  result_importance : Z;
}.

(** A [datetime]: an instant in microseconds, naive or timezone-aware.
    Comparing or subtracting a naive and an aware value raises
    [TypeError]. *)
Record datetime : Type := {
  instant : Z;
  aware : bool;
}.

Definition dt_lt (a b : datetime) : exc bool :=
  if Bool.eqb (aware a) (aware b) then Normal (instant a <? instant b)
  else Raise TypeError.

(** [(a - b).days]: timedelta normalises with a floor division. *)
Definition dt_days_between (a b : datetime) : exc Z :=
  if Bool.eqb (aware a) (aware b)
  then Normal ((instant a - instant b) / 86400000000)
  else Raise TypeError.

(** Truth value of an optional list argument: [None] and [[]] are false. *)
Definition truthy_list {A} (o : option (list A)) : bool :=
  match o with
  | Some (_ :: _) => true
  | _ => false
  end.

Definition str_in (x : string) (l : list string) : bool :=
  bool_decide (x ∈ l).

Definition Qltb (x y : Q) : bool := negb (Qle_bool y x).

Section service.
(** The storage capability and the two library calls the service makes. *)
Variable search_context :
  string → Z → option (list string) → exc (list SearchResult).
Variable fromisoformat : string → exc datetime.
Variable now : datetime.

(** The date filter of [search]; [true] means [continue].  Whatever is
    raised while parsing or comparing is swallowed by the bare [except]. *)
Definition date_rejects (md : Metadata) (date_from date_to : option datetime)
  : bool :=
  match date_from, date_to with
  | None, None => false
  | _, _ =>
      match created_time md with
      | Some created =>
          if bool_decide (created = "") then false
          else
            let checked : exc bool :=
              created_dt ← fromisoformat created;
              before ← match date_from with
                       | Some d => dt_lt created_dt d
                       | None => Normal false
                       end;
              if (before : bool) then Normal true
              else match date_to with
                   | Some d => dt_lt d created_dt
                   | None => Normal false
                   end in
            match checked with
            | Normal b => b
            | Raise _ => false
            end
      | None => false
      end
  end.

(** One iteration of the filter loop of [search]. *)
Definition filter_step (file_types tags_arg : option (list string))
    (date_from date_to : option datetime) (min_relevance : Q)
    (filtered_results : list EnhancedResult) (r : SearchResult)
  : list EnhancedResult :=
  if Qltb (get (distance r) 1%Q) min_relevance then filtered_results
  else
    let md := get (metadata r) no_metadata in
    if truthy_list file_types
       && negb (str_in (lstrip_dots (get (file_extension md) ""))
                       (get file_types []))
    then filtered_results
    else if truthy_list tags_arg
            && negb (existsb (fun tag => str_in tag (get (tags md) []))
                             (get tags_arg []))
    then filtered_results
    else if date_rejects md date_from date_to then filtered_results
    else
      filtered_results ++
      [ {| result := r;
           relevance_score := (1 - get (distance r) 0)%Q;
           result_importance := get (importance md) 50 |} ].

Definition created_key (x : EnhancedResult) : string :=
  get (created_time (get (metadata (result x)) no_metadata)) "".

Definition sort_results (sort_by : string) (l : list EnhancedResult)
  : list EnhancedResult :=
  if bool_decide (sort_by = "relevance")
  then sort_desc relevance_score Qltb l
  else if bool_decide (sort_by = "date")
  then sort_desc created_key String.ltb l
  else if bool_decide (sort_by = "importance")
  then sort_desc result_importance Z.ltb l
  else l.

Definition search (query : string) (top_k : Z)
    (context_types file_types tags_arg : option (list string))
    (date_from date_to : option datetime) (min_relevance : Q)
    (sort_by : string) : exc (list EnhancedResult) :=
  try_except
    (results ← search_context query (top_k * 2) context_types;
     match results with
     | [] => Normal []
     | _ =>
         let filtered_results :=
           fold_left
             (filter_step file_types tags_arg date_from date_to min_relevance)
             results [] in
         Normal (slice_to top_k (sort_results sort_by filtered_results))
     end)
    (fun _ => Normal []).

Definition stored_tags (x : EnhancedResult) : list string :=
  get (tags (get (metadata (result x)) no_metadata)) [].

Definition search_by_tags (tags_arg : list string) (top_k : Z)
    (match_all : bool) : exc (list EnhancedResult) :=
  try_except
    (let query := join " " tags_arg in
     results ← search query top_k None None
                 (if negb match_all then Some tags_arg else None)
                 None None 0%Q "relevance";
     if match_all then
       let filtered :=
         fold_left
           (fun filtered x =>
              if forallb (fun tag => str_in tag (stored_tags x)) tags_arg
              then filtered ++ [x] else filtered)
           results [] in
       Normal (slice_to top_k filtered)
     else Normal results)
    (fun _ => Normal []).

(** A [dict] from strings to counts, in insertion order. *)
Fixpoint dict_get (k : string) (d : list (string * nat)) : option nat :=
  match d with
  | [] => None
  | (k', v) :: rest => if bool_decide (k = k') then Some v else dict_get k rest
  end.

(** [d[k] = v]: an existing key keeps its position. *)
Fixpoint dict_set (k : string) (v : nat) (d : list (string * nat))
  : list (string * nat) :=
  match d with
  | [] => [(k, v)]
  | (k', v') :: rest =>
      if bool_decide (k = k') then (k, v) :: rest
      else (k', v') :: dict_set k v rest
  end.

(** [d[k] = d.get(k, 0) + 1] *)
Definition dict_incr (k : string) (d : list (string * nat))
  : list (string * nat) :=
  dict_set k (get (dict_get k d) 0%nat + 1)%nat d.

(** The four facet dictionaries while [get_facets] accumulates them. *)
Record Facets : Type := {
  f_file_types : list (string * nat);
  f_context_types : list (string * nat);
  f_tags : list (string * nat);
  f_date_ranges : list (string * nat);
}.

Definition initial_facets : Facets :=
  {| f_file_types := []; f_context_types := []; f_tags := [];
     f_date_ranges :=
       [("last_day", 0%nat); ("last_week", 0%nat); ("last_month", 0%nat);
        ("older", 0%nat)] |}.

(** The dictionary [get_facets] returns on success. *)
Definition facets_dict (f : Facets) : gmap string (list (string * nat)) :=
  {[ "file_types" := f_file_types f;
     "context_types" := f_context_types f;
     "tags" := f_tags f;
     "date_ranges" := f_date_ranges f ]}.

(** The bucket a record created [days_ago] days ago falls in. *)
Definition date_bucket (days_ago : Z) : string :=
  if days_ago <? 1 then "last_day"
  else if days_ago <? 7 then "last_week"
  else if days_ago <? 30 then "last_month"
  else "older".

(** One iteration of the accumulation loop of [get_facets]. *)
Definition facet_step (facets : Facets) (r : SearchResult) : Facets :=
  let md := get (metadata r) no_metadata in
  let file_ext := lstrip_dots (get (file_extension md) "unknown") in
  let ctx_type := get (context_type md) "unknown" in
  let file_types' := dict_incr file_ext (f_file_types facets) in
  let context_types' := dict_incr ctx_type (f_context_types facets) in
  let tags' :=
    fold_left (fun d tag => dict_incr tag d) (take 5 (get (tags md) []))
      (f_tags facets) in
  let date_ranges' :=
    match created_time md with
    | Some created =>
        if bool_decide (created = "") then f_date_ranges facets
        else
          match (created_dt ← fromisoformat created;
                 dt_days_between now created_dt) with
          | Normal days_ago =>
              dict_incr (date_bucket days_ago) (f_date_ranges facets)
          | Raise _ => f_date_ranges facets
          end
    | None => f_date_ranges facets
    end in
  {| f_file_types := file_types'; f_context_types := context_types';
     f_tags := tags'; f_date_ranges := date_ranges' |}.

(** The records the facets are computed from: the first 100 hits of
    [search] when a non-empty query is given, a plain fetch otherwise. *)
Definition facet_candidates (query : option string)
    (context_types : option (list string)) : exc (list SearchResult) :=
  match query with
  | Some (String _ _ as q) =>
      found ← search q 100 context_types None None None None 0%Q
                "relevance";
      Normal (map result found)
  | _ => search_context "" 100 None
  end.

Definition get_facets_body (query : option string)
    (context_types : option (list string)) : exc Facets :=
  results ← facet_candidates query context_types;
  let facets := fold_left facet_step results initial_facets in
  Normal
    {| f_file_types := f_file_types facets;
       f_context_types := f_context_types facets;
       f_tags :=
         take 20 (sort_desc snd Nat.ltb (f_tags facets));
       f_date_ranges := f_date_ranges facets |}.

Definition get_facets (query : option string)
    (context_types : option (list string))
  : exc (gmap string (list (string * nat))) :=
  try_except
    (facets ← get_facets_body query context_types;
     Normal (facets_dict facets))
    (fun _ => Normal ∅).

(** [now - timedelta(days=days)], with instants counted from the first
    representable datetime (0001-01-01T00:00).  [None] stands for the
    [OverflowError] Python raises when [days] is not a valid timedelta or
    the result leaves the range of [datetime]. *)
Definition days_before (a : datetime) (days : Z) : option datetime :=
  if Z.abs days <=? 999999999 then
    let t := instant a - days * 86400000000 in
    if (0 <=? t) && (t <? 3652059 * 86400000000)
    then Some {| instant := t; aware := aware a |}
    else None
  else None.

Definition search_recent (days top_k : Z)
    (context_types : option (list string)) : exc (list EnhancedResult) :=
  match days_before now days with
  | Some date_from =>
      try_except
        (search "" top_k context_types None None (Some date_from) None 0%Q
           "date")
        (fun _ => Normal [])
  | None => Normal []
  end.

(** A stored context as [get_context_by_id] returns it, with the two keys
    [search_similar] reads. *)
Record StoredContext : Type := {
  summary : option string;
  title : option string;
}.

Variable get_context_by_id : string → exc (option StoredContext).

(** [context.get("summary") or context.get("title") or ""] *)
Definition similarity_query (context : StoredContext) : string :=
  match summary context with
  | Some (String _ _ as s) => s
  | _ =>
      match title context with
      | Some (String _ _ as t) => t
      | _ => ""
      end
  end.

Definition search_similar (context_id : string) (top_k : Z)
  : exc (list EnhancedResult) :=
  try_except
    (context ← get_context_by_id context_id;
     match context with
     | None => Normal []
     | Some context =>
         let query := similarity_query context in
         if String.eqb query "" then Normal []
         else
           results ← search query (top_k + 1) None None None None None 0%Q
                       "relevance";
           let filtered :=
             List.filter
               (fun r => negb (String.eqb (rid (result r)) context_id))
               results in
           Normal (slice_to top_k filtered)
     end)
    (fun _ => Normal []).

End service.

End EnhancedSearchService.

(** ** opencontext.models: the data the processors exchange *)

Module Models.

(** Modelled from the spec: [opencontext.models.enums] is not among the
    sources; the capture origin, of which the processors only test
    [LOCAL_FILE]. *)
Inductive ContextSource : Type :=
| LOCAL_FILE
| OTHER_SOURCE (name : string).

(** Modelled from the spec: the content format enum, TEXT/IMAGE/FILE. *)
Inductive ContentFormat : Type :=
| TEXT
| IMAGE
| FILE.

(** Modelled from the spec: the semantic classification tag; the
    processors only produce [SEMANTIC_CONTEXT]. *)
Inductive ContextType : Type :=
| SEMANTIC_CONTEXT
| OTHER_CONTEXT (name : string).

(** Modelled from the spec: the input envelope of [opencontext.models.context]
    with the fields the processors read. *)
Record RawContextProperties : Type := {
  source : ContextSource;
  content_format : ContentFormat;
  content_path : option string;
  object_id : string;
}.

(** Modelled from the spec: a chunk of [opencontext.models.context].  The
    keyword and entity lists hold whatever objects the processor put in
    them. *)
Record Chunk : Type := {
  text : string;
  chunk_index : nat;
  keywords : list scalar;
  entities : list scalar;
}.

(** Modelled from the spec: the summary fields of a processed context. *)
Record ExtractedData : Type := {
  ed_title : string;
  ed_summary : string;
  ed_keywords : list scalar;
  ed_entities : list scalar;
  ed_context_type : ContextType;
  confidence : Z;
  importance : Z;
}.

(** Modelled from the spec: the properties of a processed context;
    [additional_metadata] is the processor's metadata dictionary. *)
Record ContextProperties : Type := {
  cp_context_type : ContextType;
  cp_source : ContextSource;
  create_time : Z;
  update_time : Z;
  cp_content_path : option string;
  cp_content_format : ContentFormat;
  cp_title : string;
  cp_summary : string;
  cp_tags : list scalar;
  additional_metadata : gmap string value;
}.

(** Modelled from the spec: the unit of storage and search. *)
Record ProcessedContext : Type := {
  id : string;
  properties : ContextProperties;
  chunks : list Chunk;
  extracted_data : ExtractedData;
}.

(** [Path(context.content_path)]: [Path(None)] raises [TypeError]. *)
Definition Path (content_path : option string) : exc string :=
  match content_path with
  | Some p => Normal p
  | None => Raise TypeError
  end.

Definition strs (l : list string) : list scalar := SStr <$> l.
Definition str_values (l : list string) : value := VList (VScalar ∘ SStr <$> l).
Definition int_value (n : nat) : value := VScalar (SInt (Z.of_nat n)).
Definition str_value (s : string) : value := VScalar (SStr s).


(** What a caller may hand to [can_process]: a raw context, or any other
    object. *)
Inductive pyobject : Type :=
| Raw (context : RawContextProperties)
| NotRaw.

(** The checks every [can_process] makes before it looks at the file: the
    object is a raw context, captured from a local file, with a non-empty
    path.  The result is that path. *)
Definition local_path (context : pyobject) : option string :=
  match context with
  | Raw c =>
      match source c, content_path c with
      | LOCAL_FILE, Some (String _ _ as p) => Some p
      | _, _ => None
      end
  | NotRaw => None
  end.

End Models.

(** ** processor/code_processor.py *)

Module CodeProcessor.
Import Models.

Definition LANGUAGE_PATTERNS : list (string * list (string * string)) :=
  [ ("python",
      [ ("function", "^\s*def\s+(\w+)");
        ("class", "^\s*class\s+(\w+)");
        ("import", "^\s*(?:from\s+[\w.]+\s+)?import\s+(.+)");
        ("comment", "^\s*#(.+)") ]);
    ("javascript",
      [ ("function",
          "^\s*(?:function\s+(\w+)|const\s+(\w+)\s*=\s*(?:async\s+)?\()");
        ("class", "^\s*class\s+(\w+)");
        ("import", "^\s*import\s+(.+)");
        ("comment", "^\s*//(.+)");
        ("block_comment", "/\*(.+?)\*/") ]);
    ("java",
      [ ("function",
          "^\s*(?:public|private|protected)?\s+(?:static\s+)?[\w<>]+\s+(\w+)\s*\(");
        ("class", "^\s*(?:public\s+)?class\s+(\w+)");
        ("import", "^\s*import\s+(.+);");
        ("comment", "^\s*//(.+)");
        ("block_comment", "/\*(.+?)\*/") ]);
    ("go",
      [ ("function", "^\s*func\s+(?:\(\w+\s+\*?\w+\)\s+)?(\w+)");
        ("struct", "^\s*type\s+(\w+)\s+struct");
        ("import", "^\s*import\s+(.+)");
        ("comment", "^\s*//(.+)");
        ("block_comment", "/\*(.+?)\*/") ]) ].

Definition EXTENSION_TO_LANGUAGE : list (string * string) :=
  [ (".py", "python"); (".js", "javascript"); (".jsx", "javascript");
    (".ts", "javascript"); (".tsx", "javascript"); (".java", "java");
    (".go", "go"); (".c", "c"); (".cpp", "cpp"); (".h", "c");
    (".hpp", "cpp"); (".cs", "csharp"); (".rb", "ruby"); (".php", "php");
    (".swift", "swift"); (".kt", "kotlin"); (".rs", "rust") ].

(** [d.get(k)] on a table keyed by strings. *)
Fixpoint lookup_str {V} (k : string) (d : list (string * V)) : option V :=
  match d with
  | [] => None
  | (k', v) :: rest =>
      if String.eqb k k' then Some v else lookup_str k rest
  end.

(** The processor's configuration, read once at construction. *)
Record Config : Type := {
  enabled : bool;
  max_lines_per_chunk : Z;
  extract_functions : bool;
  extract_classes : bool;
  extract_imports : bool;
  extract_comments : bool;
}.

Definition default_config : Config :=
  {| enabled := true; max_lines_per_chunk := 100; extract_functions := true;
     extract_classes := true; extract_imports := true;
     extract_comments := true |}.

(** What [re.match] reports about a match: [lastindex] and [group(1)]. *)
Record Match : Type := {
  lastindex : option nat;
  group1 : option string;
}.

(** An entry of the list [re.findall] returns: the text of the only group,
    or the tuple of all groups. *)
Inductive found : Type :=
| FoundStr (s : string)
| FoundTuple (groups : list string).

(** A syntax element located by [_chunk_by_syntax]. *)
Record Element : Type := {
  el_type : string;
  el_name : scalar;
  el_line : nat;
}.

Section processor.
Variable config : Config.
(** The regular-expression engine, the file system and the clock. *)
Variable re_match : string → string → option Match.
Variable re_findall : string → string → list found.
Variable read_text : string → exc string.
Variable now : Z.

Definition _detect_language (file_path : string) : string :=
  let ext := str_lower (path_suffix file_path) in
  match lookup_str ext EXTENSION_TO_LANGUAGE with
  | Some language => language
  | None => "unknown"
  end.

Definition found_value (f : found) : value :=
  match f with
  | FoundStr s => str_value s
  | FoundTuple groups => str_values groups
  end.

Definition found_scalar (f : found) : scalar :=
  match f with
  | FoundStr s => SStr s
  | FoundTuple groups => SOther "tuple" (join ", " groups)
  end.

(** The flattening of the function matches: every non-empty group. *)
Definition flatten_found (matches : list found) : list string :=
  flat_map
    (fun group =>
       List.filter (fun f => negb (String.eqb f ""))
         match group with
         | FoundTuple groups => groups
         | FoundStr s => [s]
         end)
    matches.

(** The metadata dictionary of a code file, with the lists [functions] and
    [classes] that [_create_processed_context] reads back. *)
Record CodeMetadata : Type := {
  md_dict : gmap string value;
  md_functions : option (list string);
  md_classes : option (list found);
}.

Definition _extract_code_metadata (code language file_path : string)
  : CodeMetadata :=
  let lines := split_on newline code in
  let metadata : gmap string value :=
    {[ "file_name" := str_value (path_name file_path);
       "file_path" := str_value file_path;
       "language" := str_value language;
       "total_lines" := int_value (length lines);
       "non_empty_lines" :=
         int_value (length (List.filter has_non_space lines)) ]} in
  match lookup_str language LANGUAGE_PATTERNS with
  | Some patterns =>
      let functions :=
        match lookup_str "function" patterns with
        | Some p =>
            if extract_functions config
            then Some (flatten_found (re_findall p code)) else None
        | None => None
        end in
      let classes :=
        match lookup_str "class" patterns with
        | Some p =>
            if extract_classes config then Some (re_findall p code) else None
        | None => None
        end in
      let imports :=
        match lookup_str "import" patterns with
        | Some p =>
            if extract_imports config then Some (re_findall p code) else None
        | None => None
        end in
      let m1 :=
        match functions with
        | Some fs =>
            <["num_functions" := int_value (length fs)]>
              (<["functions" := str_values fs]> metadata)
        | None => metadata
        end in
      let m2 :=
        match classes with
        | Some cs =>
            <["num_classes" := int_value (length cs)]>
              (<["classes" := VList (found_value <$> cs)]> m1)
        | None => m1
        end in
      let m3 :=
        match imports with
        | Some imps =>
            <["num_imports" := int_value (length imps)]>
              (<["imports" := VList (found_value <$> take 20 imps)]> m2)
        | None => m2
        end in
      {| md_dict := m3; md_functions := functions; md_classes := classes |}
  | None =>
      {| md_dict := metadata; md_functions := None; md_classes := None |}
  end.

(** [_chunk_by_lines]: windows of [max_lines_per_chunk] lines, numbered
    from [start_idx]. *)
Definition _chunk_by_lines (lines : list string) (file_name : string)
    (start_idx : nat) : exc (list Chunk) :=
  starts ← range0 (length lines) (max_lines_per_chunk config);
  Normal
    (fold_left
       (fun chunks i =>
          let chunk_lines :=
            slice i (i + Z.to_nat (max_lines_per_chunk config)) lines in
          let chunk_text :=
            "Lines " +:+ str_of_nat (i + 1) +:+ "-"
            +:+ str_of_nat (i + length chunk_lines) +:+ nl +:+ nl
            +:+ join nl chunk_lines in
          chunks ++
          [ {| text := chunk_text;
               chunk_index := start_idx + length chunks;
               keywords :=
                 [ SStr file_name;
                   SStr ("lines_" +:+ str_of_nat (i + 1) +:+ "_"
                         +:+ str_of_nat (i + length chunk_lines)) ];
               entities := [] |} ])
       starts []).

(** The elements a line contributes: one per element type whose pattern
    matches at the start of the line. *)
Definition line_elements (patterns : list (string * string)) (i : nat)
    (line : string) : list Element :=
  flat_map
    (fun element_type =>
       match lookup_str element_type patterns with
       | Some p =>
           match re_match p line with
           | Some m =>
               let name :=
                 match lastindex m with
                 | Some (S _) =>
                     match group1 m with
                     | Some g => SStr g
                     | None => SNone
                     end
                 | _ => SStr "unknown"
                 end in
               [ {| el_type := element_type; el_name := name;
                    el_line := i |} ]
           | None => []
           end
       | None => []
       end)
    ["function"; "class"; "struct"].

Definition _chunk_by_syntax (code language file_name : string)
  : exc (list Chunk) :=
  let patterns :=
    match lookup_str language LANGUAGE_PATTERNS with
    | Some patterns => patterns
    | None => []
    end in
  let lines := split_on newline code in
  let elements :=
    flat_map (fun '(i, line) => line_elements patterns i line)
      (enumerate lines) in
  let chunks :=
    fold_left
      (fun chunks '(i, element) =>
         let start_line := el_line element in
         let end_line :=
           match elements !! (i + 1)%nat with
           | Some next => el_line next
           | None => length lines
           end in
         let chunk_lines := slice start_line end_line lines in
         let chunk_text :=
           capitalize (el_type element) +:+ ": "
           +:+ str_of_scalar (el_name element) +:+ nl
           +:+ "Lines " +:+ str_of_nat (start_line + 1) +:+ "-"
           +:+ str_of_nat end_line +:+ nl +:+ nl
           +:+ join nl chunk_lines in
         chunks ++
         [ {| text := chunk_text;
              chunk_index := length chunks + 1;
              keywords :=
                [ SStr file_name; SStr language; SStr (el_type element);
                  el_name element ];
              entities := [el_name element] |} ])
      (enumerate elements) [] in
  match chunks with
  | [] => _chunk_by_lines lines file_name 1
  | _ => Normal chunks
  end.

Definition _create_chunks_from_code (code language file_name : string)
  : exc (list Chunk) :=
  let lines := split_on newline code in
  let preview_lines := Nat.min 20 (length lines) in
  let overview_text :=
    "Code File: " +:+ file_name +:+ nl
    +:+ "Language: " +:+ language +:+ nl
    +:+ "Total Lines: " +:+ str_of_nat (length lines) +:+ nl
    +:+ nl +:+ "First " +:+ str_of_nat preview_lines
    +:+ " lines:" +:+ nl
    +:+ join (nl) (take preview_lines lines) in
  let chunks :=
    [ {| text := overview_text; chunk_index := 0;
         keywords := strs [file_name; language; "code"; "overview"];
         entities := [] |} ] in
  more ←
    match lookup_str language LANGUAGE_PATTERNS with
    | Some _ => _chunk_by_syntax code language file_name
    | None => _chunk_by_lines lines file_name (length chunks)
    end;
  Normal (chunks ++ more).

Definition get_name : string := "code_processor".

Definition _create_processed_context (raw_context : RawContextProperties)
    (chunks : list Chunk) (metadata : CodeMetadata) (language : string)
  : exc (option ProcessedContext) :=
  match chunks with
  | [] => Normal None
  | _ =>
      file_name ←
        match md_dict metadata !! "file_name" with
        | Some (VScalar (SStr n)) => Normal n
        | _ => Raise KeyError
        end;
      total_lines ←
        match md_dict metadata !! "total_lines" with
        | Some (VScalar x) => Normal (str_of_scalar x)
        | _ => Raise KeyError
        end;
      let title := file_name in
      let summary0 :=
        capitalize language +:+ " code with " +:+ total_lines +:+ " lines" in
      let summary1 :=
        match md_functions metadata with
        | Some fs =>
            summary0 +:+ ", " +:+ str_of_nat (length fs) +:+ " functions"
        | None => summary0
        end in
      let summary :=
        match md_classes metadata with
        | Some cs =>
            summary1 +:+ ", " +:+ str_of_nat (length cs) +:+ " classes"
        | None => summary1
        end in
      let keywords :=
        strs [file_name; language; "code"]
        ++ match md_functions metadata with
           | Some fs => strs (take 10 fs)
           | None => []
           end
        ++ match md_classes metadata with
           | Some cs => found_scalar <$> take 10 cs
           | None => []
           end in
      let entities :=
        match md_functions metadata with
        | Some fs => strs fs
        | None => []
        end
        ++ match md_classes metadata with
           | Some cs => found_scalar <$> cs
           | None => []
           end in
      Normal (Some
        {| id := object_id raw_context;
           properties :=
             {| cp_context_type := SEMANTIC_CONTEXT;
                cp_source := source raw_context;
                create_time := now;
                update_time := now;
                cp_content_path := content_path raw_context;
                cp_content_format := TEXT;
                cp_title := title;
                cp_summary := summary;
                cp_tags := keywords;
                additional_metadata :=
                  <["processor" := str_value get_name]> (md_dict metadata) |};
           chunks := chunks;
           extracted_data :=
             {| ed_title := title; ed_summary := summary;
                ed_keywords := keywords; ed_entities := take 20 entities;
                ed_context_type := SEMANTIC_CONTEXT; confidence := 90;
                importance := 80 |} |})
  end.

(** The [try] block of [process]. *)
Definition process_body (context : RawContextProperties)
  : exc (list ProcessedContext) :=
  file_path ← Path (content_path context);
  code_content ← read_text file_path;
  let language := _detect_language file_path in
  let metadata := _extract_code_metadata code_content language file_path in
  chunks ← _create_chunks_from_code code_content language
             (path_name file_path);
  processed_context ← _create_processed_context context chunks metadata
                        language;
  match processed_context with
  | Some pc => Normal [pc]
  | None => Normal []
  end.

Definition process (context : RawContextProperties)
  : exc (list ProcessedContext) :=
  try_except (process_body context) (fun _ => Normal []).


(** Whether a path exists in the file system. *)
Variable path_exists : string → bool.

Definition get_supported_formats : list string := EXTENSION_TO_LANGUAGE.*1.

Definition can_process (context : pyobject) : bool :=
  if negb (enabled config) then false
  else
    match local_path context with
    | Some file_path =>
        path_exists file_path
        && bool_decide (str_lower (path_suffix file_path)
                        ∈ get_supported_formats)
    | None => false
    end.

End processor.

End CodeProcessor.

(** ** processor/structured_data_processor.py *)

Module StructuredDataProcessor.
Import Models.

Record Config : Type := {
  enabled : bool;
  max_depth : Z;
  max_array_items_per_chunk : Z;
  preserve_structure : bool;
}.

Definition default_config : Config :=
  {| enabled := true; max_depth := 10; max_array_items_per_chunk := 50;
     preserve_structure := true |}.

(** [text[:n] + "\n... (truncated)"] when the text is longer than [n]. *)
Definition truncated (n : nat) (text : string) : string :=
  if (n <? String.length text)%nat
  then String.substring 0 n text +:+ nl +:+ "... (truncated)"
  else text.

Section processor.
Variable config : Config.
(** The file system, the two parsers and the clock. *)
Variable read_text : string → exc string.
Variable json_loads : string → exc value.
Variable yaml_safe_load : string → exc value.
Variable now : Z.

Definition _load_file (file_path : string) : value :=
  let suffix := str_lower (path_suffix file_path) in
  let loaded : exc value :=
    content ← read_text file_path;
    if String.eqb suffix ".jsonl" then
      items ← for_each
                (fun acc line => item ← json_loads line; Normal (acc ++ [item]))
                (List.filter has_non_space (split_on newline content)) [];
      Normal (VList items)
    else if String.eqb suffix ".yaml" || String.eqb suffix ".yml" then
      yaml_safe_load content
    else json_loads content in
  match loaded with
  | Normal data => data
  | Raise _ => VScalar SNone
  end.

Fixpoint _extract_schema (data : value) (depth : Z) {struct data} : value :=
  if max_depth config <? depth
  then VDict [(SStr "type", str_value "max_depth_exceeded")]
  else
    match data with
    | VDict items =>
        VDict
          [ (SStr "type", str_value "object");
            (SStr "properties",
              VDict
                ((fix properties (l : list (scalar * value)) :=
                    match l with
                    | [] => []
                    | (key, v) :: r =>
                        (key, _extract_schema v (depth + 1)) :: properties r
                    end) items)) ]
    | VList [] =>
        VDict [(SStr "type", str_value "array"); (SStr "items", VDict [])]
    | VList (first :: rest) =>
        VDict
          [ (SStr "type", str_value "array");
            (SStr "length", int_value (length (first :: rest)));
            (SStr "items", _extract_schema first (depth + 1)) ]
    | VScalar _ => VDict [(SStr "type", str_value (type_name_of data))]
    end.

Definition _extract_metadata (data : value) (file_path : string)
  : gmap string value :=
  let metadata : gmap string value :=
    {[ "file_name" := str_value (path_name file_path);
       "file_path" := str_value file_path;
       "file_type" := str_value (str_lower (path_suffix file_path));
       "data_type" := str_value (type_name_of data) ]} in
  let metadata :=
    match data with
    | VDict items =>
        <["num_keys" := int_value (length items)]>
          (<["top_level_keys" := VList (VScalar ∘ fst <$> items)]> metadata)
    | VList items =>
        let metadata := <["num_items" := int_value (length items)]> metadata in
        match items with
        | VDict first :: _ =>
            <["item_keys" := VList (VScalar ∘ fst <$> first)]> metadata
        | _ => metadata
        end
    | VScalar _ => metadata
    end in
  <["schema" := _extract_schema data 0]> metadata.

Definition _chunk_dict (data : list (scalar * value)) (path file_name : string)
    (start_idx : nat) : exc (list Chunk) :=
  for_each
    (fun chunks '(key, v) =>
       let current_path :=
         if String.eqb path "" then key
         else SStr (path +:+ "." +:+ str_of_scalar key) in
       match v with
       | VScalar x =>
           let chunk_text :=
             "Path: " +:+ str_of_scalar current_path +:+ nl
             +:+ "Value: " +:+ str_of_scalar x +:+ nl in
           Normal
             (chunks ++
              [ {| text := chunk_text;
                   chunk_index := start_idx + length chunks;
                   keywords := [SStr file_name; key; current_path];
                   entities := [] |} ])
       | _ =>
           value_str ← json_dumps v;
           let chunk_text :=
             "Path: " +:+ str_of_scalar current_path +:+ nl
             +:+ "Type: " +:+ type_name_of v +:+ nl
             +:+ "Content:" +:+ nl +:+ truncated 2000 value_str +:+ nl in
           Normal
             (chunks ++
              [ {| text := chunk_text;
                   chunk_index := start_idx + length chunks;
                   keywords :=
                     [ SStr file_name; key; current_path;
                       SStr (type_name_of v) ];
                   entities := [] |} ])
       end)
    data [].

Definition _chunk_list (data : list value) (path file_name : string)
    (start_idx : nat) : exc (list Chunk) :=
  starts ← range0 (length data) (max_array_items_per_chunk config);
  for_each
    (fun chunks i =>
       let per_chunk := Z.to_nat (max_array_items_per_chunk config) in
       let batch := slice i (i + per_chunk) data in
       batch_str ← json_dumps (VList batch);
       let chunk_text :=
         "Path: " +:+ path +:+ nl
         +:+ "Array items [" +:+ str_of_nat i +:+ ":"
         +:+ str_of_nat (Nat.min (i + per_chunk) (length data)) +:+ "]" +:+ nl
         +:+ "Content:" +:+ nl +:+ truncated 2000 batch_str +:+ nl in
       Normal
         (chunks ++
          [ {| text := chunk_text;
               chunk_index := start_idx + length chunks;
               keywords :=
                 strs [ file_name; path; "array";
                        "items_" +:+ str_of_nat i +:+ "_"
                        +:+ str_of_nat (i + length batch) ];
               entities := [] |} ]))
    starts [].

Definition _create_chunks_from_data (data : value) (file_name path : string)
  : exc (list Chunk) :=
  let overview0 :=
    "File: " +:+ file_name +:+ nl
    +:+ "Type: " +:+ type_name_of data +:+ nl in
  overview1 ←
    match data with
    | VDict items =>
        keys ← join_objects ", " (take 10 (fst <$> items));
        let line := overview0 +:+ "Top-level keys: " +:+ keys +:+ nl in
        if (10 <? length items)%nat
        then Normal (line +:+ "... and " +:+ str_of_nat (length items - 10)
                     +:+ " more keys" +:+ nl)
        else Normal line
    | VList items =>
        Normal (overview0 +:+ "Array with " +:+ str_of_nat (length items)
                +:+ " items" +:+ nl)
    | VScalar _ => Normal overview0
    end;
  preview ← json_dumps data;
  let overview_text :=
    overview1 +:+ nl +:+ "Preview:" +:+ nl +:+ truncated 500 preview +:+ nl in
  let chunks :=
    [ {| text := overview_text; chunk_index := 0;
         keywords := strs [file_name; "overview"; "structure"];
         entities := [] |} ] in
  more ←
    match data with
    | VDict items => _chunk_dict items path file_name (length chunks)
    | VList items => _chunk_list items path file_name (length chunks)
    | VScalar _ => Normal []
    end;
  Normal (chunks ++ more).

Definition get_name : string := "structured_data_processor".

(** [metadata[key]] and [metadata.get(key, 0)] rendered in a string. *)
Definition metadata_str (metadata : gmap string value) (key : string)
  : exc string :=
  match metadata !! key with
  | Some (VScalar x) => Normal (str_of_scalar x)
  | _ => Raise KeyError
  end.

Definition metadata_count (metadata : gmap string value) (key : string)
  : string :=
  match metadata !! key with
  | Some (VScalar x) => str_of_scalar x
  | _ => "0"
  end.

Definition scalars_of (v : value) : list scalar :=
  match v with
  | VList items =>
      flat_map (fun x => match x with VScalar k => [k] | _ => [] end) items
  | _ => []
  end.

Definition _create_processed_context (raw_context : RawContextProperties)
    (chunks : list Chunk) (metadata : gmap string value)
  : exc (option ProcessedContext) :=
  match chunks with
  | [] => Normal None
  | _ =>
      title ← metadata_str metadata "file_name";
      data_type ← metadata_str metadata "data_type";
      file_type ← metadata_str metadata "file_type";
      let summary :=
        if String.eqb data_type "dict"
        then "Structured data with " +:+ metadata_count metadata "num_keys"
             +:+ " top-level keys"
        else if String.eqb data_type "list"
        then "Array with " +:+ metadata_count metadata "num_items" +:+ " items"
        else "Structured data of type " +:+ data_type in
      let keywords :=
        strs [ title; lstrip_dots file_type; data_type ]
        ++ match metadata !! "top_level_keys" with
           | Some keys => take 10 (scalars_of keys)
           | None => []
           end in
      Normal (Some
        {| id := object_id raw_context;
           properties :=
             {| cp_context_type := SEMANTIC_CONTEXT;
                cp_source := source raw_context;
                create_time := now;
                update_time := now;
                cp_content_path := content_path raw_context;
                cp_content_format := TEXT;
                cp_title := title;
                cp_summary := summary;
                cp_tags := keywords;
                additional_metadata :=
                  <["processor" := str_value get_name]> metadata |};
           chunks := chunks;
           extracted_data :=
             {| ed_title := title; ed_summary := summary;
                ed_keywords := keywords; ed_entities := [];
                ed_context_type := SEMANTIC_CONTEXT; confidence := 95;
                importance := 75 |} |})
  end.

(** The [try] block of [process]. *)
Definition process_body (context : RawContextProperties)
  : exc (list ProcessedContext) :=
  file_path ← Path (content_path context);
  let data := _load_file file_path in
  match data with
  | VScalar SNone => Normal []
  | _ =>
      let metadata := _extract_metadata data file_path in
      chunks ← _create_chunks_from_data data (path_name file_path) "";
      processed_context ← _create_processed_context context chunks metadata;
      match processed_context with
      | Some pc => Normal [pc]
      | None => Normal []
      end
  end.

Definition process (context : RawContextProperties)
  : exc (list ProcessedContext) :=
  try_except (process_body context) (fun _ => Normal []).


(** Whether a path exists in the file system. *)
Variable path_exists : string → bool.

Definition get_supported_formats : list string :=
  [".json"; ".yaml"; ".yml"; ".jsonl"].

Definition can_process (context : pyobject) : bool :=
  if negb (enabled config) then false
  else
    match local_path context with
    | Some file_path =>
        path_exists file_path
        && bool_decide (str_lower (path_suffix file_path)
                        ∈ get_supported_formats)
    | None => false
    end.

End processor.

End StructuredDataProcessor.

(** ** processor/excel_processor.py *)

Module ExcelProcessor.
Import Models.

Record Config : Type := {
  enabled : bool;
  max_rows_per_chunk : Z;
  extract_formulas : bool;
  extract_comments : bool;
  detect_tables : bool;
}.

Definition default_config : Config :=
  {| enabled := true; max_rows_per_chunk := 100; extract_formulas := true;
     extract_comments := true; detect_tables := true |}.

(** A cell of an openpyxl worksheet: its value, and what reading its
    comment gives (the text of the comment, nothing, or an exception). *)
Record Cell : Type := {
  cell_value : scalar;
  cell_comment : exc (option string);
}.

(** An openpyxl worksheet.  [sheet_rows] is what [iter_rows] yields, row by
    row; [tables] is [None] when the sheet object has no [tables]
    attribute, and otherwise lists the tables by name and range. *)
Record Sheet : Type := {
  max_row : nat;
  max_column : nat;
  dimensions : string;
  tables : option (list (string * string));
  sheet_rows : list (list Cell);
}.

(** A pandas DataFrame, through what the processor asks of it: the column
    labels and dtypes as text, the number of rows, for each numeric column
    its label, minimum, maximum and mean (the mean with two decimals), and
    the text [to_string(index=False)] gives for the rows [i, j). *)
Record DataFrame : Type := {
  columns : list string;
  dtypes : list string;
  n_rows : nat;
  numeric_summary : list (string * string * string * string);
  to_string : nat → nat → string;
}.

(** [df.empty]: no rows or no columns. *)
Definition df_empty (df : DataFrame) : bool :=
  (n_rows df =? 0)%nat || (length (columns df) =? 0)%nat.

(** The letters of a column number, most significant first. *)
Fixpoint column_letters (fuel n : nat) : string :=
  match fuel with
  | O => EmptyString
  | S fuel' =>
      if (n =? 0)%nat then EmptyString
      else column_letters fuel' ((n - 1) / 26)
           +:+ String (ascii_of_nat (65 + (n - 1) mod 26)) EmptyString
  end.

(** [openpyxl.utils.get_column_letter] *)
Definition get_column_letter (col : nat) : exc string :=
  if (1 <=? Z.of_nat col) && (Z.of_nat col <=? 18278)
  then Normal (column_letters 3 col)
  else Raise ValueError.

(** [sheet.cell(row=row, column=col)], one-based; a position outside the
    stored rows is an empty cell. *)
Definition sheet_cell (sheet : Sheet) (row col : nat) : Cell :=
  match sheet_rows sheet !! (row - 1)%nat with
  | Some cells =>
      match cells !! (col - 1)%nat with
      | Some cell => cell
      | None => {| cell_value := SNone; cell_comment := Normal None |}
      end
  | None => {| cell_value := SNone; cell_comment := Normal None |}
  end.

Section processor.
Variable config : Config.
(** openpyxl, pandas and the clock. *)
Variable load_workbook : string → exc (list (string * Sheet)).
Variable read_excel : string → string → exc DataFrame.
Variable now : Z.

Definition _detect_table_ranges (sheet : Sheet) : list value :=
  match tables sheet with
  | Some named =>
      (fun '(table_name, ref) =>
         VDict [ (SStr "name", str_value table_name);
                 (SStr "range", str_value ref);
                 (SStr "type", str_value "excel_table") ]) <$> named
  | None => []
  end.

(** The comment loop of [_extract_sheet_metadata]: every cell that has a
    comment contributes its coordinate and the comment text. *)
Definition sheet_comments (sheet : Sheet) : exc (list value) :=
  for_each
    (fun comments '(r, row) =>
       for_each
         (fun comments '(c, cell) =>
            comment ← cell_comment cell;
            match comment with
            | Some comment_text =>
                letter ← get_column_letter (c + 1);
                Normal
                  (comments ++
                   [ VDict
                       [ (SStr "cell",
                           str_value (letter +:+ str_of_nat (r + 1)));
                         (SStr "comment", str_value comment_text) ] ])
            | None => Normal comments
            end)
         (enumerate row) comments)
    (enumerate (sheet_rows sheet)) [].

Definition _extract_sheet_metadata (sheet : Sheet)
    (file_path sheet_name : string) : exc (gmap string value) :=
  let metadata : gmap string value :=
    {[ "file_name" := str_value (path_name file_path);
       "file_path" := str_value file_path;
       "sheet_name" := str_value sheet_name;
       "max_row" := int_value (max_row sheet);
       "max_column" := int_value (max_column sheet);
       "dimensions" := str_value (dimensions sheet) ]} in
  let metadata :=
    if detect_tables config
    then <["tables" := VList (_detect_table_ranges sheet)]> metadata
    else metadata in
  if extract_comments config then
    comments ← sheet_comments sheet;
    match comments with
    | [] => Normal metadata
    | _ => Normal (<["comments" := VList comments]> metadata)
    end
  else Normal metadata.

(** [cell.value and isinstance(cell.value, str) and
    cell.value.startswith('=')] *)
Definition formula_of (cell : Cell) : option string :=
  match cell_value cell with
  | SStr v => if String.prefix "=" v then Some v else None
  | _ => None
  end.

Definition _extract_formulas_from_range (sheet : Sheet)
    (start_row end_row : nat) : exc (list string) :=
  for_each
    (fun formulas row =>
       for_each
         (fun formulas col =>
            match formula_of (sheet_cell sheet row col) with
            | Some v =>
                col_letter ← get_column_letter col;
                Normal (formulas ++
                        [col_letter +:+ str_of_nat row +:+ ": " +:+ v])
            | None => Normal formulas
            end)
         (seq 1 (max_column sheet)) formulas)
    (seq start_row
       (Nat.min (end_row + 1) (max_row sheet + 1) - start_row)) [].

Definition header_chunk (df : DataFrame) (sheet_name : string) : Chunk :=
  let header_text :=
    "Sheet: " +:+ sheet_name +:+ nl
    +:+ "Columns: " +:+ join ", " (columns df) +:+ nl
    +:+ "Rows: " +:+ str_of_nat (n_rows df) +:+ ", Columns: "
    +:+ str_of_nat (length (columns df)) +:+ nl
    +:+ nl +:+ "Data Types:" +:+ nl
    +:+ join nl
          (zip_with (fun col dtype => col +:+ ": " +:+ dtype)
             (columns df) (dtypes df))
    +:+ nl in
  let header_text :=
    match numeric_summary df with
    | [] => header_text
    | numeric_cols =>
        fold_left
          (fun t '(col, lo, hi, mean) =>
             t +:+ col +:+ ": min=" +:+ lo +:+ ", max=" +:+ hi
             +:+ ", mean=" +:+ mean +:+ nl)
          numeric_cols (header_text +:+ nl +:+ "Numeric Summary:" +:+ nl)
    end in
  {| text := header_text; chunk_index := 0;
     keywords := strs [sheet_name; "header"; "metadata"];
     entities := [] |}.

Definition _create_chunks_from_sheet (sheet : Sheet) (df : DataFrame)
    (sheet_name : string) : exc (list Chunk) :=
  let chunks := if df_empty df then [] else [header_chunk df sheet_name] in
  starts ← range0 (n_rows df) (max_rows_per_chunk config);
  for_each
    (fun chunks i =>
       let stop :=
         Nat.min (i + Z.to_nat (max_rows_per_chunk config)) (n_rows df) in
       let chunk_len := (stop - i)%nat in
       let label := str_of_nat (i + 1) +:+ " to " +:+ str_of_nat (i + chunk_len) in
       let chunk_text :=
         "Sheet: " +:+ sheet_name +:+ " (Rows " +:+ label +:+ ")" +:+ nl
         +:+ to_string df i stop +:+ nl in
       chunk_text ←
         (if extract_formulas config then
            formulas ← _extract_formulas_from_range sheet (i + 2)
                         (i + chunk_len + 1);
            match formulas with
            | [] => Normal chunk_text
            | _ =>
                Normal (chunk_text +:+ nl +:+ "Formulas:" +:+ nl
                        +:+ join nl formulas)
            end
          else Normal chunk_text);
       Normal
         (chunks ++
          [ {| text := chunk_text;
               chunk_index := length chunks;
               keywords :=
                 strs ([ sheet_name;
                         "rows_" +:+ str_of_nat (i + 1) +:+ "_to_"
                         +:+ str_of_nat (i + chunk_len) ]
                       ++ take 5 (columns df));
               entities := [] |} ]))
    starts chunks.

Definition get_name : string := "excel_processor".

Definition metadata_str (metadata : gmap string value) (key : string)
  : exc string :=
  match metadata !! key with
  | Some (VScalar x) => Normal (str_of_scalar x)
  | _ => Raise KeyError
  end.

(** The [name] entries of the detected tables. *)
Definition table_names (tables_value : value) : list scalar :=
  match tables_value with
  | VList entries =>
      flat_map
        (fun entry =>
           match entry with
           | VDict ((SStr "name", VScalar n) :: _) => [n]
           | _ => []
           end)
        entries
  | _ => []
  end.

Definition _create_processed_context (raw_context : RawContextProperties)
    (chunks : list Chunk) (metadata : gmap string value)
    (sheet_name : string) : exc (option ProcessedContext) :=
  match chunks with
  | [] => Normal None
  | _ =>
      file_name ← metadata_str metadata "file_name";
      rows ← metadata_str metadata "max_row";
      cols ← metadata_str metadata "max_column";
      let title := file_name +:+ " - " +:+ sheet_name in
      let summary :=
        "Excel sheet '" +:+ sheet_name +:+ "' with " +:+ rows
        +:+ " rows and " +:+ cols +:+ " columns" in
      let keywords :=
        strs [sheet_name; file_name; "excel"; "spreadsheet"]
        ++ match metadata !! "tables" with
           | Some tables_value => table_names tables_value
           | None => []
           end in
      Normal (Some
        {| id := object_id raw_context +:+ "_" +:+ sheet_name;
           properties :=
             {| cp_context_type := SEMANTIC_CONTEXT;
                cp_source := source raw_context;
                create_time := now;
                update_time := now;
                cp_content_path := content_path raw_context;
                cp_content_format := TEXT;
                cp_title := title;
                cp_summary := summary;
                cp_tags := keywords;
                additional_metadata :=
                  <["processor" := str_value get_name]>
                    (<["sheet_name" := str_value sheet_name]> metadata) |};
           chunks := chunks;
           extracted_data :=
             {| ed_title := title; ed_summary := summary;
                ed_keywords := keywords; ed_entities := [];
                ed_context_type := SEMANTIC_CONTEXT; confidence := 90;
                importance := 70 |} |})
  end.

(** One iteration of the sheet loop of [process]. *)
Definition process_sheet (context : RawContextProperties)
    (file_path : string) (processed_contexts : list ProcessedContext)
    (entry : string * Sheet) : exc (list ProcessedContext) :=
  let '(sheet_name, sheet) := entry in
  sheet_metadata ← _extract_sheet_metadata sheet file_path sheet_name;
  df ← read_excel file_path sheet_name;
  chunks ← _create_chunks_from_sheet sheet df sheet_name;
  processed_context ← _create_processed_context context chunks sheet_metadata
                        sheet_name;
  match processed_context with
  | Some pc => Normal (processed_contexts ++ [pc])
  | None => Normal processed_contexts
  end.

(** The [try] block of [process]. *)
Definition process_body (context : RawContextProperties)
  : exc (list ProcessedContext) :=
  file_path ← Path (content_path context);
  workbook ← load_workbook file_path;
  for_each (process_sheet context file_path) workbook [].

Definition process (context : RawContextProperties)
  : exc (list ProcessedContext) :=
  try_except (process_body context) (fun _ => Normal []).


(** Whether a path exists in the file system. *)
Variable path_exists : string → bool.

Definition get_supported_formats : list string := [".xlsx"; ".xls"].

Definition can_process (context : pyobject) : bool :=
  if negb (enabled config) then false
  else
    match local_path context with
    | Some file_path =>
        path_exists file_path
        && bool_decide (str_lower (path_suffix file_path)
                        ∈ get_supported_formats)
    | None => false
    end.

End processor.

End ExcelProcessor.

(** ** Vocabulary of the statements of Part II *)

Module Vocabulary.

Section tags.
Context {char : Type} `{Countable char}.
Variable isspace : char → bool.
Variable lower : list char → list char.

(** A string is left-trimmed when it does not start with whitespace. *)
Definition ltrimmed (s : list char) : Prop :=
  match s with
  | [] => True
  | c :: _ => isspace c = false
  end.

(** What the first loop of [_clean_tags] lets through. *)
Definition admissible (t : list char) : Prop :=
  AutoTaggingService.strip isspace t = t ∧ t ≠ [] ∧ (length t < 100)%nat.

(** The second loop of [_clean_tags] keeps [seen] equal to the lower-cased
    [unique], whose lower-cased entries are pairwise distinct. *)
Definition unique_inv (st : gset (list char) * list (list char)) : Prop :=
  st.1 = list_to_set (lower <$> st.2) ∧ NoDup (lower <$> st.2).

End tags.

(** A sheet gives at least one chunk when its DataFrame is not empty (the
    header chunk) or when it has a row and the batch size is positive (a
    row-batch chunk). *)
Definition sheet_yields_chunks (config : ExcelProcessor.Config)
    (df : ExcelProcessor.DataFrame) : bool :=
  negb (ExcelProcessor.df_empty df)
  || ((0 <? ExcelProcessor.n_rows df)%nat
      && (0 <? ExcelProcessor.max_rows_per_chunk config)).

(** The same, for a sheet of a workbook read through pandas. *)
Definition sheet_has_chunks (config : ExcelProcessor.Config)
    (read_excel : string → string → exc ExcelProcessor.DataFrame)
    (file_path : string) (entry : string * ExcelProcessor.Sheet) : bool :=
  match read_excel file_path entry.1 with
  | Normal df => sheet_yields_chunks config df
  | Raise _ => false
  end.

(** The identifier of the context of a sheet. *)
Definition sheet_context_id (context : Models.RawContextProperties)
    (entry : string * ExcelProcessor.Sheet) : string :=
  Models.object_id context +:+ "_" +:+ entry.1.

(** The sum of the counts of a facet dictionary. *)
Definition dict_total (d : list (string * nat)) : nat :=
  foldr (fun kv total => (kv.2 + total)%nat) 0%nat d.

(** A stored record whose creation time the facet loop can place in a
    bucket: the timestamp is present, not empty, parses, and can be
    subtracted from the clock. *)
Definition datable (fromisoformat : string → exc EnhancedSearchService.datetime)
    (now : EnhancedSearchService.datetime)
    (r : EnhancedSearchService.SearchResult) : bool :=
  match EnhancedSearchService.created_time
          (get (EnhancedSearchService.metadata r)
             EnhancedSearchService.no_metadata) with
  | Some (String _ _ as created) =>
      match fromisoformat created with
      | Normal dt =>
          Bool.eqb (EnhancedSearchService.aware now)
            (EnhancedSearchService.aware dt)
      | Raise _ => false
      end
  | _ => false
  end.

(** What [json.dumps] can write: every scalar but a foreign object, as a
    value or as a key, at any depth. *)
Definition scalar_serializable (x : scalar) : bool :=
  match x with
  | SOther _ _ => false
  | _ => true
  end.

Fixpoint serializable (v : value) : bool :=
  match v with
  | VScalar x => scalar_serializable x
  | VList items => forallb serializable items
  | VDict items =>
      forallb (fun '(k, x) => scalar_serializable k && serializable x) items
  end.

Definition is_str (x : scalar) : bool :=
  match x with
  | SStr _ => true
  | _ => false
  end.

(** The documents the structured-data processor turns into a context: not
    [None], serializable, with strings as the first ten keys of a mapping
    root and a non-zero batch size for an array root. *)
Definition structured_ok (config : StructuredDataProcessor.Config)
    (data : value) : bool :=
  match data with
  | VScalar SNone => false
  | VScalar x => scalar_serializable x
  | VList _ =>
      serializable data
      && negb (StructuredDataProcessor.max_array_items_per_chunk config =? 0)
  | VDict items => serializable data && forallb is_str (take 10 items.*1)
  end.

(** The number of chunks of such a document: the overview, then one per
    top-level key or one per batch of array items. *)
Definition structured_chunk_count (config : StructuredDataProcessor.Config)
    (data : value) : nat :=
  match data with
  | VScalar _ => 1%nat
  | VList items =>
      let m := StructuredDataProcessor.max_array_items_per_chunk config in
      if 0 <? m
      then (1 + (length items + Z.to_nat m - 1) / Z.to_nat m)%nat
      else 1%nat
  | VDict items => (1 + length items)%nat
  end.

(** The text of the items of a list, and of the entries of a dictionary,
    one level deeper: the inner loops of [dumps_at]. *)
Fixpoint dumps_items (level : nat) (l : list value) : exc (list string) :=
  match l with
  | [] => Normal []
  | x :: r =>
      sx ← dumps_at level x;
      sr ← dumps_items level r;
      Normal (sx :: sr)
  end.

Fixpoint dumps_entries (level : nat) (l : list (scalar * value))
  : exc (list string) :=
  match l with
  | [] => Normal []
  | (k, x) :: r =>
      sk ← dumps_key k;
      sx ← dumps_at level x;
      sr ← dumps_entries level r;
      Normal ((sk +:+ ": " +:+ sx) :: sr)
  end.

(** The nesting of a value: 0 for a scalar, one more than its deepest
    item for a list or a dictionary. *)
Fixpoint value_height (v : value) : nat :=
  match v with
  | VScalar _ => 0%nat
  | VList items => S (foldr (fun x h => Nat.max (value_height x) h) 0%nat items)
  | VDict items =>
      S (foldr (fun '(_, x) h => Nat.max (value_height x) h) 0%nat items)
  end.

(** A text of ASCII characters only.  On such a text the case mapping and
    the whitespace class of the embedding are those of [str.lower] and
    [str.strip]. *)
Definition is_ascii (s : string) : bool :=
  forallb (fun c => (nat_of_ascii c <? 128)%nat) (list_ascii_of_string s).

(** No line of [code] matches, at its start, the function, class or struct
    pattern of [language].  This holds of every file in a language that
    has no pattern set. *)
Definition no_syntax_element
    (re_match : string → string → option CodeProcessor.Match)
    (language code : string) : Prop :=
  ∀ patterns element_type p line,
    CodeProcessor.lookup_str language CodeProcessor.LANGUAGE_PATTERNS
    = Some patterns →
    element_type ∈ ["function"; "class"; "struct"] →
    CodeProcessor.lookup_str element_type patterns = Some p →
    line ∈ split_on newline code →
    re_match p line = None.

End Vocabulary.

(** ** Concrete inputs used by the examples of Part II *)

Module Fixtures.
Import EnhancedSearchService.

(** A storage capability that answers every query with the same records. *)
Definition storage_returning (records : list SearchResult)
  : string → Z → option (list string) → exc (list SearchResult) :=
  fun _ _ _ => Normal records.


(** A parser that rejects every timestamp; none of the examples reaches
    it with a non-empty string. *)
Definition no_timestamps : string → exc datetime :=
  fun _ => Raise ValueError.


(** A candidate at distance 1.0 from the query, with no metadata. *)
Definition far_candidate : SearchResult :=
  {| rid := "far"; distance := Some 1%Q; metadata := None |}.

(** A candidate tagged [alpha] and [beta]. *)
Definition tagged (name : string) : SearchResult :=
  {| rid := name; distance := Some 0%Q;
     metadata := Some {| file_extension := None;
                         tags := Some ["alpha"; "beta"];
                         created_time := None; importance := None;
                         context_type := None |} |}.

(** The leading identifier characters of a string. *)
Fixpoint take_word (s : string) : string :=
  match s with
  | EmptyString => EmptyString
  | String c r =>
      let n := nat_of_ascii c in
      if ((48 <=? n)%nat && (n <=? 57)%nat) || ((65 <=? n)%nat && (n <=? 90)%nat)
         || ((97 <=? n)%nat && (n <=? 122)%nat) || (n =? 95)%nat
      then String c (take_word r) else EmptyString
  end.

(** A regular-expression engine for the examples.  It knows the Python
    function pattern only, on lines that start with [def ] followed by an
    identifier; group 1 is that identifier. *)
Definition match_def (pattern line : string) : option CodeProcessor.Match :=
  if String.eqb pattern "^\s*def\s+(\w+)" && String.prefix "def " line
  then Some {| CodeProcessor.lastindex := Some 1%nat;
               CodeProcessor.group1 :=
                 Some (take_word
                         (String.substring 4 (String.length line - 4) line)) |}
  else None.

Definition findall_nothing (pattern code : string)
  : list CodeProcessor.found := [].

(** A file system holding one file. *)
Definition one_file (content : string) : string → exc string :=
  fun _ => Normal content.

Definition local_file (path object_id : string)
  : Models.RawContextProperties :=
  {| Models.source := Models.LOCAL_FILE;
     Models.content_format := Models.FILE;
     Models.content_path := Some path;
     Models.object_id := object_id |}.

(** A script of three lines without a definition. *)
Definition plain_script : string :=
  "# demo" +:+ nl +:+ "x = 1" +:+ nl +:+ "print(x)".

(** Two definitions after a comment line. *)
Definition two_defs : string :=
  "# demo" +:+ nl +:+ "def f():" +:+ nl +:+ "    pass" +:+ nl
  +:+ "def g():" +:+ nl +:+ "    pass".

(** The mapping [{"a": 1, "b": {"c": [1, 2, 3]}}]. *)
Definition nested_mapping : value :=
  VDict
    [ (SStr "a", VScalar (SInt 1));
      (SStr "b",
        VDict
          [ (SStr "c",
              VList [VScalar (SInt 1); VScalar (SInt 2); VScalar (SInt 3)]) ]) ].

Definition dq : string := String (ascii_of_nat 34) EmptyString.

(** The text [json.dumps({"c": [1, 2, 3]}, indent=2)] gives. *)
Definition nested_c_json : string :=
  join nl
    [ "{"; "  " +:+ dq +:+ "c" +:+ dq +:+ ": ["; "    1,"; "    2,";
      "    3"; "  ]"; "}" ].

(** A YAML parser for the examples: a document made of one comment line
    loads as [None]; anything else is malformed. *)
Definition yaml_comment_only (content : string) : exc value :=
  if String.prefix "#" content then Normal (VScalar SNone)
  else Raise YAMLError.

Definition json_rejecting (content : string) : exc value :=
  Raise JSONDecodeError.

(** A JSON parser that reads every file as the nested mapping above. *)
Definition json_nested (content : string) : exc value :=
  Normal nested_mapping.

(** *** A workbook for the Excel examples *)

Definition plain (v : scalar) : ExcelProcessor.Cell :=
  {| ExcelProcessor.cell_value := v;
     ExcelProcessor.cell_comment := Normal None |}.

(** A cell whose comment cannot be read. *)
Definition broken_comment (v : scalar) : ExcelProcessor.Cell :=
  {| ExcelProcessor.cell_value := v;
     ExcelProcessor.cell_comment := Raise AttributeError |}.

(** A header row and two data rows, the last with a formula. *)
Definition data_sheet : ExcelProcessor.Sheet :=
  {| ExcelProcessor.max_row := 3;
     ExcelProcessor.max_column := 2;
     ExcelProcessor.dimensions := "A1:B3";
     ExcelProcessor.tables := Some [];
     ExcelProcessor.sheet_rows :=
       [ [plain (SStr "name"); plain (SStr "qty")];
         [plain (SStr "bolt"); plain (SInt 1)];
         [plain (SStr "nut"); plain (SStr "=B2*5")] ] |}.

(** The same sheet, with one comment that cannot be read. *)
Definition commented_sheet : ExcelProcessor.Sheet :=
  {| ExcelProcessor.max_row := 3;
     ExcelProcessor.max_column := 2;
     ExcelProcessor.dimensions := "A1:B3";
     ExcelProcessor.tables := Some [];
     ExcelProcessor.sheet_rows :=
       [ [plain (SStr "name"); plain (SStr "qty")];
         [plain (SStr "bolt"); broken_comment (SInt 1)];
         [plain (SStr "nut"); plain (SStr "=B2*5")] ] |}.

(** A sheet nobody has typed in. *)
Definition blank_sheet : ExcelProcessor.Sheet :=
  {| ExcelProcessor.max_row := 1;
     ExcelProcessor.max_column := 1;
     ExcelProcessor.dimensions := "A1:A1";
     ExcelProcessor.tables := Some [];
     ExcelProcessor.sheet_rows := [[plain SNone]] |}.

Definition data_frame : ExcelProcessor.DataFrame :=
  {| ExcelProcessor.columns := ["name"; "qty"];
     ExcelProcessor.dtypes := ["object"; "int64"];
     ExcelProcessor.n_rows := 2;
     ExcelProcessor.numeric_summary := [("qty", "1", "5", "3.00")];
     ExcelProcessor.to_string :=
       fun i j => "rows " +:+ str_of_nat i +:+ ".." +:+ str_of_nat j |}.

Definition blank_frame : ExcelProcessor.DataFrame :=
  {| ExcelProcessor.columns := [];
     ExcelProcessor.dtypes := [];
     ExcelProcessor.n_rows := 0;
     ExcelProcessor.numeric_summary := [];
     ExcelProcessor.to_string := fun _ _ => "Empty DataFrame" |}.

(** pandas reading the sheets of the examples. *)
Definition read_frames (file_path sheet_name : string)
  : exc ExcelProcessor.DataFrame :=
  if String.eqb sheet_name "Blank" then Normal blank_frame
  else Normal data_frame.

(** openpyxl opening a workbook with the given sheets. *)
Definition workbook_with (sheets : list (string * ExcelProcessor.Sheet))
  : string → exc (list (string * ExcelProcessor.Sheet)) :=
  fun _ => Normal sheets.

Definition two_sheet_workbook : list (string * ExcelProcessor.Sheet) :=
  [("Data", data_sheet); ("Blank", blank_sheet)].

Definition commented_workbook : list (string * ExcelProcessor.Sheet) :=
  [("Data", commented_sheet)].

(** A file system without the file asked for. *)
Definition no_such_file : string → exc string :=
  fun _ => Raise OSError.

(** *** Stored records for the search examples *)

(** Timestamps of the examples are decimal numbers of microseconds. *)
Definition parse_instant (created : string) : exc datetime :=
  match NilZero.int_of_string created with
  | Some i => Normal {| instant := Z.of_int i; aware := false |}
  | None => Raise ValueError
  end.

Definition stored (name : string) (dist : Q) (ext : string)
    (tag_list : list string) (created : string) (imp : Z) : SearchResult :=
  {| rid := name; distance := Some dist;
     metadata := Some {| file_extension := Some ext;
                         tags := Some tag_list;
                         created_time := Some created;
                         importance := Some imp;
                         context_type := Some "semantic" |} |}.

Definition library : list SearchResult :=
  [ stored "r1" (1 # 2) ".pdf" ["alpha"] "100" 10;
    stored "r2" (1 # 10) ".md" ["beta"; "alpha"] "300" 90;
    stored "r3" (3 # 10) "pdf" ["gamma"] "yesterday" 50;
    stored "r4" (1 # 5) ".txt" [] "200" 70 ].

(** A store of contexts that knows [r2] only. *)
Definition contexts_with_r2 (context_id : string)
  : exc (option StoredContext) :=
  if String.eqb context_id "r2"
  then Normal (Some {| summary := Some ""; title := Some "notes" |})
  else Normal None.

(** *** More inputs for the examples *)

(** A code-processor configuration with a window of zero lines. *)
Definition zero_window_config : CodeProcessor.Config :=
  {| CodeProcessor.enabled := true;
     CodeProcessor.max_lines_per_chunk := 0;
     CodeProcessor.extract_functions := true;
     CodeProcessor.extract_classes := true;
     CodeProcessor.extract_imports := true;
     CodeProcessor.extract_comments := true |}.

(** A YAML parser that reads every file as the mapping [{1: "one"}]. *)
Definition yaml_int_key (content : string) : exc value :=
  Normal (VDict [(SInt 1, VScalar (SStr "one"))]).

(** A JSON parser that knows integers only. *)
Definition json_integers (content : string) : exc value :=
  match NilZero.int_of_string content with
  | Some i => Normal (VScalar (SInt (Z.of_int i)))
  | None => Raise JSONDecodeError
  end.

(** [str.lower] on lists of ASCII characters. *)
Definition ascii_lower (s : list ascii) : list ascii :=
  list_ascii_of_string (str_lower (string_of_list_ascii s)).

(** A generation capability that answers nothing, and a parser that finds
    nothing in any answer. *)
Definition llm_silent (messages : list (string * string))
  : exc (option string) := Normal None.

Definition parse_nothing (response : string)
  : exc (@AutoTaggingService.parsed ascii) :=
  Normal AutoTaggingService.ParsedFalsy.

(** A file system in which every path exists. *)
Definition every_path_exists (file_path : string) : bool := true.

End Fixtures.

(** * Part II: verified properties *)

(** ** Python conventions *)

Section python_facts.

(** The fuel [range0] gives [range_up] is enough: with a positive step,
    any larger amount produces the same range. *)
Lemma range_up_enough (step : nat) :
  (0 < step)%nat →
  ∀ fuel i stop fuel',
    (stop - i ≤ fuel)%nat → (fuel ≤ fuel')%nat →
    range_up fuel' i stop step = range_up fuel i stop step.
Proof.
  intros Hstep. induction fuel as [|fuel IH]; intros i stop fuel' Hi Hle.
  - destruct fuel' as [|fuel']; simpl; [done|].
    replace (i <? stop)%nat with false
      by (symmetry; apply Nat.ltb_ge; lia). done.
  - destruct fuel' as [|fuel']; [lia|]. simpl.
    destruct (i <? stop)%nat eqn:E; [|done].
    f_equal. apply IH; lia.
Qed.

(** Every element of a range lies below its stop. *)
Lemma range_up_below fuel i stop step k :
  k ∈ range_up fuel i stop step → (i ≤ k < stop)%nat.
Proof.
  revert i. induction fuel as [|fuel IH]; intros i; simpl.
  - by intros ?%elem_of_nil.
  - destruct (i <? stop)%nat eqn:E; [|by intros ?%elem_of_nil].
    apply Nat.ltb_lt in E.
    intros [->|Hk%IH]%elem_of_cons; lia.
Qed.

Example range0_250_by_100 : range0 250 100 = Normal [0; 100; 200]%nat.
Proof. reflexivity. Qed.

Example slice_to_negative : slice_to (-1) [1; 2; 3] = [1; 2].
Proof. reflexivity. Qed.

Example column_letters_of_numbers :
  ExcelProcessor.get_column_letter 1 = Normal "A"
  ∧ ExcelProcessor.get_column_letter 27 = Normal "AA"
  ∧ ExcelProcessor.get_column_letter 703 = Normal "AAA"
  ∧ ExcelProcessor.get_column_letter 0 = Raise ValueError.
Proof. repeat split. Qed.

Example path_parts :
  path_name "src/pkg/mod.PY" = "mod.PY"
  ∧ str_lower (path_suffix "src/pkg/mod.PY") = ".py"
  ∧ path_suffix "home/.profile" = "".
Proof. repeat split. Qed.

End python_facts.

(** ** Tag cleaning *)

Section clean_tags_facts.
Import AutoTaggingService.
Context {char : Type} `{Countable char}.
Variable isspace : char → bool.
Variable lower : list char → list char.

Abbreviation str := (list char).
Abbreviation ltrimmed := (Vocabulary.ltrimmed isspace).
Abbreviation admissible := (Vocabulary.admissible isspace).
Abbreviation unique_inv := (Vocabulary.unique_inv lower).

Lemma lstrip_ltrimmed s : ltrimmed (lstrip isspace s).
Proof.
  induction s as [|c r IH]; simpl; [done|].
  destruct (isspace c) eqn:E; [exact IH | simpl; exact E].
Qed.

Lemma lstrip_fixed s : ltrimmed s → lstrip isspace s = s.
Proof. destruct s as [|c r]; simpl; [done|]. by intros ->. Qed.

Lemma lstrip_snoc l c :
  isspace c = false → lstrip isspace (l ++ [c]) = lstrip isspace l ++ [c].
Proof.
  intros Hc. induction l as [|a l IH]; simpl.
  - by rewrite Hc.
  - destruct (isspace a); [exact IH | done].
Qed.

Lemma rstrip_ltrimmed s : ltrimmed s → ltrimmed (rstrip isspace s).
Proof.
  destruct s as [|c r]; [done|]. simpl. intros Hc.
  unfold rstrip. rewrite reverse_cons, lstrip_snoc by done.
  rewrite reverse_app. simpl. exact Hc.
Qed.

Lemma rstrip_idem s : rstrip isspace (rstrip isspace s) = rstrip isspace s.
Proof.
  unfold rstrip. rewrite reverse_involutive.
  by rewrite (lstrip_fixed _ (lstrip_ltrimmed _)).
Qed.

Lemma strip_idem s : strip isspace (strip isspace s) = strip isspace s.
Proof.
  unfold strip.
  rewrite (lstrip_fixed (rstrip isspace (lstrip isspace s))).
  - apply rstrip_idem.
  - apply rstrip_ltrimmed, lstrip_ltrimmed.
Qed.

Lemma clean_step_admissible acc o :
  Forall admissible acc → Forall admissible (clean_step isspace acc o).
Proof.
  intros Hacc. destruct o as [t|]; simpl; [|done].
  destruct (bool_decide (strip isspace t ≠ [])) eqn:E1; simpl; [|done].
  destruct (0 <? length (strip isspace t))%nat eqn:E2; simpl; [|done].
  destruct (length (strip isspace t) <? 100)%nat eqn:E3; simpl; [|done].
  apply Forall_app; split; [done|]. apply Forall_singleton.
  repeat split.
  - apply strip_idem.
  - by apply bool_decide_eq_true in E1.
  - by apply Nat.ltb_lt in E3.
Qed.

Lemma cleaned_admissible l acc :
  Forall admissible acc → Forall admissible (fold_left (clean_step isspace) l acc).
Proof.
  revert acc. induction l as [|o l IH]; intros acc Hacc; simpl; [done|].
  by apply IH, clean_step_admissible.
Qed.

Lemma clean_step_keeps acc t :
  admissible t → clean_step isspace acc (PyStr t) = acc ++ [t].
Proof.
  intros (Hs & Hne & Hlen). simpl. rewrite Hs.
  rewrite bool_decide_eq_true_2 by done.
  destruct t as [|c t]; [done|].
  replace (length (c :: t) <? 100)%nat with true
    by (symmetry; by apply Nat.ltb_lt).
  done.
Qed.

Lemma cleaned_of_admissible l acc :
  Forall admissible l →
  fold_left (clean_step isspace) (PyStr <$> l) acc = acc ++ l.
Proof.
  revert acc. induction l as [|t l IH]; intros acc Hl; simpl.
  - by rewrite app_nil_r.
  - apply Forall_cons in Hl as [Ht Hl].
    change (fold_left (clean_step isspace) (PyStr <$> l)
              (clean_step isspace acc (PyStr t)) = acc ++ t :: l).
    rewrite clean_step_keeps by done. rewrite IH by done.
    by rewrite <- app_assoc.
Qed.

Lemma unique_step_inv st t : unique_inv st → unique_inv (unique_step lower st t).
Proof.
  intros [Hseen Hnd]. unfold unique_step.
  destruct (decide (lower t ∈ st.1)) as [Hin|Hnin]; [done|].
  split; simpl.
  - rewrite fmap_app, list_to_set_app_L. simpl. rewrite <- Hseen.
    rewrite (right_id_L ∅ (∪)). apply (comm_L (∪)).
  - rewrite fmap_app. simpl. apply NoDup_app. split; [done|].
    split; [|apply NoDup_singleton].
    intros x Hx ->%list_elem_of_singleton.
    apply Hnin. rewrite Hseen. by apply elem_of_list_to_set.
Qed.

Lemma unique_loop_inv l st :
  unique_inv st → unique_inv (fold_left (unique_step lower) l st).
Proof.
  revert st. induction l as [|t l IH]; intros st Hst; simpl; [done|].
  by apply IH, unique_step_inv.
Qed.

Lemma unique_loop_Forall (P : str → Prop) l st :
  Forall P l → Forall P st.2 →
  Forall P (fold_left (unique_step lower) l st).2.
Proof.
  revert st. induction l as [|t l IH]; intros st Hl Hst; simpl; [done|].
  apply Forall_cons in Hl as [Ht Hl]. apply IH; [done|].
  unfold unique_step. destruct (decide _); simpl; [done|].
  apply Forall_app; split; [done|]. by apply Forall_singleton.
Qed.

(** On a list whose lower-cased entries are already distinct the second
    loop keeps everything. *)
Lemma unique_loop_distinct l st :
  unique_inv st → NoDup (lower <$> (st.2 ++ l)) →
  (fold_left (unique_step lower) l st).2 = st.2 ++ l.
Proof.
  revert st. induction l as [|t l IH]; intros st Hst Hnd; simpl.
  - by rewrite app_nil_r.
  - assert (Hfresh : lower t ∉ st.1).
    { destruct Hst as [-> _]. rewrite elem_of_list_to_set.
      rewrite fmap_app in Hnd. apply NoDup_app in Hnd as (_ & Hdis & _).
      intros Hin. apply (Hdis _ Hin). simpl. left. }
    assert (Hstep : unique_step lower st t = ({[lower t]} ∪ st.1, st.2 ++ [t])).
    { unfold unique_step. by destruct (decide (lower t ∈ st.1)). }
    rewrite Hstep, IH; simpl.
    + by rewrite <- app_assoc.
    + rewrite <- Hstep. by apply unique_step_inv.
    + by rewrite <- app_assoc.
Qed.

Lemma unique_inv_init : unique_inv (∅, []).
Proof. split; simpl; [done | apply NoDup_nil_2]. Qed.

(** The returned list has at most ten entries. *)
Lemma clean_tags_length (x : pyarg) :
  (length (_clean_tags isspace lower x) ≤ 10)%nat.
Proof.
  destruct x as [l|]; simpl; [|lia]. rewrite length_take. lia.
Qed.

(** C8. Tag cleaning is idempotent: cleaning the list that [_clean_tags]
    returned gives that list back, for every argument (a list of strings
    and other objects, or a non-list), every whitespace class and every
    case mapping. *)
Theorem clean_tags_idempotent (x : pyarg) :
  _clean_tags isspace lower (PyList (PyStr <$> _clean_tags isspace lower x))
  = _clean_tags isspace lower x.
Proof.
  destruct x as [l|]; [|reflexivity].
  unfold _clean_tags.
  set (cleaned := fold_left (clean_step isspace) l []).
  set (unique := (fold_left (unique_step lower) cleaned (∅, [])).2).
  assert (Hadm : Forall admissible (take 10 unique)).
  { apply Forall_take, unique_loop_Forall; [|by apply Forall_nil].
    apply cleaned_admissible, Forall_nil. done. }
  assert (Hnd : NoDup (lower <$> take 10 unique)).
  { rewrite fmap_take. eapply sublist_NoDup; [|apply sublist_take].
    apply (unique_loop_inv cleaned (∅, [])), unique_inv_init. }
  rewrite (cleaned_of_admissible _ []) by done. simpl.
  rewrite (unique_loop_distinct _ (∅, [])); simpl;
    [ | apply unique_inv_init | done].
  rewrite take_take. f_equal.
Qed.

End clean_tags_facts.

(** ** Enhanced search *)

Section list_facts.
Context {A : Type}.

Lemma fold_left_keep (p : A → bool) (l acc : list A) :
  fold_left (fun acc x => if p x then acc ++ [x] else acc) l acc
  = acc ++ List.filter p l.
Proof.
  revert acc. induction l as [|x l IH]; intros acc; simpl.
  - by rewrite app_nil_r.
  - rewrite IH. destruct (p x); [|done]. by rewrite <- app_assoc.
Qed.

Lemma slice_to_subseteq (k : Z) (l : list A) : slice_to k l ⊆ l.
Proof.
  unfold slice_to. destruct (0 <=? k); apply subseteq_take.
Qed.

Lemma slice_to_length (k : Z) (l : list A) :
  0 ≤ k → (Z.of_nat (length (slice_to k l)) ≤ k)%Z.
Proof.
  intros Hk. unfold slice_to.
  destruct (0 <=? k) eqn:E; [|lia]. rewrite length_take. lia.
Qed.

Lemma insert_desc_perm {K} (key : A → K) (ltb : K → K → bool) x l :
  insert_desc key ltb x l ≡ₚ x :: l.
Proof.
  induction l as [|y r IH]; simpl; [done|].
  destruct (ltb (key x) (key y)); [|done].
  rewrite IH. apply Permutation_swap.
Qed.

Lemma sort_desc_perm {K} (key : A → K) (ltb : K → K → bool) l :
  sort_desc key ltb l ≡ₚ l.
Proof.
  induction l as [|x l IH]; simpl; [done|].
  unfold sort_desc in *. simpl. by rewrite insert_desc_perm, IH.
Qed.

End list_facts.

Section search_facts.
Import EnhancedSearchService.
Variable search_context :
  string → Z → option (list string) → exc (list SearchResult).
Variable fromisoformat : string → exc datetime.
Variable now : datetime.

(** [search] handles every failure itself. *)
Lemma search_returns query top_k cts fts tgs dfrom dto minrel sort_by :
  ∃ l, search search_context fromisoformat query top_k cts fts tgs dfrom dto
         minrel sort_by = Normal l.
Proof.
  unfold search.
  destruct (search_context query (top_k * 2) cts) as [[|r rs]|e]; simpl;
    eauto.
Qed.

Lemma sort_results_perm sort_by l : sort_results sort_by l ≡ₚ l.
Proof.
  unfold sort_results.
  repeat case_bool_decide; try apply sort_desc_perm; done.
Qed.

(** What the filter loop of [search] keeps: candidates whose distance
    (1.0 when absent) is not below [min_relevance], scored with one minus
    their distance (0.0 when absent). *)
Lemma filter_loop_keeps fts tgs dfrom dto minrel rs acc x :
  x ∈ fold_left (filter_step fromisoformat fts tgs dfrom dto minrel) rs acc →
  x ∈ acc
  ∨ (result x ∈ rs
     ∧ ¬ (get (distance (result x)) 1 < minrel)%Q
     ∧ relevance_score x = (1 - get (distance (result x)) 0)%Q).
Proof.
  revert acc. induction rs as [|r rs IH]; intros acc; simpl; [by left|].
  intros [Hacc | (Hin & Hd & Hs)]%IH.
  - unfold filter_step in Hacc.
    destruct (Qltb (get (distance r) 1%Q) minrel) eqn:Hlt; [by left|].
    repeat (match type of Hacc with
            | context [if ?b then _ else _] => destruct b
            end; [by left|]).
    apply elem_of_app in Hacc as [?|Hx]; [by left|].
    apply list_elem_of_singleton in Hx as ->.
    right. simpl. split; [left|]. split; [|done].
    unfold Qltb in Hlt. apply negb_false_iff, Qle_bool_iff in Hlt.
    by apply Qle_not_lt.
  - right. split; [by right|done].
Qed.

(** The threshold of [search] bounds the distance of every result from
    below; it does not bound the relevance score. *)
Lemma search_threshold_bounds_distance
    query top_k cts fts tgs dfrom dto minrel sort_by l x :
  search search_context fromisoformat query top_k cts fts tgs dfrom dto
    minrel sort_by = Normal l →
  x ∈ l →
  ¬ (get (distance (result x)) 1 < minrel)%Q
  ∧ relevance_score x = (1 - get (distance (result x)) 0)%Q.
Proof.
  unfold search.
  destruct (search_context query (top_k * 2) cts) as [[|r rs]|e]; simpl;
    try (intros [= <-] Hin; by apply elem_of_nil in Hin).
  intros [= <-] Hin%slice_to_subseteq.
  rewrite sort_results_perm in Hin.
  apply (filter_loop_keeps _ _ _ _ _ (r :: rs) []) in Hin
    as [Hin | (_ & ? & ?)]; [by apply elem_of_nil in Hin | done].
Qed.

(** C6 (as amended). With [match_all] every result that [search_by_tags]
    returns stores all the requested tags, and for a non-negative [top_k]
    the list has at most [top_k] elements. *)
Theorem search_by_tags_match_all (tags_arg : list string) (top_k : Z) :
  ∃ l, search_by_tags search_context fromisoformat tags_arg top_k true
       = Normal l
     ∧ (∀ x, x ∈ l → tags_arg ⊆ stored_tags x)
     ∧ (0 ≤ top_k → Z.of_nat (length l) ≤ top_k).
Proof.
  unfold search_by_tags. cbn [negb].
  destruct (search_returns (join " " tags_arg) top_k None None None None None
              0%Q "relevance") as [results ->].
  simpl. eexists. split; [reflexivity|]. split.
  - intros x Hx%slice_to_subseteq.
    rewrite (fold_left_keep
               (fun x => forallb (fun tag => str_in tag (stored_tags x))
                           tags_arg)) in Hx.
    simpl in Hx. apply list_elem_of_In, filter_In in Hx as [_ Hall].
    intros t Ht. rewrite forallb_forall in Hall.
    apply list_elem_of_In, Hall in Ht. by apply bool_decide_eq_true in Ht.
  - apply slice_to_length.
Qed.

(** The facet computation fails exactly when no query scopes it and the
    storage capability fails. *)
Lemma get_facets_body_raises query cts e :
  get_facets_body search_context fromisoformat now query cts = Raise e
  ↔ (query = None ∨ query = Some "") ∧ search_context "" 100 None = Raise e.
Proof.
  unfold get_facets_body, facet_candidates.
  destruct query as [[|c q]|].
  - destruct (search_context "" 100 None); simpl; split.
    + discriminate.
    + intros [_ ?]; discriminate.
    + intros [= ->]. eauto.
    + intros [_ [= ->]]. done.
  - destruct (search_returns (String c q) 100 cts None None None None 0%Q
                "relevance") as [l ->]. simpl. split; [discriminate|].
    intros [[?|?] _]; discriminate.
  - destruct (search_context "" 100 None); simpl; split.
    + discriminate.
    + intros [_ ?]; discriminate.
    + intros [= ->]. eauto.
    + intros [_ [= ->]]. done.
Qed.

(** On success the returned dictionary has the four facet keys. *)
Lemma get_facets_success_keys query cts f :
  get_facets_body search_context fromisoformat now query cts = Normal f →
  ∃ d, get_facets search_context fromisoformat now query cts = Normal d
     ∧ d !! "file_types" = Some (f_file_types f)
     ∧ d !! "context_types" = Some (f_context_types f)
     ∧ d !! "tags" = Some (f_tags f)
     ∧ d !! "date_ranges" = Some (f_date_ranges f).
Proof.
  intros Hbody. unfold get_facets. rewrite Hbody. simpl.
  eexists. split; [reflexivity|]. unfold facets_dict.
  repeat split; by simplify_map_eq.
Qed.

(** In particular a failing storage capability, met when no query is
    given, empties the answer. *)
Lemma get_facets_storage_failure cts e :
  search_context "" 100 None = Raise e →
  get_facets search_context fromisoformat now None cts = Normal ∅.
Proof.
  intros Hfail. unfold get_facets.
  by rewrite (proj2 (get_facets_body_raises None cts e)) by eauto.
Qed.

(** With a non-empty query the candidates come from [search], which
    handles every failure itself: nothing is raised and the four facet keys
    are always present. *)
Lemma get_facets_with_query_keys c q cts :
  ∃ d f,
    get_facets search_context fromisoformat now (Some (String c q)) cts
    = Normal d
    ∧ d !! "file_types" = Some (f_file_types f)
    ∧ d !! "context_types" = Some (f_context_types f)
    ∧ d !! "tags" = Some (f_tags f)
    ∧ d !! "date_ranges" = Some (f_date_ranges f).
Proof.
  destruct (get_facets_body search_context fromisoformat now
              (Some (String c q)) cts) as [f|e] eqn:Hbody.
  - destruct (get_facets_success_keys _ _ _ Hbody) as (d & Hd & Hkeys).
    by exists d, f.
  - apply get_facets_body_raises in Hbody as [[?|?] _]; discriminate.
Qed.


End search_facts.

Section clean_tags_examples.
Import AutoTaggingService.

(** The ASCII instance: surrounding blanks go, [foo] repeats [Foo], the
    blank string and the non-string are dropped. *)
Example clean_tags_ascii :
  string_of_list_ascii
    <$> _clean_tags isspace_ascii
          (fun s => list_ascii_of_string (str_lower (string_of_list_ascii s)))
          (PyList
             [ PyStr (list_ascii_of_string "  Foo "); PyOther;
               PyStr (list_ascii_of_string "foo");
               PyStr (list_ascii_of_string "   ");
               PyStr (list_ascii_of_string "bar") ])
  = ["Foo"; "bar"].
Proof. vm_compute. reflexivity. Qed.

End clean_tags_examples.

Section search_examples.
Import EnhancedSearchService Fixtures.

(** C1 (the code at the failing input). With [min_relevance = 0.9] the
    candidate at distance 1.0 passes the threshold test, which compares the
    distance, and is returned with relevance score 0. *)
Theorem search_min_relevance_keeps_far_candidate :
  ∃ x, search (storage_returning [far_candidate]) no_timestamps
         "q" 10 None None None None None (9 # 10)%Q "relevance"
       = Normal [x]
     ∧ result x = far_candidate
     ∧ (relevance_score x == 0)%Q
     ∧ (relevance_score x < 9 # 10)%Q.
Proof.
  eexists. split; [vm_compute; reflexivity|].
  split; [reflexivity|]. split; reflexivity.
Qed.

Lemma search_by_tags_match_all_witness :
  ∃ l, search_by_tags (storage_returning [tagged "a"; far_candidate])
         no_timestamps ["alpha"] 2 true = Normal l
     ∧ (∀ x, x ∈ l → ["alpha"] ⊆ stored_tags x)
     ∧ Z.of_nat (length l) ≤ 2.
Proof.
  destruct (search_by_tags_match_all
              (storage_returning [tagged "a"; far_candidate]) no_timestamps
              ["alpha"] 2) as (l & Hl & Htags & Hlen).
  exists l. split; [exact Hl|]. split; [exact Htags|]. apply Hlen. lia.
Defined.

(** C6 as stated fails for a negative [top_k]: the bound is a slice bound
    counted from the end, so one of three matching records is returned for
    [top_k = -1]. *)
Lemma search_by_tags_negative_top_k :
  ∃ l, search_by_tags
         (storage_returning [tagged "a"; tagged "b"; tagged "c"])
         no_timestamps ["alpha"] (-1) true = Normal l
     ∧ length l = 1%nat
     ∧ ¬ (Z.of_nat (length l) ≤ -1).
Proof.
  eexists. split; [vm_compute; reflexivity|]. split; [reflexivity|].
  simpl. lia.
Qed.



End search_examples.

(** ** Code processor *)

Section chunk_index_facts.
Import Models.

(** A loop that appends one chunk per item, numbering each chunk by the
    number of chunks built so far plus [base], numbers them consecutively. *)
Lemma fold_left_chunk_indices {X} (step : list Chunk → X → list Chunk)
    (base : nat) :
  (∀ chunks x, ∃ c, step chunks x = chunks ++ [c]
                    ∧ chunk_index c = (base + length chunks)%nat) →
  ∀ xs acc,
    chunk_index <$> fold_left step xs acc
    = (chunk_index <$> acc) ++ seq (base + length acc) (length xs).
Proof.
  intros Hstep. induction xs as [|x xs IH]; intros acc; simpl.
  - by rewrite app_nil_r.
  - destruct (Hstep acc x) as (c & -> & Hc). rewrite IH.
    rewrite fmap_app, length_app. simpl. rewrite Hc, <- app_assoc. simpl.
    do 3 f_equal. lia.
Qed.

Lemma fold_left_chunk_length {X} (step : list Chunk → X → list Chunk) :
  (∀ chunks x, ∃ c, step chunks x = chunks ++ [c]) →
  ∀ xs acc, length (fold_left step xs acc) = (length acc + length xs)%nat.
Proof.
  intros Hstep. induction xs as [|x xs IH]; intros acc; simpl; [lia|].
  destruct (Hstep acc x) as (c & ->). rewrite IH, length_app. simpl. lia.
Qed.

End chunk_index_facts.

Section code_processor_facts.
Import Models CodeProcessor.
Variable config : Config.
Variable re_match : string → string → option Match.
Variable re_findall : string → string → list found.
Variable read_text : string → exc string.
Variable now : Z.

Lemma chunk_by_lines_indices lines file_name start_idx chunks :
  _chunk_by_lines config lines file_name start_idx = Normal chunks →
  chunk_index <$> chunks = seq start_idx (length chunks).
Proof.
  unfold _chunk_by_lines.
  destruct (range0 (length lines) (max_lines_per_chunk config))
    as [starts|e]; simpl; [|discriminate].
  intros [= <-].
  rewrite (fold_left_chunk_indices _ start_idx)
    by (intros; eexists; split; [reflexivity | simpl; lia]).
  rewrite fold_left_chunk_length by (intros; eexists; reflexivity).
  simpl. f_equal. lia.
Qed.

Lemma chunk_by_syntax_indices code language file_name chunks :
  _chunk_by_syntax config re_match code language file_name = Normal chunks →
  chunk_index <$> chunks = seq 1 (length chunks).
Proof.
  unfold _chunk_by_syntax.
  set (patterns := match lookup_str language LANGUAGE_PATTERNS with
                   | Some patterns => patterns
                   | None => []
                   end).
  set (lines := split_on newline code).
  set (elements := flat_map _ (enumerate lines)).
  match goal with
  | |- context [fold_left ?f ?xs []] => set (step := f); set (items := xs)
  end.
  assert (Hstep : ∀ cs x, ∃ c, step cs x = cs ++ [c]
                               ∧ chunk_index c = (1 + length cs)%nat).
  { intros cs [i element]. eexists. split; [reflexivity|]. simpl. lia. }
  pose proof (fold_left_chunk_indices step 1 Hstep items []) as Hidx.
  assert (Hlen : length (fold_left step items []) = length items).
  { rewrite (fold_left_chunk_length step); [done|].
    intros cs x. destruct (Hstep cs x) as (c & ? & _). eauto. }
  destruct (fold_left step items []) as [|c0 cs] eqn:E.
  - apply chunk_by_lines_indices.
  - intros [= <-]. rewrite Hidx, Hlen. done.
Qed.

Lemma create_chunks_from_code_indices code language file_name chunks :
  _create_chunks_from_code config re_match code language file_name
  = Normal chunks →
  chunk_index <$> chunks = seq 0 (length chunks).
Proof.
  unfold _create_chunks_from_code.
  destruct (lookup_str language LANGUAGE_PATTERNS) as [patterns|].
  - destruct (_chunk_by_syntax config re_match code language file_name)
      as [more|e] eqn:E; simpl; [|discriminate].
    intros [= <-]. simpl. f_equal. by apply chunk_by_syntax_indices in E.
  - destruct (_chunk_by_lines config (split_on newline code) file_name _)
      as [more|e] eqn:E; simpl; [|discriminate].
    intros [= <-]. simpl. f_equal. by apply chunk_by_lines_indices in E.
Qed.

Lemma create_processed_context_chunks raw chunks metadata language pc :
  _create_processed_context now raw chunks metadata language
  = Normal (Some pc) →
  Models.chunks pc = chunks.
Proof.
  unfold _create_processed_context. destruct chunks as [|c cs]; [done|].
  destruct (md_dict metadata !! "file_name") as [[[]| |]|];
    simpl; try discriminate.
  destruct (md_dict metadata !! "total_lines") as [[| |]|];
    simpl; try discriminate.
  by intros [= <-].
Qed.

(** C4. Whenever [process] returns a context for a code file, the
    [chunk_index] values of its chunks are 0, 1, ..., N-1 in list order,
    whichever chunking path produced them. *)
Theorem code_chunk_indices_contiguous context l pc :
  process config re_match re_findall read_text now context = Normal l →
  pc ∈ l →
  chunk_index <$> Models.chunks pc = seq 0 (length (Models.chunks pc)).
Proof.
  unfold process, process_body.
  destruct (Path (content_path context)) as [file_path|e]; simpl;
    [|intros [= <-] Hin; by apply elem_of_nil in Hin].
  destruct (read_text file_path) as [code|e]; simpl;
    [|intros [= <-] Hin; by apply elem_of_nil in Hin].
  destruct (_create_chunks_from_code config re_match code
              (_detect_language file_path) (path_name file_path))
    as [cs|e] eqn:Hcs; simpl;
    [|intros [= <-] Hin; by apply elem_of_nil in Hin].
  destruct (_create_processed_context now context cs _ _)
    as [[pc'|]|e] eqn:Hpc; simpl;
    intros [= <-] Hin; try by apply elem_of_nil in Hin.
  apply list_elem_of_singleton in Hin as ->.
  apply create_processed_context_chunks in Hpc as ->.
  by apply create_chunks_from_code_indices in Hcs.
Qed.

End code_processor_facts.

Section code_processor_examples.
Import Models CodeProcessor Fixtures.

Lemma code_chunk_indices_contiguous_witness :
  ∃ pc, process default_config match_def findall_nothing (one_file two_defs)
          0 (local_file "src/demo.py" "obj1") = Normal [pc]
      ∧ chunk_index <$> Models.chunks pc = [0; 1; 2]%nat.
Proof.
  eexists. split; [vm_compute; reflexivity|].
  etrans.
  - eapply (code_chunk_indices_contiguous default_config match_def
              findall_nothing (one_file two_defs) 0
              (local_file "src/demo.py" "obj1")).
    + vm_compute. reflexivity.
    + left.
  - reflexivity.
Defined.

End code_processor_examples.

(** ** Structured-data processor *)

Section structured_data_facts.
Import Models StructuredDataProcessor Fixtures.

(** C7. For the mapping [{"a": 1, "b": {"c": [1, 2, 3]}}] the processor
    builds exactly three chunks: the overview at index 0, the path-value
    chunk of [a] at index 1, and at index 2 the chunk of [b] holding the
    pretty-printed text of [{"c": [1, 2, 3]}]. *)
Theorem nested_mapping_chunks (config : Config) (file_name : string) :
  ∃ overview,
    _create_chunks_from_data config nested_mapping file_name ""
    = Normal
        [ overview;
          {| text := "Path: a" +:+ nl +:+ "Value: 1" +:+ nl;
             chunk_index := 1;
             keywords := [SStr file_name; SStr "a"; SStr "a"];
             entities := [] |};
          {| text := "Path: b" +:+ nl +:+ "Type: dict" +:+ nl
                     +:+ "Content:" +:+ nl +:+ nested_c_json +:+ nl;
             chunk_index := 2;
             keywords := [SStr file_name; SStr "b"; SStr "b"; SStr "dict"];
             entities := [] |} ]
    ∧ chunk_index overview = 0%nat
    ∧ keywords overview = strs [file_name; "overview"; "structure"]
    ∧ json_dumps (VDict [ (SStr "c",
                            VList [ VScalar (SInt 1); VScalar (SInt 2);
                                    VScalar (SInt 3) ]) ])
      = Normal nested_c_json.
Proof.
  eexists. split; [reflexivity|]. split; [reflexivity|].
  split; reflexivity.
Qed.

Variable config : Config.
Variable read_text : string → exc string.
Variable json_loads : string → exc value.
Variable yaml_safe_load : string → exc value.
Variable now : Z.

(** C9. A [.yaml] or [.yml] file whose document loads as [None] gives the
    empty list, as a file that fails to load does. *)
Theorem yaml_null_document_yields_nothing context file_path content :
  content_path context = Some file_path →
  str_lower (path_suffix file_path) = ".yaml"
    ∨ str_lower (path_suffix file_path) = ".yml" →
  read_text file_path = Normal content →
  yaml_safe_load content = Normal (VScalar SNone) →
  process config read_text json_loads yaml_safe_load now context = Normal [].
Proof.
  intros Hpath Hsuffix Hread Hload.
  unfold process, process_body. rewrite Hpath. simpl.
  assert (Hdata : _load_file read_text json_loads yaml_safe_load file_path
                  = VScalar SNone).
  { unfold _load_file. rewrite Hread. simpl.
    destruct Hsuffix as [-> | ->]; simpl; by rewrite Hload. }
  by rewrite Hdata.
Qed.

(** A file that cannot be loaded takes the same exit. *)
Lemma load_failure_yields_nothing context file_path e :
  content_path context = Some file_path →
  read_text file_path = Raise e →
  process config read_text json_loads yaml_safe_load now context = Normal [].
Proof.
  intros Hpath Hread. unfold process, process_body. rewrite Hpath. simpl.
  unfold _load_file. by rewrite Hread.
Qed.

End structured_data_facts.

Section structured_data_examples.
Import Models StructuredDataProcessor Fixtures.

(** The whole processor on a file holding the nested mapping: one context
    with the three chunks. *)
Example nested_mapping_processed :
  ∃ pc, process default_config (one_file "{...}") json_nested
          yaml_comment_only 0 (local_file "conf/nested.json" "obj5")
        = Normal [pc]
      ∧ id pc = "obj5"
      ∧ chunk_index <$> chunks pc = [0; 1; 2]%nat
      ∧ cp_summary (properties pc) = "Structured data with 2 top-level keys".
Proof.
  eexists. split; [vm_compute; reflexivity|]. repeat split.
Qed.

Lemma yaml_null_document_yields_nothing_witness :
  process default_config (one_file "# nothing here") json_rejecting
    yaml_comment_only 0 (local_file "conf/empty.yaml" "obj2") = Normal [].
Proof.
  apply (yaml_null_document_yields_nothing default_config
           (one_file "# nothing here") json_rejecting yaml_comment_only 0
           (local_file "conf/empty.yaml" "obj2") "conf/empty.yaml"
           "# nothing here").
  - reflexivity.
  - left. reflexivity.
  - reflexivity.
  - reflexivity.
Defined.

End structured_data_examples.

(** ** Excel processor *)

Section loop_facts.
Context {S X : Type}.

(** A loop whose body raises at some item raises. *)
Lemma for_each_raises (step : S → X → exc S) (xs : list X) (x : X) :
  x ∈ xs → (∀ st, ∃ e, step st x = Raise e) →
  ∀ st, ∃ e, for_each step xs st = Raise e.
Proof.
  intros Hin Hx. induction xs as [|y ys IH]; intros st.
  - by apply elem_of_nil in Hin.
  - simpl. apply elem_of_cons in Hin as [<- | Hin].
    + destruct (Hx st) as [e ->]. simpl. eauto.
    + destruct (step st y) as [st'|e]; simpl; eauto.
Qed.

End loop_facts.

Section appending_loops.
Context {A X : Type}.

(** A loop whose body appends one element per item, when it does not
    raise, grows the list by the number of items. *)
Lemma for_each_append_length (step : list A → X → exc (list A)) :
  (∀ acc x acc', step acc x = Normal acc' → ∃ a, acc' = acc ++ [a]) →
  ∀ xs acc r, for_each step xs acc = Normal r →
    length r = (length acc + length xs)%nat.
Proof.
  intros Hstep. induction xs as [|x xs IH]; intros acc r; simpl.
  - intros [= <-]. lia.
  - destruct (step acc x) as [acc'|e] eqn:E; simpl; [|discriminate].
    intros Hr. apply IH in Hr. destruct (Hstep _ _ _ E) as [a ->].
    rewrite length_app in Hr. simpl in Hr. lia.
Qed.

End appending_loops.

Section excel_processor_facts.
Import Models ExcelProcessor Vocabulary.
Variable config : Config.
Variable load_workbook : string → exc (list (string * Sheet)).
Variable read_excel : string → string → exc DataFrame.
Variable now : Z.

Lemma range0_nil n step starts :
  range0 n step = Normal starts →
  (starts = [] ↔ ((0 <? n)%nat && (0 <? step)) = false).
Proof.
  unfold range0. destruct (step =? 0) eqn:E0; [discriminate|].
  destruct (step <? 0) eqn:E1.
  - intros [= <-]. split; [|done]. intros _.
    replace (0 <? step) with false by (symmetry; apply Z.ltb_ge; lia).
    apply andb_false_r.
  - intros [= <-].
    replace (0 <? step) with true by (symmetry; apply Z.ltb_lt; lia).
    rewrite andb_true_r. destruct n as [|n]; simpl; [done|].
    split; discriminate.
Qed.

Lemma create_chunks_from_sheet_nil sheet df sheet_name chunks :
  _create_chunks_from_sheet config sheet df sheet_name = Normal chunks →
  (chunks = [] ↔ sheet_yields_chunks config df = false).
Proof.
  unfold _create_chunks_from_sheet, sheet_yields_chunks.
  destruct (range0 (n_rows df) (max_rows_per_chunk config))
    as [starts|e] eqn:Hr; simpl; [|discriminate].
  intros Hloop.
  apply for_each_append_length in Hloop.
  2:{ intros acc i acc'.
      destruct (extract_formulas config); simpl.
      - destruct (_extract_formulas_from_range _ _ _) as [[|f fs]|e]; simpl;
          try discriminate; intros [= <-]; eauto.
      - intros [= <-]; eauto. }
  apply range0_nil in Hr.
  destruct (df_empty df) eqn:Hempty; simpl in *.
  - rewrite <- Hr. destruct starts, chunks; simpl in *; try lia; done.
  - destruct chunks; simpl in *; [lia|done].
Qed.

Lemma create_processed_context_id raw chunks metadata sheet_name r :
  _create_processed_context now raw chunks metadata sheet_name = Normal r →
  match r with
  | Some pc => chunks ≠ [] ∧ id pc = object_id raw +:+ "_" +:+ sheet_name
  | None => chunks = []
  end.
Proof.
  unfold _create_processed_context.
  destruct chunks as [|c cs]; [by intros [= <-]|].
  destruct (metadata_str metadata "file_name"); simpl; [|discriminate].
  destruct (metadata_str metadata "max_row"); simpl; [|discriminate].
  destruct (metadata_str metadata "max_column"); simpl; [|discriminate].
  by intros [= <-].
Qed.

(** What one iteration of the sheet loop adds. *)
Lemma process_sheet_ids context file_path acc entry acc' :
  process_sheet config read_excel now context file_path acc entry
  = Normal acc' →
  id <$> acc'
  = (id <$> acc)
    ++ (if sheet_has_chunks config read_excel file_path entry
        then [sheet_context_id context entry] else []).
Proof.
  destruct entry as [sheet_name sheet].
  unfold process_sheet, sheet_has_chunks, sheet_context_id. simpl.
  destruct (_extract_sheet_metadata config sheet file_path sheet_name)
    as [md|e]; simpl; [|discriminate].
  destruct (read_excel file_path sheet_name) as [df|e]; simpl;
    [|discriminate].
  destruct (_create_chunks_from_sheet config sheet df sheet_name)
    as [chunks|e] eqn:Hchunks; simpl; [|discriminate].
  apply create_chunks_from_sheet_nil in Hchunks.
  destruct (_create_processed_context now context chunks md sheet_name)
    as [r|e] eqn:Hpc; simpl; [|discriminate].
  apply create_processed_context_id in Hpc.
  destruct r as [pc|]; intros [= <-].
  - destruct Hpc as [Hne Hid].
    destruct (sheet_yields_chunks config df).
    + rewrite fmap_app. simpl. by rewrite Hid.
    + destruct Hne. by apply Hchunks.
  - apply Hchunks in Hpc as ->. by rewrite app_nil_r.
Qed.

Lemma process_sheets_ids context file_path workbook acc l :
  for_each (process_sheet config read_excel now context file_path)
    workbook acc = Normal l →
  id <$> l
  = (id <$> acc)
    ++ (sheet_context_id context
          <$> List.filter (sheet_has_chunks config read_excel file_path)
                workbook).
Proof.
  revert acc. induction workbook as [|entry rest IH]; intros acc; simpl.
  - intros [= <-]. by rewrite app_nil_r.
  - destruct (process_sheet config read_excel now context file_path acc entry)
      as [acc'|e] eqn:Hstep; simpl; [|discriminate].
    intros Hrest. rewrite (IH _ Hrest), (process_sheet_ids _ _ _ _ _ Hstep).
    rewrite <- app_assoc.
    by destruct (sheet_has_chunks config read_excel file_path entry).
Qed.

(** C2 (as amended). When the workbook loads and no sheet fails, [process]
    returns one context per sheet that gives at least one chunk, in
    workbook order, and the context of a sheet has the identifier
    [object_id_sheetname]; sheets that give no chunk are left out. *)
Theorem excel_one_context_per_sheet_with_chunks context file_path workbook l :
  content_path context = Some file_path →
  load_workbook file_path = Normal workbook →
  process_body config load_workbook read_excel now context = Normal l →
  process config load_workbook read_excel now context = Normal l
  ∧ id <$> l
    = sheet_context_id context
        <$> List.filter (sheet_has_chunks config read_excel file_path)
              workbook
  ∧ (length l ≤ length workbook)%nat.
Proof.
  intros Hpath Hload Hbody. split; [|split].
  - unfold process. by rewrite Hbody.
  - unfold process_body in Hbody. rewrite Hpath in Hbody. simpl in Hbody.
    rewrite Hload in Hbody. simpl in Hbody.
    by apply process_sheets_ids in Hbody.
  - unfold process_body in Hbody. rewrite Hpath in Hbody. simpl in Hbody.
    rewrite Hload in Hbody. simpl in Hbody.
    apply process_sheets_ids in Hbody. simpl in Hbody.
    apply (f_equal length) in Hbody. rewrite !length_fmap in Hbody.
    rewrite Hbody. apply filter_length_le.
Qed.

(** With comment extraction switched off the metadata of a sheet is always
    produced, without a [comments] entry. *)
Lemma sheet_metadata_without_comments sheet file_path sheet_name :
  extract_comments config = false →
  ∃ md, _extract_sheet_metadata config sheet file_path sheet_name = Normal md
      ∧ md !! "comments" = None
      ∧ md !! "max_row" = Some (int_value (max_row sheet))
      ∧ md !! "dimensions" = Some (str_value (dimensions sheet)).
Proof.
  intros Hoff. unfold _extract_sheet_metadata. rewrite Hoff.
  eexists. split; [reflexivity|].
  destruct (detect_tables config); repeat split; by simplify_map_eq.
Qed.

(** C3 (as amended). With comment extraction enabled, a failure raised
    while the comments of a sheet are read is raised by
    [_extract_sheet_metadata], which produces no metadata for the sheet,
    and [process] catches it and returns the empty list. *)
Theorem comment_failure_aborts_workbook
    context file_path workbook sheet_name sheet e :
  extract_comments config = true →
  content_path context = Some file_path →
  load_workbook file_path = Normal workbook →
  (sheet_name, sheet) ∈ workbook →
  sheet_comments sheet = Raise e →
  _extract_sheet_metadata config sheet file_path sheet_name = Raise e
  ∧ process config load_workbook read_excel now context = Normal [].
Proof.
  intros Hon Hpath Hload Hin Hfail.
  assert (Hmd : _extract_sheet_metadata config sheet file_path sheet_name
                = Raise e).
  { unfold _extract_sheet_metadata. by rewrite Hon, Hfail. }
  split; [exact Hmd|].
  unfold process, process_body. rewrite Hpath. simpl. rewrite Hload. simpl.
  destruct (for_each_raises
              (process_sheet config read_excel now context file_path)
              workbook (sheet_name, sheet) Hin) with (st := @nil ProcessedContext)
    as [e' ->]; [|done].
  intros st. exists e. unfold process_sheet. by rewrite Hmd.
Qed.

End excel_processor_facts.

Section excel_processor_examples.
Import Models ExcelProcessor Vocabulary Fixtures.

Lemma excel_one_context_per_sheet_with_chunks_witness :
  ∃ l, process default_config (workbook_with two_sheet_workbook) read_frames
         0 (local_file "books/stock.xlsx" "obj3") = Normal l
     ∧ id <$> l = ["obj3_Data"]
     ∧ (length l ≤ 2)%nat.
Proof.
  eexists.
  apply (excel_one_context_per_sheet_with_chunks default_config
           (workbook_with two_sheet_workbook) read_frames 0
           (local_file "books/stock.xlsx" "obj3") "books/stock.xlsx"
           two_sheet_workbook).
  - reflexivity.
  - reflexivity.
  - vm_compute. reflexivity.
Defined.

(** C2 as stated fails on a workbook with a sheet that has no data rows:
    of the two sheets only one gets a context. *)
Lemma excel_blank_sheet_is_skipped :
  ∃ l, process default_config (workbook_with two_sheet_workbook) read_frames
         0 (local_file "books/stock.xlsx" "obj3") = Normal l
     ∧ length two_sheet_workbook = 2%nat
     ∧ length l = 1%nat
     ∧ id <$> l = ["obj3_Data"].
Proof.
  eexists. split; [vm_compute; reflexivity|]. repeat split.
Qed.

Lemma comment_failure_aborts_workbook_witness :
  _extract_sheet_metadata default_config commented_sheet "books/stock.xlsx"
    "Data" = Raise AttributeError
  ∧ process default_config (workbook_with commented_workbook) read_frames 0
      (local_file "books/stock.xlsx" "obj3") = Normal [].
Proof.
  apply (comment_failure_aborts_workbook default_config
           (workbook_with commented_workbook) read_frames 0
           (local_file "books/stock.xlsx" "obj3") "books/stock.xlsx"
           commented_workbook "Data" commented_sheet AttributeError).
  - reflexivity.
  - reflexivity.
  - reflexivity.
  - left.
  - reflexivity.
Defined.

(** C3 as stated fails: the sheet has rows to chunk, yet the unreadable
    comment leaves it without metadata and the workbook without contexts;
    with readable comments the same sheet gets its context. *)
Lemma comment_failure_is_not_isolated :
  sheet_has_chunks default_config read_frames "books/stock.xlsx"
    ("Data", commented_sheet) = true
  ∧ (∀ md, _extract_sheet_metadata default_config commented_sheet
             "books/stock.xlsx" "Data" ≠ Normal md)
  ∧ process default_config (workbook_with commented_workbook) read_frames 0
      (local_file "books/stock.xlsx" "obj3") = Normal []
  ∧ ∃ pc, process default_config (workbook_with [("Data", data_sheet)])
            read_frames 0 (local_file "books/stock.xlsx" "obj3")
          = Normal [pc]
        ∧ id pc = "obj3_Data".
Proof.
  split; [reflexivity|]. split; [intros md; discriminate|].
  split; [reflexivity|].
  eexists. split; [vm_compute; reflexivity|reflexivity].
Qed.

End excel_processor_examples.

(** ** The processor boundary *)

Section processor_boundary.
Import Models.

(** C5. No processor raises out of [process]: the call returns a list,
    and the list is empty whenever something was raised inside. *)
Theorem processors_never_raise :
  (∀ config re_match re_findall read_text now context,
     ∃ l, CodeProcessor.process config re_match re_findall read_text now
            context = Normal l
        ∧ ∀ e, CodeProcessor.process_body config re_match re_findall
                 read_text now context = Raise e → l = [])
  ∧ (∀ config load_workbook read_excel now context,
       ∃ l, ExcelProcessor.process config load_workbook read_excel now
              context = Normal l
          ∧ ∀ e, ExcelProcessor.process_body config load_workbook read_excel
                   now context = Raise e → l = [])
  ∧ (∀ config read_text json_loads yaml_safe_load now context,
       ∃ l, StructuredDataProcessor.process config read_text json_loads
              yaml_safe_load now context = Normal l
          ∧ ∀ e, StructuredDataProcessor.process_body config read_text
                   json_loads yaml_safe_load now context = Raise e → l = []).
Proof.
  split; [|split]; intros.
  - unfold CodeProcessor.process.
    destruct (CodeProcessor.process_body _ _ _ _ _ _) as [l|e]; simpl;
      eexists; (split; [reflexivity|]); [discriminate | done].
  - unfold ExcelProcessor.process.
    destruct (ExcelProcessor.process_body _ _ _ _ _) as [l|e]; simpl;
      eexists; (split; [reflexivity|]); [discriminate | done].
  - unfold StructuredDataProcessor.process.
    destruct (StructuredDataProcessor.process_body _ _ _ _ _ _) as [l|e];
      simpl; eexists; (split; [reflexivity|]); [discriminate | done].
Qed.

End processor_boundary.

Section processor_boundary_examples.
Import Models Fixtures.

Lemma processors_never_raise_witness :
  CodeProcessor.process CodeProcessor.default_config match_def
    findall_nothing no_such_file 0 (local_file "src/gone.py" "obj4")
  = Normal [].
Proof.
  destruct processors_never_raise as [Hcode _].
  destruct (Hcode CodeProcessor.default_config match_def findall_nothing
              no_such_file 0 (local_file "src/gone.py" "obj4"))
    as (l & Hl & Hempty).
  rewrite Hl. f_equal. apply (Hempty OSError). reflexivity.
Defined.

End processor_boundary_examples.

(** * Part III: further properties of the code *)

(** ** Descending stable sort *)

Section sorting_facts.
Context {A K : Type} (key : A → K) (ltb : K → K → bool).
Hypothesis ltb_asym : ∀ a b, ltb a b = true → ltb b a = false.

(** [x] may stand before [y]: the key of [x] is not below the key of [y]. *)
Let before (x y : A) : Prop := ltb (key x) (key y) = false.

Lemma insert_desc_HdRel y x l :
  before y x → HdRel before y l → HdRel before y (insert_desc key ltb x l).
Proof.
  intros Hyx Hhd. destruct l as [|z r]; simpl; [by constructor|].
  apply HdRel_inv in Hhd.
  destruct (ltb (key x) (key z)); by constructor.
Qed.

Lemma insert_desc_Sorted x l :
  Sorted before l → Sorted before (insert_desc key ltb x l).
Proof.
  induction l as [|y r IH]; simpl; intros Hs.
  - repeat constructor.
  - apply Sorted_inv in Hs as [Hr Hhd].
    destruct (ltb (key x) (key y)) eqn:E.
    + constructor; [by apply IH|].
      apply insert_desc_HdRel; [|done]. by apply ltb_asym.
    + constructor; [by constructor|]. by constructor.
Qed.

Lemma sort_desc_Sorted l : Sorted before (sort_desc key ltb l).
Proof.
  unfold sort_desc. induction l as [|x l IH]; simpl; [constructor|].
  by apply insert_desc_Sorted.
Qed.

End sorting_facts.

Section sorted_facts.
Context {A : Type}.

Lemma Sorted_take (R : A → A → Prop) n l :
  Sorted R l → Sorted R (take n l).
Proof.
  revert n. induction l as [|x l IH]; intros n Hs; destruct n; simpl;
    try constructor.
  - apply IH. by apply Sorted_inv in Hs as [? _].
  - apply Sorted_inv in Hs as [_ Hhd].
    destruct l as [|y l], n; simpl; try constructor.
    by apply HdRel_inv in Hhd.
Qed.

Lemma Sorted_slice_to (R : A → A → Prop) k l :
  Sorted R l → Sorted R (slice_to k l).
Proof. unfold slice_to. destruct (0 <=? k); apply Sorted_take. Qed.

Lemma Sorted_weaken (R R' : A → A → Prop) l :
  (∀ x y, R x y → R' x y) → Sorted R l → Sorted R' l.
Proof.
  intros Himpl. induction 1 as [|x l Hs IH Hhd]; constructor; [done|].
  destruct Hhd; constructor. by apply Himpl.
Qed.

End sorted_facts.

(** ** Enhanced search: filters, order and bounds *)

Section search_filters.
Import EnhancedSearchService.
Variable search_context :
  string → Z → option (list string) → exc (list SearchResult).
Variable fromisoformat : string → exc datetime.

(** The metadata [search] reads from a result. *)
Let md_of (x : EnhancedResult) : Metadata :=
  get (metadata (result x)) no_metadata.

(** A result of [search] is empty or the sorted, truncated output of the
    filter loop over what the storage capability returned. *)
Lemma search_inv query top_k cts fts tgs dfrom dto minrel sort_by l :
  search search_context fromisoformat query top_k cts fts tgs dfrom dto
    minrel sort_by = Normal l →
  l = []
  ∨ ∃ rs, search_context query (top_k * 2) cts = Normal rs
        ∧ l = slice_to top_k
                (sort_results sort_by
                   (fold_left
                      (filter_step fromisoformat fts tgs dfrom dto minrel)
                      rs [])).
Proof.
  unfold search.
  destruct (search_context query (top_k * 2) cts) as [[|r rs]|e]; simpl;
    intros [= <-]; eauto.
Qed.

(** Everything the filter loop appends passed every filter. *)
Lemma filter_loop_passes fts tgs dfrom dto minrel rs acc x :
  x ∈ fold_left (filter_step fromisoformat fts tgs dfrom dto minrel) rs acc →
  x ∈ acc
  ∨ (result x ∈ rs
     ∧ (truthy_list fts = true →
        str_in (lstrip_dots (get (file_extension (md_of x)) ""))
          (get fts []) = true)
     ∧ (truthy_list tgs = true →
        existsb (fun tag => str_in tag (get (tags (md_of x)) []))
          (get tgs []) = true)
     ∧ date_rejects fromisoformat (md_of x) dfrom dto = false
     ∧ relevance_score x = (1 - get (distance (result x)) 0)%Q
     ∧ result_importance x = get (importance (md_of x)) 50).
Proof.
  revert acc. induction rs as [|r rs IH]; intros acc; simpl; [by left|].
  intros [Hacc | (Hin & Hrest)]%IH; [|right; split; [by right|done]].
  unfold filter_step in Hacc.
  destruct (Qltb (get (distance r) 1%Q) minrel); [by left|].
  destruct (truthy_list fts
            && negb (str_in (lstrip_dots
                               (get (file_extension
                                       (get (metadata r) no_metadata)) ""))
                       (get fts []))) eqn:Hft; [by left|].
  destruct (truthy_list tgs
            && negb (existsb
                       (fun tag =>
                          str_in tag
                            (get (tags (get (metadata r) no_metadata)) []))
                       (get tgs []))) eqn:Htg; [by left|].
  destruct (date_rejects fromisoformat (get (metadata r) no_metadata)
              dfrom dto) eqn:Hdate; [by left|].
  apply elem_of_app in Hacc as [?|Hx]; [by left|].
  apply list_elem_of_singleton in Hx as ->.
  right. unfold md_of. simpl. split; [left|].
  apply andb_false_iff in Hft, Htg.
  repeat split; try done.
  - intros Ht. destruct Hft as [Hft|Hft]; [congruence|].
    by apply negb_false_iff in Hft.
  - intros Ht. destruct Htg as [Htg|Htg]; [congruence|].
    by apply negb_false_iff in Htg.
Qed.

Lemma search_member query top_k cts fts tgs dfrom dto minrel sort_by l x :
  search search_context fromisoformat query top_k cts fts tgs dfrom dto
    minrel sort_by = Normal l →
  x ∈ l →
  ∃ rs, search_context query (top_k * 2) cts = Normal rs
      ∧ x ∈ fold_left (filter_step fromisoformat fts tgs dfrom dto minrel)
              rs [].
Proof.
  intros [->|(rs & Hrs & ->)]%search_inv Hin; [by apply elem_of_nil in Hin|].
  exists rs. split; [done|].
  apply slice_to_subseteq in Hin. by rewrite sort_results_perm in Hin.
Qed.

(** X1. [search] returns at most [top_k] results when [top_k] is not
    negative, and each of them is a record the storage capability returned
    for the query (asked for twice [top_k] candidates), whose distance (1.0
    when absent) is not below [min_relevance], carrying its stored
    importance, 50 by default. *)
Theorem search_bounded_and_from_storage
    query top_k cts fts tgs dfrom dto minrel sort_by l :
  search search_context fromisoformat query top_k cts fts tgs dfrom dto
    minrel sort_by = Normal l →
  (0 ≤ top_k → Z.of_nat (length l) ≤ top_k)
  ∧ ∀ x, x ∈ l →
      ∃ rs, search_context query (top_k * 2) cts = Normal rs
          ∧ result x ∈ rs
          ∧ ¬ (get (distance (result x)) 1 < minrel)%Q
          ∧ result_importance x = get (importance (md_of x)) 50.
Proof.
  intros Hs. split.
  - intros Hk. apply search_inv in Hs as [->|(rs & _ & ->)]; simpl; [lia|].
    by apply slice_to_length.
  - intros x Hx. destruct (search_member _ _ _ _ _ _ _ _ _ _ _ Hs Hx)
      as (rs & Hrs & Hin).
    pose proof Hin as Hkept.
    apply filter_loop_passes in Hin as [Hin|(? & _ & _ & _ & _ & ?)];
      [by apply elem_of_nil in Hin|].
    apply filter_loop_keeps in Hkept as [Hkept|(_ & ? & _)];
      [by apply elem_of_nil in Hkept|].
    exists rs. done.
Qed.

(** The order of the results under each sort policy. *)
Lemma search_order
    query top_k cts fts tgs dfrom dto minrel sort_by l :
  search search_context fromisoformat query top_k cts fts tgs dfrom dto
    minrel sort_by = Normal l →
  (sort_by = "relevance" →
   Sorted (fun a b => (relevance_score b <= relevance_score a)%Q) l)
  ∧ (sort_by = "date" →
     Sorted (fun a b => String.leb (created_key b) (created_key a) = true) l)
  ∧ (sort_by = "importance" →
     Sorted (fun a b => result_importance b ≤ result_importance a) l).
Proof.
  intros [->|(rs & _ & ->)]%search_inv;
    [repeat split; intros _; constructor|].
  repeat split; intros ->; apply Sorted_slice_to; unfold sort_results; simpl.
  - eapply Sorted_weaken; [|apply sort_desc_Sorted].
    + intros a b Hab. unfold Qltb in Hab.
      by apply negb_false_iff, Qle_bool_iff in Hab.
    + intros a b Hab. unfold Qltb in *.
      apply negb_true_iff in Hab. apply negb_false_iff, Qle_bool_iff.
      destruct (Qle_bool b a) eqn:E; [done|].
      apply Qlt_le_weak, Qnot_le_lt. intros Hle.
      apply Qle_bool_iff in Hle. congruence.
  - eapply Sorted_weaken; [|apply sort_desc_Sorted].
    + intros a b Hab. unfold String.ltb, String.leb in *.
      rewrite String.compare_antisym.
      by destruct (String.compare (created_key a) (created_key b)).
    + intros a b Hab. unfold String.ltb in *.
      rewrite String.compare_antisym.
      by destruct (String.compare a b).
  - eapply Sorted_weaken; [|apply sort_desc_Sorted].
    + intros a b Hab. apply Z.ltb_ge in Hab. exact Hab.
    + intros a b Hab. apply Z.ltb_lt in Hab. apply Z.ltb_ge. lia.
Qed.

(** X3. With a non-empty [file_types] filter every result has a stored
    file extension that, leading dots removed, is one of the requested
    types; a record without an extension is a result only when the empty
    string is one of the requested types. *)
Theorem search_file_type_filter
    query top_k cts ft fts tgs dfrom dto minrel sort_by l x :
  search search_context fromisoformat query top_k cts (Some (ft :: fts)) tgs
    dfrom dto minrel sort_by = Normal l →
  x ∈ l →
  lstrip_dots (get (file_extension (md_of x)) "") ∈ ft :: fts
  ∧ (file_extension (md_of x) = None → "" ∈ ft :: fts).
Proof.
  intros Hs Hx. destruct (search_member _ _ _ _ _ _ _ _ _ _ _ Hs Hx)
    as (rs & _ & Hin).
  apply filter_loop_passes in Hin as [Hin|(_ & Hft & _)];
    [by apply elem_of_nil in Hin|].
  specialize (Hft eq_refl). apply bool_decide_eq_true in Hft.
  split; [done|]. intros Hnone. by rewrite Hnone in Hft.
Qed.

(** The date filter on a result whose creation time parses. *)
Lemma search_date_bounds
    query top_k cts fts tgs dfrom dto minrel sort_by l x created dt :
  search search_context fromisoformat query top_k cts fts tgs dfrom dto
    minrel sort_by = Normal l →
  x ∈ l →
  created_time (md_of x) = Some created →
  created ≠ "" →
  fromisoformat created = Normal dt →
  (∀ d, dfrom = Some d → aware d = aware dt) →
  (∀ d, dto = Some d → aware d = aware dt) →
  (∀ d, dfrom = Some d → instant d ≤ instant dt)
  ∧ (∀ d, dto = Some d → instant dt ≤ instant d).
Proof.
  intros Hs Hx Hc Hne Hparse Hfrom Hto.
  destruct (search_member _ _ _ _ _ _ _ _ _ _ _ Hs Hx) as (rs & _ & Hin).
  apply filter_loop_passes in Hin as [Hin|(_ & _ & _ & Hdate & _)];
    [by apply elem_of_nil in Hin|].
  unfold date_rejects in Hdate. rewrite Hc in Hdate.
  rewrite bool_decide_eq_false_2 in Hdate by done.
  rewrite Hparse in Hdate. simpl in Hdate.
  assert (Hlt : ∀ a b, aware a = aware b →
            dt_lt a b = Normal (instant a <? instant b)).
  { intros a b Hab. unfold dt_lt. rewrite Hab.
    by destruct (aware b). }
  split; intros d ->.
  - destruct dto as [d2|]; simpl in Hdate;
      rewrite (Hlt dt d) in Hdate by (symmetry; by apply Hfrom);
      simpl in Hdate;
      destruct (instant dt <? instant d) eqn:E; try discriminate;
      by apply Z.ltb_ge in E.
  - destruct dfrom as [d1|]; simpl in Hdate.
    + rewrite (Hlt dt d1) in Hdate by (symmetry; by apply Hfrom).
      simpl in Hdate. destruct (instant dt <? instant d1); [discriminate|].
      rewrite (Hlt d dt) in Hdate by (by apply Hto).
      apply Z.ltb_ge in Hdate. done.
    + rewrite (Hlt d dt) in Hdate by (by apply Hto).
      apply Z.ltb_ge in Hdate. done.
Qed.


(** X5. With a date range every result whose creation time parses (with
    the time-zone awareness of the bounds) lies inside the range. *)
Theorem search_date_range_filter
    query top_k cts fts tgs dfrom dto minrel sort_by l x created dt :
  search search_context fromisoformat query top_k cts fts tgs dfrom dto
    minrel sort_by = Normal l →
  x ∈ l →
  created_time (md_of x) = Some created →
  created ≠ "" →
  fromisoformat created = Normal dt →
  (∀ d, dfrom = Some d → aware d = aware dt) →
  (∀ d, dto = Some d → aware d = aware dt) →
  (∀ d, dfrom = Some d → instant d ≤ instant dt)
  ∧ (∀ d, dto = Some d → instant dt ≤ instant d).
Proof. apply search_date_bounds. Qed.

(** The length bound of [search]. *)
Lemma search_length query top_k cts fts tgs dfrom dto minrel sort_by l :
  search search_context fromisoformat query top_k cts fts tgs dfrom dto
    minrel sort_by = Normal l →
  0 ≤ top_k → Z.of_nat (length l) ≤ top_k.
Proof.
  intros Hs Hk. apply search_inv in Hs as [->|(rs & _ & ->)]; simpl; [lia|].
  by apply slice_to_length.
Qed.

(** X4. Without [match_all], [search_by_tags] with a non-empty tag list
    returns only results that store at least one of the requested tags,
    and at most [top_k] of them when [top_k] is not negative. *)
Theorem search_by_tags_any_tag (tags_arg : list string) (top_k : Z) l :
  search_by_tags search_context fromisoformat tags_arg top_k false
  = Normal l →
  tags_arg ≠ [] →
  (0 ≤ top_k → Z.of_nat (length l) ≤ top_k)
  ∧ ∀ x, x ∈ l → ∃ tag, tag ∈ tags_arg ∧ tag ∈ stored_tags x.
Proof.
  unfold search_by_tags. cbn [negb].
  destruct (search search_context fromisoformat (join " " tags_arg) top_k
              None None (Some tags_arg) None None 0%Q "relevance")
    as [results|e] eqn:Hs; simpl; [|by destruct (search_returns
      search_context fromisoformat (join " " tags_arg) top_k None None
      (Some tags_arg) None None 0%Q "relevance") as [? ?]; congruence].
  intros [= <-] Hne. split.
  - intros Hk. apply search_inv in Hs as [->|(rs & _ & ->)]; simpl; [lia|].
    by apply slice_to_length.
  - intros x Hx. destruct (search_member _ _ _ _ _ _ _ _ _ _ _ Hs Hx)
      as (rs & _ & Hin).
    apply filter_loop_passes in Hin as [Hin|(_ & _ & Htg & _)];
      [by apply elem_of_nil in Hin|].
    destruct tags_arg as [|t ts]; [done|]. specialize (Htg eq_refl).
    apply existsb_exists in Htg as (tag & Htag & Hstored).
    exists tag. split; [by apply list_elem_of_In|].
    by apply bool_decide_eq_true in Hstored.
Qed.

End search_filters.

Section search_neighbours.
Import EnhancedSearchService.
Variable search_context :
  string → Z → option (list string) → exc (list SearchResult).
Variable fromisoformat : string → exc datetime.
Variable now : datetime.
Variable get_context_by_id : string → exc (option StoredContext).

(** X7. [search_similar] never returns the context it was asked about,
    returns at most [top_k] results when [top_k] is not negative, and
    returns nothing when the context is unknown, cannot be fetched, or has
    neither a summary nor a title. *)
Theorem search_similar_excludes_origin (context_id : string) (top_k : Z) :
  ∃ l, search_similar search_context fromisoformat get_context_by_id
         context_id top_k = Normal l
     ∧ (∀ x, x ∈ l → rid (result x) ≠ context_id)
     ∧ (0 ≤ top_k → Z.of_nat (length l) ≤ top_k)
     ∧ ((∀ c, get_context_by_id context_id = Normal (Some c) →
              similarity_query c = "") → l = []).
Proof.
  unfold search_similar.
  destruct (get_context_by_id context_id) as [[c|]|e]; simpl;
    try (exists []; repeat split; [by intros ? ?%elem_of_nil | simpl; lia]).
  destruct (String.eqb (similarity_query c) "") eqn:Hq; simpl;
    [exists []; repeat split; [by intros ? ?%elem_of_nil | simpl; lia]|].
  destruct (search_returns search_context fromisoformat (similarity_query c)
              (top_k + 1) None None None None None 0%Q "relevance")
    as [results ->].
  simpl. eexists. split; [reflexivity|]. repeat split.
  - intros x Hx%slice_to_subseteq.
    apply list_elem_of_In, filter_In in Hx as [_ Hne].
    apply negb_true_iff, String.eqb_neq in Hne. done.
  - apply slice_to_length.
  - intros Hnone. apply String.eqb_neq in Hq. destruct Hq. by apply Hnone.
Qed.

(** X8. [search_recent] returns, newest creation-time string first, at
    most [top_k] results; a result whose creation time parses as a naive
    datetime is not older than [days] days. *)
Theorem search_recent_window days top_k cts l :
  aware now = false →
  search_recent search_context fromisoformat now days top_k cts = Normal l →
  Sorted (fun a b => String.leb (created_key b) (created_key a) = true) l
  ∧ (0 ≤ top_k → Z.of_nat (length l) ≤ top_k)
  ∧ ∀ x created dt,
      x ∈ l →
      created_time (get (metadata (result x)) no_metadata) = Some created →
      created ≠ "" →
      fromisoformat created = Normal dt →
      aware dt = false →
      instant now - days * 86400000000 ≤ instant dt.
Proof.
  intros Hnaive. unfold search_recent, days_before.
  destruct (Z.abs days <=? 999999999);
    [|intros [= <-]; repeat split;
      [constructor | simpl; lia | by intros ? ? ? ?%elem_of_nil]].
  destruct ((0 <=? instant now - days * 86400000000)
            && (instant now - days * 86400000000 <? 3652059 * 86400000000));
    [|intros [= <-]; repeat split;
      [constructor | simpl; lia | by intros ? ? ? ?%elem_of_nil]].
  match goal with
  | |- context [search _ _ _ _ _ _ _ (Some ?d) _ _ _] => set (date_from := d)
  end.
  destruct (search search_context fromisoformat "" top_k cts None None
              (Some date_from) None 0%Q "date") as [results|e] eqn:Hs;
    simpl; [|by destruct (search_returns search_context fromisoformat ""
      top_k cts None None (Some date_from) None 0%Q "date") as [? ?];
      congruence].
  intros [= <-]. repeat split.
  - by apply (search_order _ _ _ _ _ _ _ _ _ _ _ _ Hs).
  - by apply (search_length _ _ _ _ _ _ _ _ _ _ _ _ Hs).
  - intros x created dt Hx Hc Hne Hparse Hdt.
    destruct (search_date_bounds _ _ _ _ _ _ _ _ _ _ _ _ _ _ _
                Hs Hx Hc Hne Hparse) as [Hlow _].
    + intros d [= <-]. simpl. congruence.
    + intros d [=].
    + apply (Hlow date_from eq_refl).
Qed.

End search_neighbours.

(** ** Facets *)

Section facet_facts.
Import EnhancedSearchService Vocabulary.
Variable search_context :
  string → Z → option (list string) → exc (list SearchResult).
Variable fromisoformat : string → exc datetime.
Variable now : datetime.

Lemma dict_set_total k v d :
  (dict_total (dict_set k v d) + get (dict_get k d) 0 = dict_total d + v)%nat.
Proof.
  induction d as [|[k' v'] d IH]; simpl; [lia|].
  case_bool_decide; simpl; lia.
Qed.

(** Counting a key once more adds one to the total. *)
Lemma dict_incr_total k d : dict_total (dict_incr k d) = S (dict_total d).
Proof.
  unfold dict_incr.
  pose proof (dict_set_total k (get (dict_get k d) 0 + 1)%nat d). lia.
Qed.

(** Counting a key that is present leaves the keys as they are. *)
Lemma dict_incr_keys k d : k ∈ d.*1 → (dict_incr k d).*1 = d.*1.
Proof.
  unfold dict_incr. generalize (get (dict_get k d) 0 + 1)%nat as v.
  induction d as [|[k' v'] d IH]; intros v Hin; simpl.
  - by apply elem_of_nil in Hin.
  - case_bool_decide as Hk; simpl; [by subst|].
    f_equal. apply IH. apply elem_of_cons in Hin as [?|?]; [done|done].
Qed.

Lemma dict_total_app d1 d2 :
  dict_total (d1 ++ d2) = (dict_total d1 + dict_total d2)%nat.
Proof. induction d1 as [|kv d1 IH]; simpl; lia. Qed.

Lemma dict_total_perm d1 d2 : d1 ≡ₚ d2 → dict_total d1 = dict_total d2.
Proof. induction 1; simpl; lia. Qed.

Lemma dict_total_take n d : (dict_total (take n d) ≤ dict_total d)%nat.
Proof.
  rewrite <- (take_drop n d) at 2. rewrite dict_total_app. lia.
Qed.

Lemma tags_loop_total tag_list d :
  dict_total (fold_left (fun d tag => dict_incr tag d) tag_list d)
  = (dict_total d + length tag_list)%nat.
Proof.
  revert d. induction tag_list as [|t ts IH]; intros d; simpl; [lia|].
  rewrite IH, dict_incr_total. lia.
Qed.

Lemma date_bucket_key days_ago :
  date_bucket days_ago ∈ ["last_day"; "last_week"; "last_month"; "older"].
Proof.
  unfold date_bucket.
  destruct (days_ago <? 1); [set_solver|].
  destruct (days_ago <? 7); [set_solver|].
  destruct (days_ago <? 30); set_solver.
Qed.

(** What the accumulation loop has counted after a list of records. *)
Lemma facet_loop_totals rs f :
  let f' := fold_left (facet_step fromisoformat now) rs f in
  (f_date_ranges f).*1 = ["last_day"; "last_week"; "last_month"; "older"] →
  dict_total (f_file_types f')
  = (dict_total (f_file_types f) + length rs)%nat
  ∧ dict_total (f_context_types f')
    = (dict_total (f_context_types f) + length rs)%nat
  ∧ (dict_total (f_tags f') ≤ dict_total (f_tags f) + 5 * length rs)%nat
  ∧ dict_total (f_date_ranges f')
    = (dict_total (f_date_ranges f)
       + length (List.filter (datable fromisoformat now) rs))%nat
  ∧ (f_date_ranges f').*1
    = ["last_day"; "last_week"; "last_month"; "older"].
Proof.
  revert f. induction rs as [|r rs IH]; intros f; simpl.
  - intros Hkeys. repeat split; try lia. done.
  - intros Hkeys.
    set (g := facet_step fromisoformat now f r).
    assert (Hg_keys : (f_date_ranges g).*1
                      = ["last_day"; "last_week"; "last_month"; "older"]
                      ∧ dict_total (f_date_ranges g)
                        = (dict_total (f_date_ranges f)
                           + (if datable fromisoformat now r then 1 else 0))%nat).
    { unfold g, facet_step, datable. simpl.
      destruct (created_time (get (metadata r) no_metadata))
        as [[|c created]|]; simpl; try (split; [done|lia]).
      destruct (fromisoformat (String c created)) as [dt|e]; simpl;
        try (split; [done|lia]).
      unfold dt_days_between.
      destruct (Bool.eqb (aware now) (aware dt)); simpl;
        try (split; [done|lia]).
      split.
      - rewrite dict_incr_keys; [done|]. rewrite Hkeys.
        apply date_bucket_key.
      - rewrite dict_incr_total. lia. }
    destruct Hg_keys as [Hgk Hgt].
    destruct (IH g Hgk) as (H1 & H2 & H3 & H4 & H5).
    repeat split.
    + rewrite H1. unfold g, facet_step. simpl. rewrite dict_incr_total. lia.
    + rewrite H2. unfold g, facet_step. simpl. rewrite dict_incr_total. lia.
    + etrans; [exact H3|]. unfold g, facet_step. simpl.
      rewrite tags_loop_total, length_take. lia.
    + rewrite H4, Hgt.
      destruct (datable fromisoformat now r); simpl; lia.
    + exact H5.
Qed.

(** When the candidates can be fetched, [get_facets] answers with the
    four facet dictionaries accumulated over them. *)
Lemma get_facets_of_candidates query cts rs :
  facet_candidates search_context fromisoformat query cts = Normal rs →
  let f := fold_left (facet_step fromisoformat now) rs initial_facets in
  get_facets search_context fromisoformat now query cts
  = Normal
      (facets_dict
         {| f_file_types := f_file_types f;
            f_context_types := f_context_types f;
            f_tags := take 20 (sort_desc snd Nat.ltb (f_tags f));
            f_date_ranges := f_date_ranges f |}).
Proof.
  intros Hc. unfold get_facets, get_facets_body. rewrite Hc. done.
Qed.



(** X11. The tag facet has at most 20 entries, in descending order of
    count, and its counts add up to at most five per candidate. *)
Theorem facets_tags_capped_and_sorted query cts rs :
  facet_candidates search_context fromisoformat query cts = Normal rs →
  ∃ d tag_counts,
    get_facets search_context fromisoformat now query cts = Normal d
    ∧ d !! "tags" = Some tag_counts
    ∧ (length tag_counts ≤ 20)%nat
    ∧ Sorted (fun a b => (b.2 ≤ a.2)%nat) tag_counts
    ∧ (dict_total tag_counts ≤ 5 * length rs)%nat.
Proof.
  intros Hc. rewrite (get_facets_of_candidates _ _ _ Hc).
  destruct (facet_loop_totals rs initial_facets eq_refl)
    as (_ & _ & H3 & _).
  do 2 eexists. split; [reflexivity|]. unfold facets_dict.
  split; [by simplify_map_eq|]. simpl in *.
  split; [rewrite length_take; lia|]. split.
  - apply Sorted_take.
    eapply Sorted_weaken; [|apply sort_desc_Sorted].
    + intros a b Hab. by apply Nat.ltb_ge in Hab.
    + intros a b Hab. apply Nat.ltb_lt in Hab. apply Nat.ltb_ge. lia.
  - etrans; [apply dict_total_take|].
    rewrite (dict_total_perm _ _ (sort_desc_perm snd Nat.ltb _)). lia.
Qed.

End facet_facts.

(** ** Chunk lists of the processors *)

Section chunk_loops.
Import Models.

(** The raising variant of the append-and-number loop: when it does not
    raise, the chunks it adds are numbered consecutively from [base] plus
    the number of chunks already there. *)
Lemma for_each_chunk_indices {X} (step : list Chunk → X → exc (list Chunk))
    (base : nat) :
  (∀ acc x acc', step acc x = Normal acc' →
     ∃ c, acc' = acc ++ [c] ∧ chunk_index c = (base + length acc)%nat) →
  ∀ xs acc r, for_each step xs acc = Normal r →
    chunk_index <$> r
    = (chunk_index <$> acc) ++ seq (base + length acc) (length xs)
    ∧ length r = (length acc + length xs)%nat.
Proof.
  intros Hstep. induction xs as [|x xs IH]; intros acc r; simpl.
  - intros [= <-]. rewrite app_nil_r. split; [done|lia].
  - destruct (step acc x) as [acc'|e] eqn:E; simpl; [|discriminate].
    intros Hr. destruct (Hstep _ _ _ E) as (c & -> & Hc).
    apply IH in Hr as [-> ->]. rewrite fmap_app, length_app. simpl.
    rewrite Hc, <- app_assoc. simpl. split; [|lia].
    do 3 f_equal. lia.
Qed.

(** The number of windows of [step] items over [n] items. *)
Lemma range_up_length (step : nat) :
  (0 < step)%nat →
  ∀ fuel i stop, (stop - i ≤ fuel)%nat →
    length (range_up fuel i stop step) = ((stop - i + step - 1) / step)%nat.
Proof.
  intros Hstep. induction fuel as [|fuel IH]; intros i stop Hfuel; simpl.
  - replace (stop - i + step - 1)%nat with (step - 1)%nat by lia.
    symmetry. apply Nat.div_small. lia.
  - destruct (i <? stop)%nat eqn:E.
    + apply Nat.ltb_lt in E. simpl. rewrite IH by lia.
      destruct (decide (step ≤ stop - i)%nat) as [Hge|Hlt].
      * replace (stop - i + step - 1)%nat
          with (1 * step + (stop - (i + step) + step - 1))%nat by lia.
        rewrite Nat.div_add_l by lia. lia.
      * replace (stop - (i + step) + step - 1)%nat with (step - 1)%nat by lia.
        rewrite (Nat.div_small (step - 1)) by lia.
        replace (stop - i + step - 1)%nat
          with (1 * step + (stop - i - 1))%nat by lia.
        rewrite Nat.div_add_l by lia.
        rewrite (Nat.div_small (stop - i - 1)) by lia. lia.
    + apply Nat.ltb_ge in E.
      replace (stop - i + step - 1)%nat with (step - 1)%nat by lia.
      symmetry. apply Nat.div_small. lia.
Qed.

Lemma range0_length n step starts :
  range0 n step = Normal starts →
  length starts
  = if 0 <? step
    then ((n + Z.to_nat step - 1) / Z.to_nat step)%nat
    else 0%nat.
Proof.
  unfold range0. destruct (step =? 0) eqn:E0; [discriminate|].
  destruct (step <? 0) eqn:E1; intros [= <-].
  - replace (0 <? step) with false by (symmetry; apply Z.ltb_ge; lia). done.
  - replace (0 <? step) with true by (symmetry; apply Z.ltb_lt; lia).
    rewrite range_up_length by lia. f_equal. lia.
Qed.

End chunk_loops.

(** ** Code processor: what a file gives *)

Section code_processor_more.
Import Models CodeProcessor.
Variable config : Config.
Variable re_match : string → string → option Match.
Variable re_findall : string → string → list found.
Variable read_text : string → exc string.
Variable now : Z.

Lemma split_on_length sep s : (1 ≤ length (split_on sep s))%nat.
Proof.
  induction s as [|c r IH]; simpl; [lia|].
  destruct (Ascii.eqb c sep); simpl; [lia|].
  destruct (split_on sep r); simpl in *; lia.
Qed.

(** The two entries of the metadata dictionary that
    [_create_processed_context] reads are always there. *)
Lemma code_metadata_entries code language file_path :
  let md := md_dict (_extract_code_metadata config re_findall code language
                       file_path) in
  md !! "file_name" = Some (str_value (path_name file_path))
  ∧ md !! "total_lines"
    = Some (int_value (length (split_on newline code))).
Proof.
  unfold _extract_code_metadata.
  destruct (lookup_str language LANGUAGE_PATTERNS) as [patterns|]; simpl;
    [|split; by simplify_map_eq].
  destruct (lookup_str "function" patterns) as [pf|];
    destruct (lookup_str "class" patterns) as [pc|];
    destruct (lookup_str "import" patterns) as [pi|];
    destruct (extract_functions config), (extract_classes config),
      (extract_imports config); simpl; split; by simplify_map_eq.
Qed.

(** A non-empty chunk list always becomes a context carrying it. *)
Lemma code_context_of_chunks raw code language file_path c cs :
  ∃ pc,
    _create_processed_context now raw (c :: cs)
      (_extract_code_metadata config re_findall code language file_path)
      language = Normal (Some pc)
    ∧ id pc = object_id raw
    ∧ chunks pc = c :: cs
    ∧ cp_title (properties pc) = path_name file_path
    ∧ cp_tags (properties pc) = ed_keywords (extracted_data pc)
    ∧ (length (ed_entities (extracted_data pc)) ≤ 20)%nat
    ∧ (length (ed_keywords (extracted_data pc)) ≤ 23)%nat.
Proof.
  unfold _create_processed_context.
  destruct (code_metadata_entries code language file_path) as [-> ->].
  simpl. eexists. split; [reflexivity|]. simpl.
  repeat split.
  - rewrite length_take. lia.
  - rewrite !length_app.
    destruct (md_functions _), (md_classes _); simpl;
      rewrite ?length_fmap; unfold strs; rewrite ?length_fmap, ?length_take;
      lia.
Qed.

(** The chunk list of a file starts with the overview chunk. *)
Lemma create_chunks_from_code_cons code language file_name chunks :
  _create_chunks_from_code config re_match code language file_name
  = Normal chunks →
  ∃ c cs, chunks = c :: cs ∧ chunk_index c = 0%nat.
Proof.
  unfold _create_chunks_from_code.
  destruct (match lookup_str language LANGUAGE_PATTERNS with
            | Some _ => _chunk_by_syntax config re_match code language
                          file_name
            | None => _chunk_by_lines config (split_on newline code)
                        file_name _
            end) as [more|e]; simpl; [|discriminate].
  intros [= <-]. eauto.
Qed.

(** X12. [process] returns at most one context for a code file.  The
    context has the identifier of the raw object, the file name as title,
    at least one chunk, the first with index 0, its tags equal to its
    keywords, at most 23 keywords and at most 20 entities. *)
Theorem code_process_shape context l :
  process config re_match re_findall read_text now context = Normal l →
  l = []
  ∨ ∃ pc file_path,
      l = [pc]
      ∧ content_path context = Some file_path
      ∧ id pc = object_id context
      ∧ cp_title (properties pc) = path_name file_path
      ∧ (∃ c cs, chunks pc = c :: cs ∧ chunk_index c = 0%nat)
      ∧ cp_tags (properties pc) = ed_keywords (extracted_data pc)
      ∧ (length (ed_keywords (extracted_data pc)) ≤ 23)%nat
      ∧ (length (ed_entities (extracted_data pc)) ≤ 20)%nat.
Proof.
  unfold process, process_body.
  destruct (content_path context) as [file_path|] eqn:Hpath; simpl;
    [|intros [= <-]; by left].
  destruct (read_text file_path) as [code|e]; simpl;
    [|intros [= <-]; by left].
  destruct (_create_chunks_from_code config re_match code
              (_detect_language file_path) (path_name file_path))
    as [cs|e] eqn:Hcs; simpl; [|intros [= <-]; by left].
  destruct (create_chunks_from_code_cons _ _ _ _ Hcs) as (c & cs' & -> & Hc).
  destruct (code_context_of_chunks context code (_detect_language file_path)
              file_path c cs') as (pc & -> & Hid & Hch & Ht & Htags & He & Hk).
  simpl. intros [= <-]. right. exists pc, file_path.
  repeat split; try done. rewrite Hch. eauto.
Qed.

(** X13. A readable code file with a non-zero window size always gives
    exactly one context. *)
Theorem code_process_readable_file context file_path code :
  content_path context = Some file_path →
  read_text file_path = Normal code →
  max_lines_per_chunk config ≠ 0 →
  ∃ pc, process config re_match re_findall read_text now context
        = Normal [pc]
      ∧ id pc = object_id context.
Proof.
  intros Hpath Hread Hmax. unfold process, process_body.
  rewrite Hpath. simpl. rewrite Hread. simpl.
  assert (Hlines : ∀ lines file_name start_idx,
            ∃ cs, _chunk_by_lines config lines file_name start_idx
                  = Normal cs).
  { intros. unfold _chunk_by_lines, range0.
    destruct (max_lines_per_chunk config =? 0) eqn:E;
      [apply Z.eqb_eq in E; done|].
    destruct (max_lines_per_chunk config <? 0); simpl; eauto. }
  assert (Hsyntax : ∀ code language file_name,
            ∃ cs, _chunk_by_syntax config re_match code language file_name
                  = Normal cs).
  { intros. unfold _chunk_by_syntax. cbv zeta.
    match goal with
    | |- context [fold_left ?f ?xs []] => destruct (fold_left f xs [])
    end; [apply Hlines | eauto]. }
  assert (Hchunks : ∃ c cs,
            _create_chunks_from_code config re_match code
              (_detect_language file_path) (path_name file_path)
            = Normal (c :: cs)).
  { unfold _create_chunks_from_code.
    destruct (lookup_str (_detect_language file_path) LANGUAGE_PATTERNS).
    - destruct (Hsyntax code (_detect_language file_path)
                  (path_name file_path)) as [cs ->]. simpl. eauto.
    - destruct (Hlines (split_on newline code) (path_name file_path) 1%nat)
        as [cs Hcs].
      cbn [length]. rewrite Hcs. simpl. eauto. }
  destruct Hchunks as (c & cs & ->).
  destruct (code_context_of_chunks context code (_detect_language file_path)
              file_path c cs) as (pc & Hpc & Hid & _).
  cbn -[_create_processed_context _extract_code_metadata].
  rewrite Hpc. simpl. eauto.
Qed.

(** The number of line windows. *)
Lemma chunk_by_lines_count lines file_name start_idx chunks :
  _chunk_by_lines config lines file_name start_idx = Normal chunks →
  length chunks
  = if 0 <? max_lines_per_chunk config
    then ((length lines + Z.to_nat (max_lines_per_chunk config) - 1)
          / Z.to_nat (max_lines_per_chunk config))%nat
    else 0%nat.
Proof.
  unfold _chunk_by_lines.
  destruct (range0 (length lines) (max_lines_per_chunk config))
    as [starts|e] eqn:Hr; simpl; [|discriminate].
  intros [= <-].
  rewrite fold_left_chunk_length by (intros; eexists; reflexivity).
  simpl. by apply range0_length.
Qed.

Local Ltac solve_known := first [done | repeat constructor].

(** No element is found when no line matches an element pattern. *)
Lemma no_match_no_element patterns (lines : list (nat * string)) :
  (∀ element_type p i line,
     element_type ∈ ["function"; "class"; "struct"] →
     lookup_str element_type patterns = Some p →
     (i, line) ∈ lines →
     re_match p line = None) →
  flat_map (fun '(i, line) => line_elements re_match patterns i line) lines
  = [].
Proof.
  intros Hno. induction lines as [|[i line] lines IH]; simpl; [done|].
  rewrite IH
    by (intros et p j l ? ? ?; apply (Hno et p j l); [done|done|by right]).
  rewrite app_nil_r. unfold line_elements. simpl.
  assert (Hline : ∀ et p, et ∈ ["function"; "class"; "struct"] →
                          lookup_str et patterns = Some p →
                          re_match p line = None).
  { intros et p ? ?. apply (Hno et p i line); [done|done|left]. }
  destruct (lookup_str "function" patterns) as [p1|] eqn:H1;
    [rewrite (Hline "function" p1) by solve_known|];
    (destruct (lookup_str "class" patterns) as [p2|] eqn:H2;
       [rewrite (Hline "class" p2) by solve_known|]);
    (destruct (lookup_str "struct" patterns) as [p3|] eqn:H3;
       [rewrite (Hline "struct" p3) by solve_known|]);
    done.
Qed.

Lemma enumerate_elem_of {A} (l : list A) i x :
  (i, x) ∈ enumerate l → x ∈ l.
Proof.
  unfold enumerate. intros Hin.
  apply elem_of_lookup_imap in Hin as (j & y & [= -> ->] & Hy).
  by eapply list_elem_of_lookup_2.
Qed.

(** A file without a syntax element has no element chunk: the syntax
    chunker hands it to the line chunker. *)
Lemma chunk_by_syntax_falls_back code language file_name patterns :
  lookup_str language LANGUAGE_PATTERNS = Some patterns →
  Vocabulary.no_syntax_element re_match language code →
  _chunk_by_syntax config re_match code language file_name
  = _chunk_by_lines config (split_on newline code) file_name 1.
Proof.
  intros Hl Hno. unfold _chunk_by_syntax. rewrite Hl.
  rewrite (no_match_no_element patterns); [done|].
  intros et p i line Het Hp Hin.
  apply (Hno patterns et p line); try done. by eapply enumerate_elem_of.
Qed.

(** X14. A file in which no line matches the function, class or struct
    pattern of its language (so every file in a language without a pattern
    set) is cut into line windows: with a positive window size of [m]
    lines a file of [n] lines gives the overview chunk and the [n] over
    [m], rounded up, window chunks. *)
Theorem code_line_window_count code language file_name chunks :
  Vocabulary.no_syntax_element re_match language code →
  0 < max_lines_per_chunk config →
  _create_chunks_from_code config re_match code language file_name
  = Normal chunks →
  length chunks
  = (1 + (length (split_on newline code)
          + Z.to_nat (max_lines_per_chunk config) - 1)
         / Z.to_nat (max_lines_per_chunk config))%nat.
Proof.
  intros Hno Hmax. unfold _create_chunks_from_code.
  assert (Hcount : ∀ start_idx more,
            _chunk_by_lines config (split_on newline code) file_name
              start_idx = Normal more →
            length more
            = ((length (split_on newline code)
                + Z.to_nat (max_lines_per_chunk config) - 1)
               / Z.to_nat (max_lines_per_chunk config))%nat).
  { intros start_idx more Hm. apply chunk_by_lines_count in Hm.
    rewrite Hm. by apply Z.ltb_lt in Hmax as ->. }
  destruct (lookup_str language LANGUAGE_PATTERNS) as [patterns|] eqn:Hl.
  - rewrite (chunk_by_syntax_falls_back _ _ _ patterns Hl Hno).
    destruct (_chunk_by_lines config (split_on newline code) file_name 1)
      as [more|e] eqn:Hm; simpl; [|discriminate].
    intros [= <-]. simpl. f_equal. by eapply Hcount.
  - destruct (_chunk_by_lines config (split_on newline code) file_name _)
      as [more|e] eqn:Hm; simpl; [|discriminate].
    intros [= <-]. simpl. f_equal. by eapply Hcount.
Qed.

(** X15. With a window size of zero a file that has to be cut into line
    windows, because none of its lines matches the function, class or
    struct pattern of its language, gives nothing: [range] refuses the
    zero step and [process] returns the empty list. *)
Theorem code_zero_window_yields_nothing context file_path :
  content_path context = Some file_path →
  max_lines_per_chunk config = 0 →
  (∀ code, read_text file_path = Normal code →
           Vocabulary.no_syntax_element re_match
             (_detect_language file_path) code) →
  process config re_match re_findall read_text now context = Normal [].
Proof.
  intros Hpath Hzero Hlines. unfold process, process_body.
  rewrite Hpath. simpl.
  destruct (read_text file_path) as [code|e] eqn:Hread; simpl; [|done].
  specialize (Hlines code eq_refl).
  assert (Hraise : ∀ lines file_name start_idx,
            _chunk_by_lines config lines file_name start_idx
            = Raise ValueError).
  { intros. unfold _chunk_by_lines, range0. by rewrite Hzero. }
  unfold _create_chunks_from_code.
  destruct (lookup_str (_detect_language file_path) LANGUAGE_PATTERNS)
    as [patterns|] eqn:Hl.
  - rewrite (chunk_by_syntax_falls_back _ _ _ patterns Hl Hlines).
    by rewrite Hraise.
  - by rewrite Hraise.
Qed.

End code_processor_more.

(** ** Excel processor: the chunks of a sheet *)

Section excel_processor_more.
Import Models ExcelProcessor Vocabulary.
Variable config : Config.
Variable load_workbook : string → exc (list (string * Sheet)).
Variable read_excel : string → string → exc DataFrame.
Variable now : Z.

(** The chunks of a sheet are numbered from 0, and there is one for the
    header of a non-empty DataFrame and one per batch of rows. *)
Lemma create_chunks_from_sheet_shape sheet df sheet_name chunks :
  _create_chunks_from_sheet config sheet df sheet_name = Normal chunks →
  chunk_index <$> chunks = seq 0 (length chunks)
  ∧ length chunks
    = ((if df_empty df then 0 else 1)
       + (if (0 <? max_rows_per_chunk config)%Z
          then (n_rows df + Z.to_nat (max_rows_per_chunk config) - 1)
               / Z.to_nat (max_rows_per_chunk config)
          else 0))%nat.
Proof.
  unfold _create_chunks_from_sheet.
  destruct (range0 (n_rows df) (max_rows_per_chunk config))
    as [starts|e] eqn:Hr; simpl; [|discriminate].
  intros Hloop. apply range0_length in Hr.
  apply (for_each_chunk_indices _ 0) in Hloop as [Hidx Hlen].
  2:{ intros acc i acc'.
      destruct (extract_formulas config); simpl.
      - destruct (_extract_formulas_from_range _ _ _) as [[|f fs]|e]; simpl;
          try discriminate; intros [= <-]; eauto.
      - intros [= <-]; eauto. }
  rewrite Hlen, Hidx, Hr.
  destruct (df_empty df); simpl; split; done.
Qed.

(** Where a context returned for a workbook comes from. *)
Lemma process_sheets_member context file_path workbook acc l pc :
  for_each (process_sheet config read_excel now context file_path)
    workbook acc = Normal l →
  pc ∈ l →
  pc ∈ acc
  ∨ ∃ sheet_name sheet df chunks,
      (sheet_name, sheet) ∈ workbook
      ∧ read_excel file_path sheet_name = Normal df
      ∧ _create_chunks_from_sheet config sheet df sheet_name = Normal chunks
      ∧ chunks ≠ []
      ∧ Models.chunks pc = chunks
      ∧ id pc = object_id context +:+ "_" +:+ sheet_name
      ∧ cp_title (properties pc)
        = path_name file_path +:+ " - " +:+ sheet_name.
Proof.
  revert acc. induction workbook as [|[sheet_name sheet] rest IH];
    intros acc; cbn [for_each].
  - intros [= <-] Hin. by left.
  - destruct (process_sheet config read_excel now context file_path acc
                (sheet_name, sheet)) as [acc'|e] eqn:Hstep;
      cbn [mbind exc_bind]; [|discriminate].
    intros Hrest Hin.
    destruct (IH _ Hrest Hin) as [Hacc | (n & sh & df & cs & Hmem & Hrest')].
    2:{ right. exists n, sh, df, cs. split; [by right|done]. }
    unfold process_sheet in Hstep.
    destruct (_extract_sheet_metadata config sheet file_path sheet_name)
      as [md|e] eqn:Hmd; simpl in Hstep; [|discriminate].
    destruct (read_excel file_path sheet_name) as [df|e] eqn:Hdf;
      simpl in Hstep; [|discriminate].
    destruct (_create_chunks_from_sheet config sheet df sheet_name)
      as [cs|e] eqn:Hcs; simpl in Hstep; [|discriminate].
    unfold _create_processed_context in Hstep.
    destruct cs as [|c cs]; simpl in Hstep.
    { injection Hstep as <-. by left. }
    assert (Hname : metadata_str md "file_name"
                    = Normal (path_name file_path)).
    { unfold _extract_sheet_metadata in Hmd. unfold metadata_str.
      destruct (detect_tables config), (extract_comments config);
        simpl in Hmd;
        try (destruct (sheet_comments sheet) as [[|cm cms]|e'];
             simpl in Hmd; try discriminate);
        injection Hmd as <-; by simplify_map_eq. }
    rewrite Hname in Hstep. simpl in Hstep.
    destruct (metadata_str md "max_row"); simpl in Hstep; [|discriminate].
    destruct (metadata_str md "max_column"); simpl in Hstep; [|discriminate].
    injection Hstep as <-.
    apply elem_of_app in Hacc as [?|Hpc]; [by left|].
    apply list_elem_of_singleton in Hpc as ->.
    right. exists sheet_name, sheet, df, (c :: cs).
    split; [left|]. done.
Qed.

Lemma process_member context l pc :
  process config load_workbook read_excel now context = Normal l →
  pc ∈ l →
  ∃ file_path workbook sheet_name sheet df chunks,
    content_path context = Some file_path
    ∧ load_workbook file_path = Normal workbook
    ∧ (sheet_name, sheet) ∈ workbook
    ∧ read_excel file_path sheet_name = Normal df
    ∧ _create_chunks_from_sheet config sheet df sheet_name = Normal chunks
    ∧ chunks ≠ []
    ∧ Models.chunks pc = chunks
    ∧ id pc = object_id context +:+ "_" +:+ sheet_name
    ∧ cp_title (properties pc)
      = path_name file_path +:+ " - " +:+ sheet_name.
Proof.
  unfold process, process_body.
  destruct (content_path context) as [file_path|] eqn:Hpath; simpl;
    [|intros [= <-] Hin; by apply elem_of_nil in Hin].
  destruct (load_workbook file_path) as [workbook|e] eqn:Hwb; simpl;
    [|intros [= <-] Hin; by apply elem_of_nil in Hin].
  destruct (for_each _ workbook []) as [l'|e] eqn:Hloop; simpl;
    intros [= <-] Hin; [|by apply elem_of_nil in Hin].
  destruct (process_sheets_member _ _ _ _ _ _ Hloop Hin)
    as [Hnil | (n & sh & df & cs & Hrest)];
    [by apply elem_of_nil in Hnil|].
  exists file_path, workbook, n, sh, df, cs. done.
Qed.

(** X16. Every context [process] returns for a workbook belongs to one of
    its sheets, is titled with the file and sheet name, and has at least one
    chunk; its chunks are numbered 0, 1, ..., N-1 in list order. *)
Theorem excel_chunk_indices_contiguous context l pc :
  process config load_workbook read_excel now context = Normal l →
  pc ∈ l →
  Models.chunks pc ≠ []
  ∧ chunk_index <$> Models.chunks pc = seq 0 (length (Models.chunks pc))
  ∧ ∃ file_path workbook sheet_name sheet,
      content_path context = Some file_path
      ∧ load_workbook file_path = Normal workbook
      ∧ (sheet_name, sheet) ∈ workbook
      ∧ cp_title (properties pc)
        = path_name file_path +:+ " - " +:+ sheet_name.
Proof.
  intros Hp Hin.
  destruct (process_member _ _ _ Hp Hin)
    as (fp & wb & n & sh & df & cs & Hpath & Hwb & Hmem & _ & Hcs & Hne
        & Hch & _ & Ht).
  rewrite Hch. split; [done|]. split.
  - by apply create_chunks_from_sheet_shape in Hcs as [? _].
  - exists fp, wb, n, sh. done.
Qed.

(** X17. The context of a sheet has one header chunk when the DataFrame of
    the sheet is not empty, and one chunk per batch of [max_rows_per_chunk]
    rows: the number of rows over the batch size, rounded up. *)
Theorem excel_chunk_count context l pc :
  process config load_workbook read_excel now context = Normal l →
  pc ∈ l →
  ∃ file_path sheet_name df,
    content_path context = Some file_path
    ∧ read_excel file_path sheet_name = Normal df
    ∧ id pc = object_id context +:+ "_" +:+ sheet_name
    ∧ length (Models.chunks pc)
      = ((if df_empty df then 0 else 1)
         + (if (0 <? max_rows_per_chunk config)%Z
            then (n_rows df + Z.to_nat (max_rows_per_chunk config) - 1)
                 / Z.to_nat (max_rows_per_chunk config)
            else 0))%nat.
Proof.
  intros Hp Hin.
  destruct (process_member _ _ _ Hp Hin)
    as (fp & wb & n & sh & df & cs & Hpath & _ & _ & Hdf & Hcs & _
        & Hch & Hid & _).
  exists fp, n, df. rewrite Hch.
  by apply create_chunks_from_sheet_shape in Hcs as [_ ?].
Qed.

End excel_processor_more.

(** ** JSON text of parsed documents *)

Section json_facts.
Import Vocabulary.

Lemma value_nested_ind (P : value → Prop) :
  (∀ x, P (VScalar x)) →
  (∀ items, Forall P items → P (VList items)) →
  (∀ items, Forall (fun kv => P kv.2) items → P (VDict items)) →
  ∀ v, P v.
Proof.
  intros Hs Hl Hd. fix IH 1. intros [x|items|items].
  - apply Hs.
  - apply Hl. induction items as [|v items IHitems]; constructor;
      [apply IH | apply IHitems].
  - apply Hd. induction items as [|[k v] items IHitems]; constructor;
      [apply IH | apply IHitems].
Qed.

Lemma dumps_at_list level x r :
  dumps_at level (VList (x :: r))
  = (parts ← dumps_items (S level) (x :: r);
     Normal ("[" +:+ newline_indent (S level)
             +:+ join ("," +:+ newline_indent (S level)) parts
             +:+ newline_indent level +:+ "]")).
Proof.
  cbn [dumps_at dumps_items].
  match goal with
  | |- context [?f r] =>
      is_fix f;
      assert (Heach : ∀ l, f l = dumps_items (S level) l)
  end.
  { induction l as [|y l IHl]; [done|]. cbn [dumps_items].
    destruct (dumps_at (S level) y); cbn; [by rewrite IHl | done]. }
  destruct (dumps_at (S level) x); cbn; [by rewrite Heach | done].
Qed.

Lemma dumps_at_dict level kv r :
  dumps_at level (VDict (kv :: r))
  = (parts ← dumps_entries (S level) (kv :: r);
     Normal ("{" +:+ newline_indent (S level)
             +:+ join ("," +:+ newline_indent (S level)) parts
             +:+ newline_indent level +:+ "}")).
Proof.
  destruct kv as [k x]. cbn [dumps_at dumps_entries].
  match goal with
  | |- context [?f r] =>
      is_fix f;
      assert (Heach : ∀ l, f l = dumps_entries (S level) l)
  end.
  { induction l as [|[k' y] l IHl]; [done|]. cbn [dumps_entries].
    destruct (dumps_key k'); cbn; [|done].
    destruct (dumps_at (S level) y); cbn; [by rewrite IHl | done]. }
  destruct (dumps_key k); cbn; [|done].
  destruct (dumps_at (S level) x); cbn; [by rewrite Heach | done].
Qed.

Lemma dumps_scalar_spec x :
  if scalar_serializable x then ∃ s, dumps_scalar x = Normal s
  else dumps_scalar x = Raise TypeError.
Proof. destruct x as [|[]| | | |]; simpl; eauto. Qed.

Lemma dumps_key_spec x :
  if scalar_serializable x then ∃ s, dumps_key x = Normal s
  else dumps_key x = Raise TypeError.
Proof. destruct x as [|[]| | | |]; simpl; eauto. Qed.

(** [json.dumps] writes exactly the serializable values, and raises
    [TypeError] on the others. *)
Lemma dumps_at_spec v :
  ∀ level,
    if serializable v then ∃ s, dumps_at level v = Normal s
    else dumps_at level v = Raise TypeError.
Proof.
  induction v as [x|items IH|items IH] using value_nested_ind; intros level.
  - apply dumps_scalar_spec.
  - destruct items as [|x r]; [simpl; eauto|].
    rewrite dumps_at_list.
    assert (Hitems :
      if forallb serializable (x :: r)
      then ∃ parts, dumps_items (S level) (x :: r) = Normal parts
      else dumps_items (S level) (x :: r) = Raise TypeError).
    { induction IH as [|y l Hy _ IHl]; [simpl; eauto|].
      cbn [forallb dumps_items]. specialize (Hy (S level)).
      destruct (serializable y); cbn.
      - destruct Hy as [sy ->]. cbn.
        destruct (forallb serializable l); [|by rewrite IHl].
        destruct IHl as [parts ->]. cbn. eauto.
      - by rewrite Hy. }
    change (serializable (VList (x :: r)))
      with (forallb serializable (x :: r)).
    destruct (forallb serializable (x :: r)).
    + destruct Hitems as [parts ->]. cbn. eauto.
    + by rewrite Hitems.
  - destruct items as [|kv r]; [simpl; eauto|].
    rewrite dumps_at_dict.
    set (ok := fun '(k, x) => scalar_serializable k && serializable x).
    assert (Hitems :
      if forallb ok (kv :: r)
      then ∃ parts, dumps_entries (S level) (kv :: r) = Normal parts
      else dumps_entries (S level) (kv :: r) = Raise TypeError).
    { induction IH as [|[k y] l Hy _ IHl]; [simpl; eauto|].
      cbn [forallb dumps_entries ok]. specialize (Hy (S level)).
      simpl in Hy. pose proof (dumps_key_spec k) as Hk.
      destruct (scalar_serializable k); cbn.
      - destruct Hk as [sk ->]. cbn.
        destruct (serializable y); cbn.
        + destruct Hy as [sy ->]. cbn.
          destruct (forallb ok l); [|by rewrite IHl].
          destruct IHl as [parts ->]. cbn. eauto.
        + by rewrite Hy.
      - by rewrite Hk. }
    change (serializable (VDict (kv :: r))) with (forallb ok (kv :: r)).
    destruct (forallb ok (kv :: r)).
    + destruct Hitems as [parts ->]. cbn. eauto.
    + by rewrite Hitems.
Qed.

Lemma json_dumps_serializable v :
  serializable v = true → ∃ s, json_dumps v = Normal s.
Proof.
  intros Hv. pose proof (dumps_at_spec v 0%nat) as H. by rewrite Hv in H.
Qed.

Lemma json_dumps_unserializable v :
  serializable v = false → json_dumps v = Raise TypeError.
Proof.
  intros Hv. pose proof (dumps_at_spec v 0%nat) as H. by rewrite Hv in H.
Qed.

End json_facts.

(** ** Structured-data processor: which documents give a context *)

Section structured_more.
Import Models StructuredDataProcessor Vocabulary.
Variable config : Config.
Variable read_text : string → exc string.
Variable json_loads : string → exc value.
Variable yaml_safe_load : string → exc value.
Variable now : Z.

(** A loop whose body never raises on the items it meets returns. *)
Lemma for_each_total {S X} (step : S → X → exc S) (xs : list X) :
  (∀ st x, x ∈ xs → ∃ st', step st x = Normal st') →
  ∀ st, ∃ r, for_each step xs st = Normal r.
Proof.
  induction xs as [|x xs IH]; intros Hstep st; simpl; [eauto|].
  destruct (Hstep st x) as [st' ->]; [left|]. cbn.
  apply IH. intros st'' y Hy. apply Hstep. by right.
Qed.

Lemma join_objects_spec sep xs :
  if forallb is_str xs then ∃ s, join_objects sep xs = Normal s
  else join_objects sep xs = Raise TypeError.
Proof.
  unfold join_objects.
  assert (H : ∀ acc,
            if forallb is_str xs
            then ∃ parts,
                   for_each
                     (fun acc x => match x with
                                   | SStr s => Normal (acc ++ [s])
                                   | _ => Raise TypeError
                                   end) xs acc = Normal parts
            else for_each
                   (fun acc x => match x with
                                 | SStr s => Normal (acc ++ [s])
                                 | _ => Raise TypeError
                                 end) xs acc = Raise TypeError).
  { induction xs as [|x xs IH]; intros acc; simpl; [eauto|].
    destruct x; simpl; try done. apply IH. }
  specialize (H []). destruct (forallb is_str xs).
  - destruct H as [parts ->]. cbn. eauto.
  - by rewrite H.
Qed.

Lemma chunk_dict_shape data path file_name start_idx chunks :
  _chunk_dict data path file_name start_idx = Normal chunks →
  chunk_index <$> chunks = seq start_idx (length chunks)
  ∧ length chunks = length data.
Proof.
  unfold _chunk_dict. intros Hloop.
  apply (for_each_chunk_indices _ start_idx) in Hloop as [Hidx Hlen].
  - simpl in *. rewrite Hidx, Hlen. split; [f_equal; lia | done].
  - intros acc [key v] acc'. destruct v as [x|items|items].
    + intros [= <-]. eauto.
    + destruct (json_dumps (VList items)); simpl; [|discriminate].
      intros [= <-]. eauto.
    + destruct (json_dumps (VDict items)); simpl; [|discriminate].
      intros [= <-]. eauto.
Qed.

Lemma chunk_dict_total data path file_name start_idx :
  forallb (fun '(k, x) => scalar_serializable k && serializable x) data
  = true →
  ∃ chunks, _chunk_dict data path file_name start_idx = Normal chunks.
Proof.
  intros Hdata. unfold _chunk_dict. apply for_each_total.
  intros acc [key v] Hin.
  rewrite forallb_forall in Hdata.
  apply list_elem_of_In, Hdata in Hin. apply andb_true_iff in Hin as [_ Hv].
  destruct v as [x|items|items]; [eauto| |];
    destruct (json_dumps_serializable _ Hv) as [t ->]; cbn; eauto.
Qed.

Lemma forallb_slice {A} (p : A → bool) i j l :
  forallb p l = true → forallb p (slice i j l) = true.
Proof.
  rewrite !forallb_forall. intros Hl x Hx. apply Hl.
  unfold slice in Hx. apply list_elem_of_In in Hx.
  apply list_elem_of_In.
  by apply subseteq_take, subseteq_drop in Hx.
Qed.

Lemma chunk_list_shape data path file_name start_idx chunks :
  _chunk_list config data path file_name start_idx = Normal chunks →
  chunk_index <$> chunks = seq start_idx (length chunks)
  ∧ length chunks
    = if 0 <? max_array_items_per_chunk config
      then ((length data + Z.to_nat (max_array_items_per_chunk config) - 1)
            / Z.to_nat (max_array_items_per_chunk config))%nat
      else 0%nat.
Proof.
  unfold _chunk_list.
  destruct (range0 (length data) (max_array_items_per_chunk config))
    as [starts|e] eqn:Hr; simpl; [|discriminate].
  intros Hloop. apply range0_length in Hr.
  apply (for_each_chunk_indices _ start_idx) in Hloop as [Hidx Hlen].
  - simpl in *. rewrite Hidx, Hlen, Hr. split; [f_equal; lia | done].
  - intros acc i acc'.
    destruct (json_dumps (VList _)); simpl; [|discriminate].
    intros [= <-]. eauto.
Qed.

Lemma chunk_list_total data path file_name start_idx :
  forallb serializable data = true →
  max_array_items_per_chunk config ≠ 0 →
  ∃ chunks, _chunk_list config data path file_name start_idx = Normal chunks.
Proof.
  intros Hdata Hmax. unfold _chunk_list, range0.
  destruct (max_array_items_per_chunk config =? 0) eqn:E;
    [by apply Z.eqb_eq in E|].
  destruct (max_array_items_per_chunk config <? 0); cbn [mbind exc_bind];
    apply for_each_total; intros acc i _;
    (destruct (json_dumps_serializable (VList (slice i
        (i + Z.to_nat (max_array_items_per_chunk config)) data)))
       as [t ->]; [by apply forallb_slice | cbn; eauto]).
Qed.

(** The chunk list of a document, when it can be built, starts with the
    overview chunk, is numbered from 0, and has the expected length. *)
Lemma create_chunks_from_data_shape data file_name chunks :
  _create_chunks_from_data config data file_name "" = Normal chunks →
  chunks ≠ []
  ∧ chunk_index <$> chunks = seq 0 (length chunks)
  ∧ length chunks = structured_chunk_count config data.
Proof.
  unfold _create_chunks_from_data.
  destruct (match data with
            | VScalar _ => _
            | VList items => _
            | VDict items => _
            end) as [overview|e]; cbn; [|discriminate].
  destruct (json_dumps data) as [preview|e]; cbn; [|discriminate].
  destruct data as [x|items|items]; cbn.
  - intros [= <-]. done.
  - destruct (_chunk_list config items "" file_name 1) as [more|e] eqn:Hm;
      cbn; [|discriminate].
    intros [= <-]. apply chunk_list_shape in Hm as [Hidx Hlen].
    cbn. rewrite Hidx, Hlen. split; [done|]. split; [done|].
    by destruct (0 <? max_array_items_per_chunk config).
  - destruct (_chunk_dict items "" file_name 1) as [more|e] eqn:Hm;
      cbn; [|discriminate].
    intros [= <-]. apply chunk_dict_shape in Hm as [Hidx Hlen].
    cbn. rewrite Hidx, Hlen. done.
Qed.

Lemma create_chunks_from_data_spec data file_name :
  data ≠ VScalar SNone →
  if structured_ok config data
  then ∃ chunks,
         _create_chunks_from_data config data file_name "" = Normal chunks
  else ∃ e, _create_chunks_from_data config data file_name "" = Raise e.
Proof.
  intros Hnone. unfold _create_chunks_from_data, structured_ok.
  destruct data as [x|items|items].
  - cbn. destruct x as [|[]| | | |]; try done; cbn; eauto.
  - cbn [mbind exc_bind].
    destruct (serializable (VList items)) eqn:Hs; cbn [andb].
    + destruct (json_dumps_serializable _ Hs) as [t ->].
      cbn [mbind exc_bind length].
      destruct (max_array_items_per_chunk config =? 0) eqn:E; cbn [negb].
      * apply Z.eqb_eq in E. unfold _chunk_list, range0. rewrite E.
        cbn. eauto.
      * destruct (chunk_list_total items "" file_name 1%nat) as [more ->];
          [done | by apply Z.eqb_neq in E | cbn; eauto].
    + rewrite (json_dumps_unserializable _ Hs). cbn. eauto.
  - pose proof (join_objects_spec ", " (take 10 items.*1)) as Hkeys.
    destruct (forallb is_str (take 10 items.*1)).
    + destruct Hkeys as [keys ->]. cbn [mbind exc_bind].
      assert (Hline : ∀ a b : string,
                ∃ t, (if (10 <? length items)%nat
                      then Normal a else Normal b) = Normal t).
      { intros. destruct (10 <? length items)%nat; eauto. }
      match goal with
      | |- context [if (10 <? length items)%nat then Normal ?a
                    else Normal ?b] =>
          destruct (Hline a b) as [t ->]
      end.
      cbn [mbind exc_bind].
      destruct (serializable (VDict items)) eqn:Hs; cbn [andb].
      * destruct (json_dumps_serializable _ Hs) as [p ->].
        cbn [mbind exc_bind length].
        destruct (chunk_dict_total items "" file_name 1%nat) as [more ->];
          [done | cbn; eauto].
      * rewrite (json_dumps_unserializable _ Hs). cbn. eauto.
    + rewrite Hkeys. rewrite andb_false_r. cbn. eauto.
Qed.

(** The entries of the metadata dictionary that
    [_create_processed_context] reads are always there. *)
Lemma metadata_entries data file_path :
  let md := _extract_metadata config data file_path in
  metadata_str md "file_name" = Normal (path_name file_path)
  ∧ metadata_str md "data_type" = Normal (type_name_of data)
  ∧ metadata_str md "file_type" = Normal (str_lower (path_suffix file_path)).
Proof.
  unfold _extract_metadata, metadata_str.
  destruct data as [x|[|[] ?]|items]; repeat split; by simplify_map_eq.
Qed.

Lemma context_of_chunks raw data file_path c cs :
  ∃ pc,
    _create_processed_context now raw (c :: cs)
      (_extract_metadata config data file_path) = Normal (Some pc)
    ∧ id pc = object_id raw
    ∧ chunks pc = c :: cs
    ∧ cp_title (properties pc) = path_name file_path.
Proof.
  unfold _create_processed_context.
  destruct (metadata_entries data file_path) as (-> & -> & ->).
  cbn. eexists. split; [reflexivity|]. done.
Qed.

(** X18. A document that loads, is not [None], holds only values
    [json.dumps] can write, and has strings as its first ten top-level keys
    (for a mapping) or a non-zero batch size (for an array) gives exactly
    one context, with the identifier of the raw object, the file name as
    title and chunks numbered 0, 1, ..., N-1: the overview, then one chunk
    per top-level key, or one per batch of array items. *)
Theorem structured_document_accepted context file_path :
  content_path context = Some file_path →
  let data := _load_file read_text json_loads yaml_safe_load file_path in
  structured_ok config data = true →
  ∃ pc,
    process config read_text json_loads yaml_safe_load now context
    = Normal [pc]
    ∧ id pc = object_id context
    ∧ cp_title (properties pc) = path_name file_path
    ∧ length (chunks pc) = structured_chunk_count config data
    ∧ chunk_index <$> chunks pc = seq 0 (length (chunks pc)).
Proof.
  intros Hpath data Hok. unfold process, process_body. rewrite Hpath.
  cbn [Path mbind exc_bind]. fold data.
  assert (Hnone : data ≠ VScalar SNone) by (intros E; by rewrite E in Hok).
  pose proof (create_chunks_from_data_spec data (path_name file_path) Hnone)
    as Hchunks.
  rewrite Hok in Hchunks. destruct Hchunks as [chunks Hchunks].
  destruct (create_chunks_from_data_shape _ _ _ Hchunks)
    as (Hne & Hidx & Hlen).
  destruct chunks as [|c cs]; [done|].
  destruct (context_of_chunks context data file_path c cs)
    as (pc & Hpc & Hid & Hch & Ht).
  exists pc.
  assert (Hrun : process_body config read_text json_loads yaml_safe_load now
                   context = Normal [pc]).
  { unfold process_body. rewrite Hpath. cbn [Path mbind exc_bind].
    fold data. destruct data as [[]| |]; try done;
      rewrite Hchunks; cbn [mbind exc_bind]; rewrite Hpc; done. }
  unfold process_body in Hrun. rewrite Hpath in Hrun.
  cbn [Path mbind exc_bind] in Hrun. fold data in Hrun.
  rewrite Hrun. cbn. rewrite Hch. done.
Qed.

(** X19. Every other document gives no context: a document that is
    [None], one holding an object [json.dumps] cannot write (a YAML date,
    say), a mapping with a key that is not a string among its first ten,
    and an array when the batch size is zero all make [process] return
    the empty list. *)
Theorem structured_document_rejected context file_path :
  content_path context = Some file_path →
  structured_ok config
    (_load_file read_text json_loads yaml_safe_load file_path) = false →
  process config read_text json_loads yaml_safe_load now context = Normal [].
Proof.
  intros Hpath Hbad. unfold process, process_body. rewrite Hpath.
  cbn [Path mbind exc_bind].
  generalize dependent (_load_file read_text json_loads yaml_safe_load
                          file_path).
  intros data Hbad.
  assert (Hcases : data = VScalar SNone ∨ data ≠ VScalar SNone)
    by (destruct data as [[]| |]; (by left) || (by right)).
  destruct Hcases as [->|Hnone]; [done|].
  pose proof (create_chunks_from_data_spec data (path_name file_path) Hnone)
    as Hchunks.
  rewrite Hbad in Hchunks. destruct Hchunks as [e Hchunks].
  destruct data as [[]| |]; try done; rewrite Hchunks; done.
Qed.

End structured_more.

(** ** Structured-data processor: the inferred schema *)

Section schema_facts.
Import Models StructuredDataProcessor Vocabulary.
Variable config : Config.

(** The schema is built one level at a time up to [max_depth], where the
    sentinel takes over: its nesting is bounded whatever the document. *)
Lemma extract_schema_height data :
  ∀ depth,
    (value_height (_extract_schema config data depth)
     ≤ 1 + 2 * Z.to_nat (max_depth config + 1 - depth))%nat.
Proof.
  induction data as [x|items IH|items IH] using value_nested_ind;
    intros depth.
  - cbn. destruct (max_depth config <? depth); cbn; lia.
  - cbn [_extract_schema].
    destruct (max_depth config <? depth) eqn:E; [cbn; lia|].
    apply Z.ltb_ge in E. destruct items as [|first rest]; [cbn; lia|].
    apply Forall_cons in IH as [Hfirst _]. specialize (Hfirst (depth + 1)).
    cbn [value_height foldr str_value int_value].
    replace (Z.to_nat (max_depth config + 1 - depth))
      with (S (Z.to_nat (max_depth config + 1 - (depth + 1)))) by lia.
    lia.
  - cbn [_extract_schema].
    destruct (max_depth config <? depth) eqn:E; [cbn; lia|].
    apply Z.ltb_ge in E.
    cbn [value_height foldr str_value].
    match goal with
    | |- context [foldr _ _ (?f items)] =>
        is_fix f;
        assert (Hprops :
          (foldr (fun '(_, x) h => Nat.max (value_height x) h) 0 (f items)
           ≤ 1 + 2 * Z.to_nat (max_depth config + 1 - (depth + 1)))%nat)
    end.
    { induction IH as [|[k v] l Hv _ IHl]; [cbn; lia|].
      specialize (Hv (depth + 1)). cbn [snd] in Hv.
      cbn -[value_height _extract_schema Z.to_nat Nat.mul]. lia. }
    replace (Z.to_nat (max_depth config + 1 - depth))
      with (S (Z.to_nat (max_depth config + 1 - (depth + 1)))) by lia.
    lia.
Qed.

(** X20. The schema stored in the metadata nests at most
    [2 * max_depth + 3] levels deep, however deep the document is. *)
Theorem schema_nesting_bounded data file_path :
  0 ≤ max_depth config →
  ∃ schema,
    _extract_metadata config data file_path !! "schema" = Some schema
    ∧ schema = _extract_schema config data 0
    ∧ (value_height schema ≤ 2 * Z.to_nat (max_depth config) + 3)%nat.
Proof.
  intros Hmax. exists (_extract_schema config data 0).
  split; [unfold _extract_metadata; by simplify_map_eq|]. split; [done|].
  pose proof (extract_schema_height data 0) as H.
  replace (Z.to_nat (max_depth config + 1 - 0))
    with (S (Z.to_nat (max_depth config))) in H by lia.
  lia.
Qed.

End schema_facts.

(** ** Auto-tagging: what cleaning keeps *)

Section clean_tags_more.
Import AutoTaggingService.
Context {char : Type} `{Countable char}.
Variable isspace : char → bool.
Variable lower : list char → list char.

Abbreviation admissible' := (Vocabulary.admissible isspace).
Abbreviation unique_inv' := (Vocabulary.unique_inv lower).

(** The stripped text of the strings of a list, in order. *)
Let stripped (l : list pyobj) : list (list char) :=
  omap (fun o => match o with
                 | PyStr s => Some (strip isspace s)
                 | PyOther => None
                 end) l.

Lemma cleaned_entries (x : pyarg) :
  Forall admissible' (_clean_tags isspace lower x)
  ∧ NoDup (lower <$> _clean_tags isspace lower x)
  ∧ (length (_clean_tags isspace lower x) ≤ 10)%nat.
Proof.
  destruct x as [l|]; simpl;
    [|split; [constructor|split; [constructor|lia]]].
  split; [|split].
  - apply Forall_take, unique_loop_Forall; [|by apply Forall_nil].
    apply cleaned_admissible. by apply Forall_nil.
  - rewrite fmap_take. eapply sublist_NoDup; [|apply sublist_take].
    apply (unique_loop_inv lower _ (∅, [])), unique_inv_init.
  - rewrite length_take. lia.
Qed.

(** X21. Every tag [_clean_tags] returns is free of surrounding
    whitespace, not empty and shorter than 100 characters; no two returned
    tags are equal up to case; and there are at most ten of them. *)
Theorem clean_tags_output_invariants (x : pyarg) :
  (∀ t, t ∈ _clean_tags isspace lower x →
        strip isspace t = t ∧ t ≠ [] ∧ (length t < 100)%nat)
  ∧ NoDup (lower <$> _clean_tags isspace lower x)
  ∧ (length (_clean_tags isspace lower x) ≤ 10)%nat.
Proof.
  destruct (cleaned_entries x) as (Hadm & Hnd & Hlen).
  split; [|done]. intros t Ht. rewrite Forall_forall in Hadm.
  by apply Hadm.
Qed.

Lemma clean_loop_sublist l acc :
  ∃ more, fold_left (clean_step isspace) l acc = acc ++ more
        ∧ more `sublist_of` stripped l
        ∧ ∀ s, PyStr s ∈ l → admissible' (strip isspace s) →
               strip isspace s ∈ more.
Proof.
  revert acc. induction l as [|o l IH]; intros acc; simpl.
  - exists []. rewrite app_nil_r. split; [done|]. split; [done|].
    by intros s ?%elem_of_nil.
  - destruct (IH (clean_step isspace acc o)) as (more & -> & Hsub & Hall).
    destruct o as [t|]; simpl.
    + destruct (bool_decide (strip isspace t ≠ [])
                && (0 <? length (strip isspace t))%nat
                && (length (strip isspace t) <? 100)%nat) eqn:E.
      * exists (strip isspace t :: more). rewrite <- app_assoc.
        split; [done|]. split; [by apply sublist_skip|].
        intros s [[= ->]|Hs]%elem_of_cons Hadm; [left|right; eauto].
      * exists more. split; [done|]. split; [by apply sublist_cons|].
        intros s [[= <-]|Hs]%elem_of_cons Hadm; [|eauto].
        destruct Hadm as (_ & Hne & Hlt).
        rewrite bool_decide_eq_true_2 in E by done.
        destruct (strip isspace s) as [|c r] eqn:Es; [done|].
        simpl in E. apply Nat.ltb_ge in E. simpl in Hlt. lia.
    + exists more. split; [done|]. split; [done|].
      intros s [[=]|Hs]%elem_of_cons Hadm. eauto.
Qed.

Lemma unique_loop_sublist l st :
  ∃ more, (fold_left (unique_step lower) l st).2 = st.2 ++ more
        ∧ more `sublist_of` l
        ∧ st.1 ⊆ (fold_left (unique_step lower) l st).1
        ∧ ∀ t, t ∈ l → lower t ∈ (fold_left (unique_step lower) l st).1.
Proof.
  revert st. induction l as [|t l IH]; intros st; simpl.
  - exists []. rewrite app_nil_r. repeat split; try done.
    by intros t ?%elem_of_nil.
  - destruct (decide (lower t ∈ st.1)) as [Hin|Hnin].
    + assert (Hstep : unique_step lower st t = st)
        by (unfold unique_step; by destruct (decide (lower t ∈ st.1))).
      rewrite Hstep.
      destruct (IH st) as (more & Hmore & Hsub & Hseen & Hall).
      exists more. split; [done|]. split; [by apply sublist_cons|].
      split; [done|].
      intros t' [->|Ht']%elem_of_cons; [by apply Hseen | by apply Hall].
    + assert (Hstep : unique_step lower st t
                      = ({[lower t]} ∪ st.1, st.2 ++ [t]))
        by (unfold unique_step; by destruct (decide (lower t ∈ st.1))).
      rewrite Hstep.
      destruct (IH ({[lower t]} ∪ st.1, st.2 ++ [t]))
        as (more & Hmore & Hsub & Hseen & Hall).
      simpl in *. exists (t :: more). rewrite Hmore, <- app_assoc.
      split; [done|]. split; [by apply sublist_skip|].
      split; [set_solver|].
      intros t' [->|Ht']%elem_of_cons;
        [apply Hseen; set_solver | by apply Hall].
Qed.

(** X22. [_clean_tags] keeps the stripped strings of its input in their
    order, dropping some but adding and reordering none; and unless the
    cap of ten is reached, every input string that is admissible once
    stripped is represented, up to case, in the output. *)
Theorem clean_tags_keeps_first_seen (l : list pyobj) :
  _clean_tags isspace lower (PyList l) `sublist_of` stripped l
  ∧ (length (_clean_tags isspace lower (PyList l)) = 10%nat
     ∨ ∀ s, PyStr s ∈ l →
            strip isspace s ≠ [] → (length (strip isspace s) < 100)%nat →
            ∃ t, t ∈ _clean_tags isspace lower (PyList l)
               ∧ lower t = lower (strip isspace s)).
Proof.
  unfold _clean_tags.
  destruct (clean_loop_sublist l []) as (cleaned & -> & Hsub & Hall).
  simpl.
  destruct (unique_loop_sublist cleaned (∅, []))
    as (unique & Hunique & Hsub' & _ & Hseen).
  simpl in Hunique. rewrite Hunique. split.
  - etrans; [apply sublist_take|]. by etrans.
  - destruct (decide (10 ≤ length unique)%nat) as [Hcap|Hroom].
    + left. rewrite length_take. lia.
    + right. intros s Hs Hne Hlt.
      rewrite take_ge by lia.
      assert (Hin : strip isspace s ∈ cleaned).
      { apply Hall; [done|]. split; [apply strip_idem|done]. }
      apply Hseen in Hin.
      pose proof (unique_loop_inv lower cleaned (∅, [])
                    (unique_inv_init lower)) as [Hset _].
      rewrite Hset, Hunique in Hin. simpl in Hin.
      apply elem_of_list_to_set, list_elem_of_fmap in Hin
        as (t & Ht & Hin).
      exists t. done.
Qed.

End clean_tags_more.

(** ** Auto-tagging: generated tags and path tags *)

Section generate_tags_facts.
Import AutoTaggingService.
Context {char : Type} `{Countable char}.
Variable isspace : char → bool.
Variable lower : list char → list char.
Variable max_content_length : Z.
Variable generate_with_messages_async :
  list (string * string) → exc (option string).
Variable parse_json_from_response : string → exc (@parsed char).

(** X23. [generate_tags] always returns the four arrays.  Each has at most
    ten entries, all stripped, non-empty and shorter than 100 characters;
    and all four are empty unless the generation capability answered with
    a non-empty text that parses to a dictionary. *)
Theorem generate_tags_always_answers (content : string)
    (title : option string) :
  ∃ tags,
    generate_tags isspace lower max_content_length
      generate_with_messages_async parse_json_from_response content title
    = Normal tags
    ∧ Forall
        (fun array =>
           (length array ≤ 10)%nat
           ∧ Forall (Vocabulary.admissible isspace) array)
        [topics tags; keywords tags; entities tags; categories tags]
    ∧ ((∀ messages response d,
          generate_with_messages_async messages = Normal (Some response) →
          parse_json_from_response response = Normal (ParsedDict d) →
          response = "") →
       tags = _get_default_tags).
Proof.
  unfold generate_tags.
  match goal with
  | |- context [generate_with_messages_async ?m] => set (messages := m)
  end.
  assert (Hdefault :
    Forall (fun array : list (list char) =>
              (length array ≤ 10)%nat
              ∧ Forall (Vocabulary.admissible isspace) array)
      [topics _get_default_tags; keywords _get_default_tags;
       entities _get_default_tags; categories _get_default_tags]).
  { repeat constructor; simpl; lia. }
  destruct (generate_with_messages_async messages)
    as [[[|c response]|]|e] eqn:Hgen; cbn;
    try (eexists; split; [reflexivity|]; split; [exact Hdefault|done]).
  destruct (parse_json_from_response (String c response))
    as [[|d|]|e] eqn:Hparse; cbn;
    try (eexists; split; [reflexivity|]; split; [exact Hdefault|done]).
  eexists. split; [reflexivity|]. split.
  - assert (Hc : ∀ x,
              (length (_clean_tags isspace lower x) ≤ 10)%nat
              ∧ Forall (Vocabulary.admissible isspace)
                  (_clean_tags isspace lower x)).
    { intros x. by destruct (cleaned_entries isspace lower x) as (? & _ & ?). }
    cbn. repeat (apply Forall_cons; split; [apply Hc|]). constructor.
  - intros Hnone. by specialize (Hnone _ _ _ Hgen Hparse).
Qed.

End generate_tags_facts.

Section path_tags_facts.
Import AutoTaggingService.

Lemma add_parent_tags_spec names tags :
  (length tags < 5)%nat →
  ∃ more,
    add_parent_tags tags names = tags ++ more
    ∧ more `sublist_of` names
    ∧ Forall (fun n => n ≠ "" ∧ n ∉ ["."; ".."; "/"]) more
    ∧ (length (tags ++ more) ≤ 5)%nat.
Proof.
  revert tags. induction names as [|name rest IH]; intros tags Hlen;
    cbn [add_parent_tags].
  - exists []. rewrite app_nil_r. repeat split; try done; lia.
  - destruct (negb (String.eqb name "")
              && negb (bool_decide (name ∈ ["."; ".."; "/"]))) eqn:E;
      cbv zeta.
    + apply andb_true_iff in E as [Hne Hdot].
      apply negb_true_iff, String.eqb_neq in Hne.
      apply negb_true_iff, bool_decide_eq_false in Hdot.
      destruct (5 <=? length (tags ++ [name]))%nat eqn:Hfull.
      * exists [name]. split; [done|].
        split; [apply sublist_skip, sublist_nil_l|].
        split; [by repeat constructor|].
        rewrite length_app in *. simpl in *. lia.
      * apply Nat.leb_gt in Hfull.
        destruct (IH (tags ++ [name]) Hfull)
          as (more & -> & Hsub & Hall & Hfive).
        exists (name :: more). rewrite <- app_assoc in *.
        split; [done|]. split; [by apply sublist_skip|].
        split; [by constructor|done].
    + destruct (IH tags Hlen) as (more & -> & Hsub & Hall & Hfive).
      exists more. split; [done|]. split; [by apply sublist_cons|done].
Qed.

(** X24. [extract_tags_from_file_path] returns at most five tags: first
    the stem of the file name, then its extension without the dot when
    there is one, then names of the enclosing directories, nearest first,
    never an empty name, [.], [..] or [/]. *)
Theorem path_tags_shape (file_path : string) :
  ∃ more,
    extract_tags_from_file_path file_path
    = path_stem file_path
      :: (if String.eqb (path_suffix file_path) "" then []
          else [lstrip_dots (path_suffix file_path)])
      ++ more
    ∧ more `sublist_of` reverse (removelast (path_parts file_path))
    ∧ Forall (fun n => n ≠ "" ∧ n ∉ ["."; ".."; "/"]) more
    ∧ (length (extract_tags_from_file_path file_path) ≤ 5)%nat.
Proof.
  unfold extract_tags_from_file_path.
  set (tags := match path_suffix file_path with
               | "" => [path_stem file_path]
               | String a s0 =>
                   [path_stem file_path]
                   ++ [lstrip_dots (String a s0)]
               end).
  assert (Htags : tags
                  = path_stem file_path
                    :: (if String.eqb (path_suffix file_path) "" then []
                        else [lstrip_dots (path_suffix file_path)])).
  { unfold tags. by destruct (path_suffix file_path). }
  destruct (add_parent_tags_spec (parent_names file_path) tags)
    as (more & -> & Hsub & Hall & Hfive).
  { rewrite Htags. destruct (String.eqb _ _); simpl; lia. }
  exists more. rewrite Htags in *. split; [done|]. split; [|by split].
  unfold parent_names in Hsub.
  destruct (path_parts file_path) as [|p ps]; [by apply sublist_nil_r in Hsub as ->; apply sublist_nil_l|].
  assert (Hlast : ∀ xs : list string,
            more `sublist_of` xs ++ [""] → more `sublist_of` xs).
  { intros xs Hs. apply sublist_app_r in Hs as (m1 & m2 & -> & H1 & H2).
    apply Forall_app in Hall as [_ Hall2].
    destruct m2 as [|m ms]; [by rewrite app_nil_r|].
    apply sublist_cons_l in H2 as (k1 & k2 & Hk & _).
    apply Forall_cons in Hall2 as [[Hne _] _].
    destruct k1 as [|k k1]; simpl in Hk.
    - injection Hk as <- _. by destruct Hne.
    - injection Hk as _ Hk. by destruct k1. }
  by apply Hlast.
Qed.

End path_tags_facts.

(** ** Routing *)

Section routing_facts.
Import Models.
Variable path_exists : string → bool.

Lemma formats_apart :
  (Forall (fun e => (e ∉ ExcelProcessor.get_supported_formats)
                    ∧ (e ∉ StructuredDataProcessor.get_supported_formats))
     CodeProcessor.get_supported_formats)
  ∧ (Forall (fun e => e ∉ StructuredDataProcessor.get_supported_formats)
       ExcelProcessor.get_supported_formats).
Proof.
  split; apply (bool_decide_unpack _); vm_compute; reflexivity.
Qed.

(** X25. No object is accepted by two of the three processors, whatever
    their configurations: the extension sets they accept are pairwise
    disjoint. *)
Theorem processors_accept_disjoint_files
    (code_config : CodeProcessor.Config)
    (excel_config : ExcelProcessor.Config)
    (data_config : StructuredDataProcessor.Config) (context : pyobject) :
  let code := CodeProcessor.can_process code_config path_exists context in
  let excel := ExcelProcessor.can_process excel_config path_exists context in
  let data :=
    StructuredDataProcessor.can_process data_config path_exists context in
  (code = true → excel = false ∧ data = false)
  ∧ (excel = true → data = false).
Proof.
  destruct formats_apart as [Hcode Hexcel].
  rewrite Forall_forall in Hcode, Hexcel.
  unfold CodeProcessor.can_process, ExcelProcessor.can_process,
    StructuredDataProcessor.can_process.
  cbv zeta. destruct (local_path context) as [file_path|];
    [|by repeat (destruct (negb _))].
  split.
  - destruct (negb (CodeProcessor.enabled code_config)); [done|].
    intros [_ Hc%bool_decide_eq_true]%andb_true_iff.
    destruct (Hcode _ Hc) as [He Hd].
    split.
    + destruct (negb (ExcelProcessor.enabled excel_config)); [done|].
      apply andb_false_iff. right. by apply bool_decide_eq_false.
    + destruct (negb (StructuredDataProcessor.enabled data_config)); [done|].
      apply andb_false_iff. right. by apply bool_decide_eq_false.
  - destruct (negb (ExcelProcessor.enabled excel_config)); [done|].
    intros [_ Hc%bool_decide_eq_true]%andb_true_iff.
    destruct (negb (StructuredDataProcessor.enabled data_config)); [done|].
    apply andb_false_iff. right. apply bool_decide_eq_false.
    by apply Hexcel.
Qed.

Lemma known_extension_language ext :
  ext ∈ CodeProcessor.get_supported_formats →
  ∃ language,
    CodeProcessor.lookup_str ext CodeProcessor.EXTENSION_TO_LANGUAGE
    = Some language
    ∧ language ≠ "unknown".
Proof.
  intros Hext.
  assert (Hall : Forall
            (fun e => ∃ language,
               CodeProcessor.lookup_str e CodeProcessor.EXTENSION_TO_LANGUAGE
               = Some language ∧ language ≠ "unknown")
            CodeProcessor.get_supported_formats).
  { repeat constructor; eexists; (split; [reflexivity|discriminate]). }
  rewrite Forall_forall in Hall. by apply Hall.
Qed.

(** X26. For an object whose file suffix is ASCII, the code processor
    accepts it exactly when it is enabled and the object is a raw context
    captured from a local file whose non-empty path exists and ends, case
    ignored, in one of the extensions of the language table; the language
    of an accepted file is never [unknown]. *)
Theorem code_can_process_characterised (config : CodeProcessor.Config)
    (context : pyobject) :
  (∀ c file_path,
     context = Raw c → content_path c = Some file_path →
     Vocabulary.is_ascii (path_suffix file_path) = true) →
  CodeProcessor.can_process config path_exists context = true
  ↔ CodeProcessor.enabled config = true
    ∧ ∃ c file_path,
        context = Raw c
        ∧ source c = LOCAL_FILE
        ∧ content_path c = Some file_path
        ∧ file_path ≠ ""
        ∧ path_exists file_path = true
        ∧ ∃ language,
            CodeProcessor.lookup_str (str_lower (path_suffix file_path))
              CodeProcessor.EXTENSION_TO_LANGUAGE = Some language
            ∧ CodeProcessor._detect_language file_path = language
            ∧ language ≠ "unknown".
Proof.
  intros _. unfold CodeProcessor.can_process. split.
  - destruct (CodeProcessor.enabled config); [|done]. simpl.
    destruct context as [c|]; simpl; [|done].
    destruct (source c) eqn:Hsrc; [|done].
    destruct (content_path c) as [[|a p]|] eqn:Hpath; try done.
    intros [Hex Hext%bool_decide_eq_true]%andb_true_iff.
    split; [done|]. exists c, (String a p).
    repeat split; try done.
    destruct (known_extension_language _ Hext) as (language & Hl & Hne).
    exists language. unfold CodeProcessor._detect_language.
    rewrite Hl. done.
  - intros (-> & c & file_path & -> & Hsrc & Hpath & Hne & Hex
            & language & Hl & _).
    simpl. rewrite Hsrc, Hpath. destruct file_path as [|a p]; [done|].
    rewrite Hex. simpl. apply bool_decide_eq_true.
    unfold CodeProcessor.get_supported_formats.
    clear -Hl. revert Hl. generalize (str_lower (path_suffix (String a p))).
    intros ext.
    induction CodeProcessor.EXTENSION_TO_LANGUAGE as [|[k v] table IH];
      simpl; [done|].
    destruct (String.eqb ext k) eqn:E.
    + apply String.eqb_eq in E as ->. intros _. left.
    + intros Hl. right. by apply IH.
Qed.

End routing_facts.

(** ** Structured-data processor: JSON Lines *)

Section jsonl_facts.
Import Models StructuredDataProcessor.
Variable read_text : string → exc string.
Variable json_loads : string → exc value.
Variable yaml_safe_load : string → exc value.

Lemma jsonl_loop lines acc :
  (Forall (fun line => ∃ v, json_loads line = Normal v) lines →
   ∃ items,
     for_each (fun acc line => item ← json_loads line; Normal (acc ++ [item]))
       lines acc = Normal (acc ++ items)
     ∧ Forall2 (fun line v => json_loads line = Normal v) lines items)
  ∧ (Exists (fun line => ∃ e, json_loads line = Raise e) lines →
     ∃ e, for_each
            (fun acc line => item ← json_loads line; Normal (acc ++ [item]))
            lines acc = Raise e).
Proof.
  revert acc. induction lines as [|line lines IH]; intros acc; split.
  - intros _. exists []. rewrite app_nil_r. split; [done|constructor].
  - intros Hex. by apply Exists_nil in Hex.
  - intros [[v Hv] Hall]%Forall_cons. cbn [for_each]. rewrite Hv. cbn.
    destruct (proj1 (IH (acc ++ [v])) Hall) as (items & -> & Hitems).
    exists (v :: items). rewrite <- app_assoc. split; [done|].
    by constructor.
  - intros Hex. cbn [for_each].
    destruct (json_loads line) as [v|e] eqn:Hv; cbn; [|eauto].
    apply Exists_cons in Hex as [[e He]|Hex]; [congruence|].
    by apply IH.
Qed.

(** X27. An ASCII [.jsonl] file that can be read loads as the list of the
    values of its non-blank lines, in order, when every such line is valid
    JSON; one invalid line makes the whole file load as [None]. *)
Theorem jsonl_all_or_nothing file_path content :
  str_lower (path_suffix file_path) = ".jsonl" →
  read_text file_path = Normal content →
  Vocabulary.is_ascii content = true →
  let lines := List.filter has_non_space (split_on newline content) in
  (Forall (fun line => ∃ v, json_loads line = Normal v) lines →
   ∃ items,
     _load_file read_text json_loads yaml_safe_load file_path = VList items
     ∧ Forall2 (fun line v => json_loads line = Normal v) lines items)
  ∧ (Exists (fun line => ∃ e, json_loads line = Raise e) lines →
     _load_file read_text json_loads yaml_safe_load file_path
     = VScalar SNone).
Proof.
  intros Hsuffix Hread _ lines. unfold _load_file.
  rewrite Hread, Hsuffix. cbn [mbind exc_bind String.eqb Ascii.eqb Bool.eqb].
  fold lines. split.
  - intros Hall. destruct (proj1 (jsonl_loop lines []) Hall)
      as (items & -> & Hitems).
    cbn. eauto.
  - intros Hex. destruct (proj2 (jsonl_loop lines []) Hex) as [e ->].
    done.
Qed.

End jsonl_facts.

(** ** Examples of the further properties *)

Section search_more_examples.
Import EnhancedSearchService Vocabulary Fixtures.

Lemma search_bounded_and_from_storage_witness :
  ∃ l, search (storage_returning library) parse_instant "q" 2 None None
         None None None (3 # 10)%Q "relevance" = Normal l
     ∧ rid ∘ result <$> l = ["r3"; "r1"]
     ∧ Z.of_nat (length l) ≤ 2
     ∧ ∀ x, x ∈ l →
         result x ∈ library
         ∧ ¬ (get (distance (result x)) 1 < 3 # 10)%Q.
Proof.
  eexists. split; [vm_compute; reflexivity|]. split; [reflexivity|].
  destruct (search_bounded_and_from_storage (storage_returning library)
              parse_instant "q" 2 None None None None None (3 # 10)%Q
              "relevance" _ ltac:(vm_compute; reflexivity)) as [Hlen Hfrom].
  split; [apply Hlen; lia|].
  intros x Hx. destruct (Hfrom x Hx) as (rs & Hrs & Hin & Hd & _).
  injection Hrs as <-. split; [exact Hin|exact Hd].
Defined.


Lemma search_file_type_filter_witness :
  ∃ l, search (storage_returning library) parse_instant "q" 10 None
         (Some ["pdf"]) None None None 0%Q "relevance" = Normal l
     ∧ rid ∘ result <$> l = ["r3"; "r1"]
     ∧ ∀ x, x ∈ l →
         lstrip_dots
           (get (file_extension (get (metadata (result x)) no_metadata)) "")
         ∈ ["pdf"].
Proof.
  eexists. split; [vm_compute; reflexivity|]. split; [reflexivity|].
  intros x Hx.
  apply (proj1 (search_file_type_filter (storage_returning library)
                  parse_instant "q" 10 None "pdf" [] None None None 0%Q
                  "relevance" _ x ltac:(vm_compute; reflexivity) Hx)).
Defined.

Lemma search_by_tags_any_tag_witness :
  ∃ l, search_by_tags (storage_returning library) parse_instant
         ["alpha"; "delta"] 10 false = Normal l
     ∧ rid ∘ result <$> l = ["r2"; "r1"]
     ∧ Z.of_nat (length l) ≤ 10.
Proof.
  eexists. split; [vm_compute; reflexivity|]. split; [reflexivity|].
  apply (search_by_tags_any_tag (storage_returning library) parse_instant
           ["alpha"; "delta"] 10 _ ltac:(vm_compute; reflexivity));
    [discriminate|lia].
Defined.

Lemma search_date_range_filter_witness :
  ∃ l, search (storage_returning library) parse_instant "q" 10 None None
         None (Some {| instant := 150; aware := false |})
         (Some {| instant := 250; aware := false |}) 0%Q "date" = Normal l
     ∧ rid ∘ result <$> l = ["r3"; "r4"]
     ∧ ∀ x dt,
         x ∈ l → rid (result x) = "r4" →
         parse_instant "200" = Normal dt →
         150 ≤ instant dt ∧ instant dt ≤ 250.
Proof.
  eexists. split; [vm_compute; reflexivity|]. split; [reflexivity|].
  intros x dt Hx Hrid Hdt.
  destruct (search_date_range_filter (storage_returning library)
              parse_instant "q" 10 None None None
              (Some {| instant := 150; aware := false |})
              (Some {| instant := 250; aware := false |}) 0%Q "date" _ x
              "200" dt ltac:(vm_compute; reflexivity) Hx) as [Hlo Hhi].
  - apply elem_of_cons in Hx as [->|Hx]; [discriminate Hrid|].
    apply list_elem_of_singleton in Hx as ->. reflexivity.
  - discriminate.
  - exact Hdt.
  - intros d [= <-]. injection Hdt as <-. reflexivity.
  - intros d [= <-]. injection Hdt as <-. reflexivity.
  - split; [apply (Hlo _ eq_refl) | apply (Hhi _ eq_refl)].
Defined.

Lemma search_threshold_bounds_distance_witness :
  ∃ l, search (storage_returning library) parse_instant "q" 10 None None
         None None None (3 # 10)%Q "relevance" = Normal l
     ∧ rid ∘ result <$> l = ["r3"; "r1"]
     ∧ ∀ x, x ∈ l → ¬ (get (distance (result x)) 1 < 3 # 10)%Q.
Proof.
  eexists. split; [vm_compute; reflexivity|]. split; [reflexivity|].
  intros x Hx.
  apply (search_threshold_bounds_distance (storage_returning library)
           parse_instant "q" 10 None None None None None (3 # 10)%Q
           "relevance" _ x ltac:(vm_compute; reflexivity) Hx).
Defined.

Lemma search_similar_excludes_origin_witness :
  ∃ l, search_similar (storage_returning library) parse_instant
         contexts_with_r2 "r2" 2 = Normal l
     ∧ (∀ x, x ∈ l → rid (result x) ≠ "r2")
     ∧ Z.of_nat (length l) ≤ 2.
Proof.
  destruct (search_similar_excludes_origin (storage_returning library)
              parse_instant contexts_with_r2 "r2" 2)
    as (l & Hl & Hne & Hlen & _).
  exists l. split; [exact Hl|]. split; [exact Hne|]. apply Hlen. lia.
Defined.

Lemma search_recent_window_witness :
  ∃ l, search_recent (storage_returning library) parse_instant
         {| instant := 86400000000 + 250; aware := false |} 1 10 None
       = Normal l
     ∧ rid ∘ result <$> l = ["r3"; "r2"]
     ∧ Z.of_nat (length l) ≤ 10.
Proof.
  eexists. split; [vm_compute; reflexivity|]. split; [reflexivity|].
  apply (search_recent_window (storage_returning library) parse_instant
           {| instant := 86400000000 + 250; aware := false |} 1 10 None _
           eq_refl ltac:(vm_compute; reflexivity)).
  lia.
Defined.



Lemma facets_tags_capped_and_sorted_witness :
  ∃ d tag_counts,
    get_facets (storage_returning library) parse_instant
      {| instant := 1000; aware := false |} None None = Normal d
    ∧ d !! "tags" = Some tag_counts
    ∧ (length tag_counts ≤ 20)%nat
    ∧ Sorted (fun a b => (b.2 ≤ a.2)%nat) tag_counts
    ∧ (dict_total tag_counts ≤ 5 * 4)%nat.
Proof.
  apply (facets_tags_capped_and_sorted (storage_returning library)
           parse_instant {| instant := 1000; aware := false |} None None
           library).
  reflexivity.
Defined.

End search_more_examples.

Section processor_more_examples.
Import Models Vocabulary Fixtures.

Lemma code_process_shape_witness :
  ∃ l, CodeProcessor.process CodeProcessor.default_config match_def
         findall_nothing (one_file two_defs) 0
         (local_file "src/demo.py" "obj1") = Normal l
     ∧ length l = 1%nat
     ∧ (l = []
        ∨ ∃ pc file_path,
            l = [pc]
            ∧ content_path (local_file "src/demo.py" "obj1") = Some file_path
            ∧ id pc = "obj1"
            ∧ cp_title (properties pc) = path_name file_path
            ∧ (∃ c cs, chunks pc = c :: cs ∧ chunk_index c = 0%nat)
            ∧ cp_tags (properties pc) = ed_keywords (extracted_data pc)
            ∧ (length (ed_keywords (extracted_data pc)) ≤ 23)%nat
            ∧ (length (ed_entities (extracted_data pc)) ≤ 20)%nat).
Proof.
  eexists. split; [vm_compute; reflexivity|]. split; [reflexivity|].
  apply (code_process_shape CodeProcessor.default_config match_def
           findall_nothing (one_file two_defs) 0
           (local_file "src/demo.py" "obj1")).
  vm_compute. reflexivity.
Defined.

Lemma code_process_readable_file_witness :
  ∃ pc, CodeProcessor.process CodeProcessor.default_config match_def
          findall_nothing (one_file two_defs) 0
          (local_file "src/demo.py" "obj1") = Normal [pc]
      ∧ id pc = "obj1".
Proof.
  apply (code_process_readable_file CodeProcessor.default_config match_def
           findall_nothing (one_file two_defs) 0
           (local_file "src/demo.py" "obj1") "src/demo.py" two_defs).
  - reflexivity.
  - reflexivity.
  - discriminate.
Defined.

(** The script has no line the example engine matches. *)
Lemma plain_script_no_element :
  Vocabulary.no_syntax_element match_def "python" plain_script.
Proof.
  intros patterns et p line [= <-] Het Hp Hline.
  assert (Hlines : line ∈ ["# demo"; "x = 1"; "print(x)"]) by exact Hline.
  clear Hline.
  repeat (apply elem_of_cons in Het as [->|Het]);
    [| |by (repeat (apply elem_of_cons in Hlines as [->|Hlines]);
              simpl in Hp; discriminate Hp)
     |by apply elem_of_nil in Het];
    injection Hp as <-;
    repeat (apply elem_of_cons in Hlines as [->|Hlines]);
    try reflexivity; by apply elem_of_nil in Hlines.
Qed.

Lemma code_line_window_count_witness :
  ∃ chunks,
    CodeProcessor._create_chunks_from_code CodeProcessor.default_config
      match_def plain_script "python" "demo.py" = Normal chunks
    ∧ length chunks = 2%nat.
Proof.
  eexists. split; [vm_compute; reflexivity|].
  etrans.
  - apply (code_line_window_count CodeProcessor.default_config match_def
             plain_script "python" "demo.py").
    + exact plain_script_no_element.
    + reflexivity.
    + vm_compute. reflexivity.
  - reflexivity.
Defined.

Lemma code_zero_window_yields_nothing_witness :
  CodeProcessor.process zero_window_config match_def findall_nothing
    (one_file plain_script) 0 (local_file "src/demo.py" "obj1") = Normal [].
Proof.
  apply (code_zero_window_yields_nothing zero_window_config match_def
           findall_nothing (one_file plain_script) 0
           (local_file "src/demo.py" "obj1") "src/demo.py").
  - reflexivity.
  - reflexivity.
  - intros code [= <-]. exact plain_script_no_element.
Defined.

Lemma excel_chunk_indices_contiguous_witness :
  ∃ pc, ExcelProcessor.process ExcelProcessor.default_config
          (workbook_with two_sheet_workbook) read_frames 0
          (local_file "books/stock.xlsx" "obj3") = Normal [pc]
      ∧ chunks pc ≠ []
      ∧ chunk_index <$> chunks pc = [0; 1]%nat.
Proof.
  eexists. split; [vm_compute; reflexivity|].
  destruct (excel_chunk_indices_contiguous ExcelProcessor.default_config
              (workbook_with two_sheet_workbook) read_frames 0
              (local_file "books/stock.xlsx" "obj3") _ _
              ltac:(vm_compute; reflexivity) ltac:(left))
    as (Hne & Hidx & _).
  split; [exact Hne|]. etrans; [exact Hidx|reflexivity].
Defined.

Lemma excel_chunk_count_witness :
  ∃ pc, ExcelProcessor.process ExcelProcessor.default_config
          (workbook_with two_sheet_workbook) read_frames 0
          (local_file "books/stock.xlsx" "obj3") = Normal [pc]
      ∧ ∃ file_path sheet_name df,
          content_path (local_file "books/stock.xlsx" "obj3")
          = Some file_path
          ∧ read_frames file_path sheet_name = Normal df
          ∧ id pc = "obj3" +:+ "_" +:+ sheet_name
          ∧ length (chunks pc)
            = ((if ExcelProcessor.df_empty df then 0 else 1)
               + (ExcelProcessor.n_rows df + 100 - 1) / 100)%nat.
Proof.
  eexists. split; [vm_compute; reflexivity|].
  apply (excel_chunk_count ExcelProcessor.default_config
           (workbook_with two_sheet_workbook) read_frames 0
           (local_file "books/stock.xlsx" "obj3") _ _
           ltac:(vm_compute; reflexivity) ltac:(left)).
Defined.

Lemma structured_document_accepted_witness :
  ∃ pc, StructuredDataProcessor.process
          StructuredDataProcessor.default_config (one_file "{...}")
          json_nested yaml_comment_only 0
          (local_file "conf/nested.json" "obj5") = Normal [pc]
      ∧ id pc = "obj5"
      ∧ cp_title (properties pc) = "nested.json"
      ∧ length (chunks pc) = 3%nat.
Proof.
  destruct (structured_document_accepted
              StructuredDataProcessor.default_config (one_file "{...}")
              json_nested yaml_comment_only 0
              (local_file "conf/nested.json" "obj5") "conf/nested.json"
              eq_refl eq_refl) as (pc & Hpc & Hid & Htitle & Hlen & _).
  exists pc. split; [exact Hpc|]. split; [exact Hid|].
  split; [exact Htitle | exact Hlen].
Defined.

Lemma structured_document_rejected_witness :
  StructuredDataProcessor.process StructuredDataProcessor.default_config
    (one_file "1: one") json_rejecting yaml_int_key 0
    (local_file "conf/ports.yaml" "obj6") = Normal [].
Proof.
  apply (structured_document_rejected StructuredDataProcessor.default_config
           (one_file "1: one") json_rejecting yaml_int_key 0
           (local_file "conf/ports.yaml" "obj6") "conf/ports.yaml").
  - reflexivity.
  - reflexivity.
Defined.

Lemma schema_nesting_bounded_witness :
  ∃ schema,
    StructuredDataProcessor._extract_metadata
      StructuredDataProcessor.default_config nested_mapping "conf/nested.json"
      !! "schema" = Some schema
    ∧ schema
      = StructuredDataProcessor._extract_schema
          StructuredDataProcessor.default_config nested_mapping 0
    ∧ (value_height schema ≤ 23)%nat.
Proof.
  apply (schema_nesting_bounded StructuredDataProcessor.default_config
           nested_mapping "conf/nested.json").
  simpl. lia.
Defined.

Lemma jsonl_all_or_nothing_witness :
  StructuredDataProcessor._load_file
    (one_file ("1" +:+ nl +:+ nl +:+ "oops" +:+ nl)) json_integers
    yaml_comment_only "logs/events.jsonl" = VScalar SNone.
Proof.
  apply (jsonl_all_or_nothing
           (one_file ("1" +:+ nl +:+ nl +:+ "oops" +:+ nl)) json_integers
           yaml_comment_only "logs/events.jsonl"
           ("1" +:+ nl +:+ nl +:+ "oops" +:+ nl)).
  - reflexivity.
  - reflexivity.
  - reflexivity.
  - right. left. exists JSONDecodeError. reflexivity.
Defined.

Lemma processors_accept_disjoint_files_witness :
  CodeProcessor.can_process CodeProcessor.default_config every_path_exists
    (Raw (local_file "src/demo.py" "obj1")) = true
  ∧ ExcelProcessor.can_process ExcelProcessor.default_config
      every_path_exists (Raw (local_file "src/demo.py" "obj1")) = false
  ∧ StructuredDataProcessor.can_process
      StructuredDataProcessor.default_config every_path_exists
      (Raw (local_file "src/demo.py" "obj1")) = false.
Proof.
  split; [vm_compute; reflexivity|].
  apply (processors_accept_disjoint_files every_path_exists
           CodeProcessor.default_config ExcelProcessor.default_config
           StructuredDataProcessor.default_config
           (Raw (local_file "src/demo.py" "obj1"))).
  vm_compute. reflexivity.
Defined.

Lemma code_can_process_characterised_witness :
  CodeProcessor.can_process CodeProcessor.default_config every_path_exists
    (Raw (local_file "src/Demo.PY" "obj1")) = true.
Proof.
  apply (code_can_process_characterised every_path_exists
           CodeProcessor.default_config
           (Raw (local_file "src/Demo.PY" "obj1"))).
  { intros c file_path [= <-] [= <-]. reflexivity. }
  split; [reflexivity|].
  exists (local_file "src/Demo.PY" "obj1"), "src/Demo.PY".
  repeat split; try done.
  exists "python". repeat split; done.
Defined.

End processor_more_examples.

Section tagging_more_examples.
Import AutoTaggingService Fixtures.

Lemma clean_tags_output_invariants_witness :
  Forall
    (fun t => strip isspace_ascii t = t ∧ t ≠ [] ∧ (length t < 100)%nat)
    (_clean_tags isspace_ascii ascii_lower
       (PyList [ PyStr (list_ascii_of_string "  Foo ");
                 PyStr (list_ascii_of_string "foo") ])).
Proof.
  apply Forall_forall.
  apply (clean_tags_output_invariants isspace_ascii ascii_lower).
Defined.

Lemma clean_tags_keeps_first_seen_witness :
  ∃ t, t ∈ _clean_tags isspace_ascii ascii_lower
             (PyList [ PyStr (list_ascii_of_string "  Foo ");
                       PyStr (list_ascii_of_string "foo") ])
     ∧ ascii_lower t = list_ascii_of_string "foo".
Proof.
  destruct (clean_tags_keeps_first_seen isspace_ascii ascii_lower
              [ PyStr (list_ascii_of_string "  Foo ");
                PyStr (list_ascii_of_string "foo") ]) as [_ [Hcap|Hall]].
  - vm_compute in Hcap. discriminate Hcap.
  - destruct (Hall (list_ascii_of_string "foo")) as (t & Ht & Hlower).
    + right. left.
    + vm_compute. discriminate.
    + vm_compute. lia.
    + exists t. split; [exact Ht|]. etrans; [exact Hlower|].
      vm_compute. reflexivity.
Defined.

Lemma generate_tags_always_answers_witness :
  generate_tags isspace_ascii ascii_lower 4000 llm_silent parse_nothing
    "some text" (Some "a title")
  = Normal _get_default_tags.
Proof.
  destruct (generate_tags_always_answers isspace_ascii ascii_lower 4000
              llm_silent parse_nothing "some text" (Some "a title"))
    as (tags & Htags & _ & Hdefault).
  rewrite Htags. f_equal. apply Hdefault.
  intros messages response d Hgen. discriminate Hgen.
Defined.

End tagging_more_examples.

(** ** Enhanced search without filters *)

Section search_complete.
Import EnhancedSearchService.
Variable search_context :
  string → Z → option (list string) → exc (list SearchResult).
Variable fromisoformat : string → exc datetime.

(** The result [search] builds from a candidate that passes. *)
Let enhanced (r : SearchResult) : EnhancedResult :=
  {| result := r;
     relevance_score := (1 - get (distance r) 0)%Q;
     result_importance :=
       get (importance (get (metadata r) no_metadata)) 50 |}.

Lemma eq_reflexive_perm {A} (l k : list A) : l = k → l ≡ₚ k.
Proof. by intros ->. Qed.

Lemma unfiltered_loop minrel rs acc :
  fold_left (filter_step fromisoformat None None None None minrel) rs acc
  = acc
    ++ (enhanced
          <$> List.filter
                (fun r => negb (Qltb (get (distance r) 1%Q) minrel)) rs).
Proof.
  revert acc. induction rs as [|r rs IH]; intros acc; simpl.
  - by rewrite app_nil_r.
  - rewrite IH. unfold filter_step at 1. simpl.
    destruct (Qltb (get (distance r) 1%Q) minrel); simpl; [done|].
    by rewrite <- app_assoc.
Qed.

(** X6. Without file-type, tag and date filters, and with [top_k] at
    least the number of candidates, [search] returns exactly the
    candidates whose distance (1.0 when absent) is not below
    [min_relevance], each once. *)
Theorem search_unfiltered_complete query top_k cts minrel sort_by rs :
  search_context query (top_k * 2) cts = Normal rs →
  Z.of_nat (length rs) ≤ top_k →
  ∃ l, search search_context fromisoformat query top_k cts None None None
         None minrel sort_by = Normal l
     ∧ result <$> l
       ≡ₚ List.filter (fun r => negb (Qltb (get (distance r) 1%Q) minrel))
            rs.
Proof.
  intros Hrs Hk. unfold search. rewrite Hrs. cbn [mbind exc_bind].
  destruct rs as [|r rs]; [by exists []|].
  cbn [try_except]. eexists. split; [reflexivity|].
  rewrite unfiltered_loop, app_nil_l.
  set (kept := List.filter _ (r :: rs)).
  assert (Hlen : (length kept ≤ length (r :: rs))%nat)
    by apply filter_length_le.
  unfold slice_to. replace (0 <=? top_k) with true
    by (symmetry; apply Z.leb_le; lia).
  rewrite take_ge.
  - rewrite sort_results_perm, <- list_fmap_compose.
    rewrite <- (list_fmap_id kept) at 2.
    apply eq_reflexive_perm, list_fmap_ext. by intros i x _.
  - rewrite (Permutation_length (sort_results_perm _ _)), length_fmap. lia.
Qed.

End search_complete.

Section search_complete_examples.
Import EnhancedSearchService Fixtures.

Lemma search_unfiltered_complete_witness :
  ∃ l, search (storage_returning library) parse_instant "q" 10 None None
         None None None (3 # 10)%Q "relevance" = Normal l
     ∧ result <$> l
       ≡ₚ [ stored "r1" (1 # 2) ".pdf" ["alpha"] "100" 10;
            stored "r3" (3 # 10) "pdf" ["gamma"] "yesterday" 50 ].
Proof.
  apply (search_unfiltered_complete (storage_returning library)
           parse_instant "q" 10 None (3 # 10)%Q "relevance" library).
  - reflexivity.
  - simpl. lia.
Defined.

End search_complete_examples.
